(** * kcp: the custom admission plugin and the workload scheduling scenario

    Part one is a shallow embedding of the three revisions of the admission
    plugin's [Admit]: the two of
    [pkg/admission/customadmission/mutating_plugin.go] and the one quoted in
    [docs/content/en/main/concepts/syncer.md].  Each runs over its
    package-level quota counters, which are passed in and out as state.
    Go's [int] is taken at its 64-bit size (amd64 and arm64, the platforms
    the server is built for) and is a [Z] with the wrap-around written out.

    Part two is about [test/e2e/reconciler/scheduling/controller_test.go].
    The components the test drives are not among the sources; they are
    modelled from the design text, and the test's objects and checks are
    embedded from its source.

    Definitions come first, theorems after them. *)

From Stdlib Require Import ZArith Lia Bool Ascii String.
From stdpp Require Import gmap strings list fin_maps.

Open Scope Z_scope.

(** ** Go integers *)

Definition int_bits : Z := 64.
Definition MaxInt : Z := 2 ^ (int_bits - 1) - 1.
Definition MinInt : Z := - 2 ^ (int_bits - 1).

(** Two's complement wrap-around of an [int] result. *)
Definition wrap (z : Z) : Z :=
  (z + 2 ^ (int_bits - 1)) mod 2 ^ int_bits - 2 ^ (int_bits - 1).

Definition in_int (z : Z) : Prop := MinInt <= z <= MaxInt.

(** ** strconv.Atoi

    [Atoi], [ParseInt] and [ParseUint] of Go's standard library, for base
    10 and the bit size of [int]; a string is its bytes.  Each returns its
    value together with its error.  The handler writes
    [configuredLimit, _ := strconv.Atoi(...)]: it drops the error and keeps
    the value, which is 0 after a syntax error and the nearest bound after a
    range error. *)

(** [NumError.Err] *)
Inductive NumError := ErrSyntax | ErrRange.

Definition maxUint64 : Z := 2 ^ 64 - 1.

Definition is_digit (c : Ascii.ascii) : bool :=
  let n := Z.of_N (Ascii.N_of_ascii c) in (48 <=? n) && (n <=? 57).

Definition digit_value (c : Ascii.ascii) : Z := Z.of_N (Ascii.N_of_ascii c) - 48.

(** The loop of [ParseUint] over the bytes.  A byte that is no decimal
    digit is a syntax error (a letter is a digit of value 10 or more, which
    base 10 refuses; the underscore is read in base 0 only).  The two range
    checks come before the next byte is looked at: [n >= cutoff], with
    [cutoff = maxUint64/10 + 1], and the overflow of [n*10 + d]. *)
Fixpoint parseUintLoop (s : string) (n : Z) : Z * option NumError :=
  match s with
  | EmptyString => (n, None)
  | String c r =>
      if negb (is_digit c) then (0, Some ErrSyntax) else
      if maxUint64 / 10 + 1 <=? n then (maxUint64, Some ErrRange) else
      let n1 := n * 10 + digit_value c in
      if maxUint64 <? n1 then (maxUint64, Some ErrRange) else
      parseUintLoop r n1
  end.

(** [ParseUint(s, 10, 0)] *)
Definition ParseUint (s : string) : Z * option NumError :=
  match s with
  | EmptyString => (0, Some ErrSyntax)
  | _ => parseUintLoop s 0
  end.

(** [ParseInt(s, 10, 0)]: the sign, then [ParseUint]; a syntax error gives
    0, and a magnitude past the bound (also [ParseUint]'s range error, whose
    value is [maxUint64]) gives the bound. *)
Definition ParseInt (s : string) : Z * option NumError :=
  match s with
  | EmptyString => (0, Some ErrSyntax)
  | String c r =>
      let neg := Ascii.eqb c "-"%char in
      let s' := if Ascii.eqb c "+"%char || neg then r else s in
      let '(un, err) := ParseUint s' in
      match err with
      | Some ErrSyntax => (0, Some ErrSyntax)
      | _ =>
          let cutoff := 2 ^ (int_bits - 1) in
          if negb neg && (cutoff <=? un) then (cutoff - 1, Some ErrRange)
          else if neg && (cutoff <? un) then (- cutoff, Some ErrRange)
          else (if neg then - un else un, None)
      end
  end.

(** The loop of [Atoi]'s fast path: [ch -= '0'; if ch > 9 { syntax error };
    n = n*10 + int(ch)]. *)
Fixpoint atoiLoop (s : string) (n : Z) : option Z :=
  match s with
  | EmptyString => Some n
  | String ch r =>
      if is_digit ch then atoiLoop r (n * 10 + digit_value ch) else None
  end.

(** [strconv.Atoi(s)]: the fast path for a string of 1 to 18 bytes, in
    which [n] cannot overflow, and otherwise [ParseInt(s, 10, 0)]. *)
Definition Atoi (s : string) : Z * option NumError :=
  let sLen := Z.of_nat (String.length s) in
  if (0 <? sLen) && (sLen <? 19) then
    match s with
    | EmptyString => (0, Some ErrSyntax)
    | String c r =>
        let s' := if Ascii.eqb c "-"%char || Ascii.eqb c "+"%char then r else s in
        match s' with
        | EmptyString => (0, Some ErrSyntax)
        | _ =>
            match atoiLoop s' 0 with
            | None => (0, Some ErrSyntax)
            | Some n => (if Ascii.eqb c "-"%char then - n else n, None)
            end
        end
    end
  else ParseInt s.

(** ** Admission attributes

    The handlers are embedded for the calls the admission chain makes: the
    context and the attributes are not nil, and an object that is a
    [metav1.Object] answers [GetName].  What the handlers use without a
    check, and may be nil, is modelled as such: the attributes' user info
    and, in the first revision, the plugin's indexer. *)

(** A [user.Info] that is not nil: the handlers read the name and the
    groups. *)
Record UserInfo := {
  GetName : string;
  GetGroups : list string
}.

(** [a.GetObject()]: either a [metav1.Object] (the handlers read its name)
    or some other runtime object, nil included, for which the type assertion
    fails. *)
Inductive RuntimeObject :=
| MetaObject (name : string)
| OtherObject.

(** [admission.Attributes], the part the handlers read.  [GetUserInfo] is
    [None] when [a.GetUserInfo()] is nil, as it is for a request that
    carries no user; a method call on it then panics. *)
Record Attributes := {
  GetSubresource : string;
  GetObject : RuntimeObject;
  GetUserInfo : option UserInfo;
  GetKind : string           (* a.GetKind().Kind *)
}.

(** The request context.  [genericapirequest.ClusterNameFrom] belongs to the
    API server library; its result for the context is taken as given:
    [Some c] when the context carries the logical cluster [c], [None] when
    the call fails. *)
Record Context := {
  ctxCluster : option string
}.

(** ** Errors *)

Inductive error :=
| ErrNotMetaObject                                   (* fmt.Errorf("got type %T, expected metav1.Object") *)
| ErrInvalid (path : list string) (value detail : string)  (* field.Invalid *)
| ErrIndexer (msg : string)                          (* the indexer's error *)
| ErrClusterName.                                    (* ClusterNameFrom's error *)

(** What a call of [Admit] does: it returns its [err] result ([None] is
    Go's [nil], the request is admitted) or it panics. *)
Inductive outcome :=
| Returns (err : option error)
| Panics.

Definition admitted (o : outcome) : bool :=
  match o with Returns None => true | _ => false end.

Definition denied (o : outcome) : bool :=
  match o with Returns (Some _) => true | _ => false end.

Definition ClusterNameFrom (ctx : Context) : string * option error :=
  match ctxCluster ctx with
  | Some c => (c, None)
  | None => (EmptyString, Some ErrClusterName)
  end.

(** ** Helpers shared by the three revisions *)

Fixpoint isPresentInArray (input : string) (arr : list string) : bool :=
  match arr with
  | [] => false
  | str :: rest => if String.eqb input str then true else isPresentInArray input rest
  end.

(** [group[4:]] *)
Definition drop4 (group : string) : string :=
  String.substring 4 (String.length group - 4) group.

(** The first revision's [getTenantId], for a user that is not nil: the
    first group with the prefix [org/], without the prefix; the empty string
    when there is none.  On a nil user its [usr.GetGroups()] panics, which
    the embedding of the caller writes out. *)
Fixpoint getTenantIdOf (groups : list string) : string :=
  match groups with
  | [] => EmptyString
  | group :: rest =>
      if String.prefix "org/" group then drop4 group else getTenantIdOf rest
  end.

Definition getTenantId (usr : UserInfo) : string := getTenantIdOf (GetGroups usr).

(** ** A small monad for a handler body

    A handler body runs over the package-level counters [G]; a step either
    goes on with a value, leaves the function with [return err], or
    panics. *)

Inductive step (A : Type) :=
| Next (a : A)
| Return (err : option error)
| Panic.
Arguments Next {A} a.
Arguments Return {A} err.
Arguments Panic {A}.

Definition M (G A : Type) : Type := G -> step A * G.

Definition ret {G A} (a : A) : M G A := fun g => (Next a, g).

Definition bind {G A B} (m : M G A) (k : A -> M G B) : M G B :=
  fun g =>
    match m g with
    | (Next a, g') => k a g'
    | (Return e, g') => (Return e, g')
    | (Panic, g') => (Panic, g')
    end.

Definition return_ {G A} (err : option error) : M G A := fun g => (Return err, g).
Definition panic {G A} : M G A := fun g => (Panic, g).
Definition get {G} : M G G := fun g => (Next g, g).
Definition put {G} (g : G) : M G unit := fun _ => (Next tt, g).
Definition when {G} (b : bool) (m : M G unit) : M G unit := if b then m else ret tt.

#[global] Instance M_ret {G} : MRet (M G) := fun A => @ret G A.
#[global] Instance M_bind {G} : MBind (M G) := fun A B k m => @bind G A B m k.

(** Running a whole function body: falling off the end cannot happen in
    the handlers (each path ends in [return]); it is read as [return nil]. *)
Definition run {G} (m : M G unit) (g : G) : outcome * G :=
  match m g with
  | (Next _, g') => (Returns None, g')
  | (Return e, g') => (Returns e, g')
  | (Panic, g') => (Panics, g')
  end.

Definition quotaError : error :=
  ErrInvalid ["metadata"; "labels"]
    "Custom admission Controller: Forbidden. Quota check failed"
    "Not enough quota available".

(** [for _, x := range xs { body }] *)
Fixpoint range {G A} (xs : list A) (body : A -> M G unit) : M G unit :=
  match xs with
  | [] => mret tt
  | x :: rest => body x;; range rest body
  end.

(** ** First revision of mutating_plugin.go: limits read from entitlements *)

Module ByEntitlement.

(** The fields of [v1alpha1.Entitlement] the handler reads,
    [entitlement.Spec.QuotaItems[0].Limits]; the type's declaration is in
    the API package. *)
Record QuotaItem := { Limits : string }.
Record EntitlementSpec := { QuotaItems : list QuotaItem }.
Record Entitlement := { Spec : EntitlementSpec }.

(** A [cache.Indexer] that is not nil, read through
    [ByIndex(indexers.ByLogicalCluster, v)]: the indexer's error or the
    entitlements of the logical cluster [v].  It is the indexer of the
    Entitlements informer, whose objects are [*v1alpha1.Entitlement]s. *)
Definition Indexer : Type := string -> error + list Entitlement.

(** The receiver.  The field [entitlementIndexer] is [None] while it is
    nil: [NewMutatingPCustomAdmission] leaves it so, [SetKcpInformers] sets
    it. *)
Record CustomAdmission := {
  entitlementIndexer : option Indexer
}.

(** [var aspianHACBSUsedQuota = 0], [var bspianAppStudioUsedQuota = 0] *)
Record Globals := {
  aspianHACBSUsedQuota : Z;
  bspianAppStudioUsedQuota : Z
}.

Definition init : Globals :=
  {| aspianHACBSUsedQuota := 0; bspianAppStudioUsedQuota := 0 |}.

(** The body of the loop over the tenant's entitlements. *)
Definition forEntitlement (user : UserInfo) (a : Attributes)
    (entitlement : Entitlement) : M Globals unit :=
  when (isPresentInArray "org/aspian" (GetGroups user))
    (when (String.eqb (GetKind a) "Pipeline")
       match QuotaItems (Spec entitlement) with
       | [] => panic                        (* index out of range [0] *)
       | item :: _ =>
           let configuredLimit := fst (Atoi (Limits item)) in
           g ← get;
           if aspianHACBSUsedQuota g <? configuredLimit
           then put {| aspianHACBSUsedQuota := wrap (aspianHACBSUsedQuota g + 1);
                       bspianAppStudioUsedQuota := bspianAppStudioUsedQuota g |}
           else return_ (Some quotaError)
       end);;
  when (isPresentInArray "org/bspian" (GetGroups user))
    (when (String.eqb (GetKind a) "App")
       match QuotaItems (Spec entitlement) with
       | [] => panic
       | item :: _ =>
           let configuredLimit := fst (Atoi (Limits item)) in
           g ← get;
           if bspianAppStudioUsedQuota g <? configuredLimit
           then put {| aspianHACBSUsedQuota := aspianHACBSUsedQuota g;
                       bspianAppStudioUsedQuota := wrap (bspianAppStudioUsedQuota g + 1) |}
           else return_ (Some quotaError)
       end).

Definition Admit (m : CustomAdmission) (ctx : Context) (a : Attributes)
    : Globals -> outcome * Globals :=
  run
    (if negb (String.eqb (GetSubresource a) "") then return_ None else
     match GetObject a with
     | OtherObject => return_ (Some ErrNotMetaObject)
     | MetaObject _ =>
         match GetUserInfo a with
         | None => panic            (* [usr.GetGroups()] in [getTenantId], on nil *)
         | Some user =>
             let org := getTenantId user in
             (* [if err != nil]: the result [err] has not been assigned, it is nil *)
             when (negb (String.eqb org ""))
               (let consumerCluster := "root:" +:+ org in
                match entitlementIndexer m with
                | None => panic     (* [ByIndex] on the nil indexer *)
                | Some indexer =>
                    match indexer consumerCluster with
                    | inl err => return_ (Some err)
                    | inr entitlements => range entitlements (forEntitlement user a)
                    end
                end);;
             return_ None
         end
     end).

End ByEntitlement.

(** ** Second revision of mutating_plugin.go: checks by object name *)

Module ByObjectName.

(** [var aspianHACBSBindQuota = 5], [var bspainAppStudioBindQuota = 5] *)
Record Globals := {
  aspianHACBSBindQuota : Z;
  bspainAppStudioBindQuota : Z
}.

Definition init : Globals :=
  {| aspianHACBSBindQuota := 5; bspainAppStudioBindQuota := 5 |}.

Definition dquote : string := String (Ascii.ascii_of_nat 34) EmptyString.

(** [fmt.Sprintf("must be %q", s)] *)
Definition must_be (s : string) : string := "must be " +:+ dquote +:+ s +:+ dquote.

Definition noQuotaError : error :=
  ErrInvalid ["metadata"; "labels"]
    "custom admission for Quota forbidden for data my domain. No quota available"
    (must_be " No quota available").

Definition noEntitlementError : error :=
  ErrInvalid ["metadata"; "labels"]
    "custom admission forbidden for data my domain no entitlement present"
    (must_be "no entitlement found ").

Definition Admit (ctx : Context) (a : Attributes) : Globals -> outcome * Globals :=
  run
    (if negb (String.eqb (GetSubresource a) "") then return_ None else
     match GetObject a with
     | OtherObject => return_ (Some ErrNotMetaObject)
     | MetaObject name =>
         (* [clusterName, err := ...] assigns the result variable [err];
            each pair of nested [if]s below is written as one conjunction *)
         let '(clusterName, err) := ClusterNameFrom ctx in
         match GetUserInfo a with
         | None => panic            (* [user.GetGroups()] on nil *)
         | Some user =>
         err ← (if isPresentInArray "aspian" (GetGroups user) && String.eqb name "hacbs"
                then g ← get;
                     put {| aspianHACBSBindQuota := wrap (aspianHACBSBindQuota g - 1);
                            bspainAppStudioBindQuota := bspainAppStudioBindQuota g |};;
                     mret (if aspianHACBSBindQuota g =? 0 then Some noQuotaError else err)
                else mret err);
         err ← (if isPresentInArray "bspian" (GetGroups user) && String.eqb name "appstudio"
                then g ← get;
                     put {| aspianHACBSBindQuota := aspianHACBSBindQuota g;
                            bspainAppStudioBindQuota := wrap (bspainAppStudioBindQuota g - 1) |};;
                     mret (if bspainAppStudioBindQuota g =? 0 then Some noQuotaError else err)
                else mret err);
         match err with
         | Some e => return_ (Some e)
         | None =>
             if String.eqb name "data.my.domain"
             then return_ (Some noEntitlementError)
             else return_ None
         end
         end
     end).

End ByObjectName.

(** ** Third revision, quoted in docs/content/en/main/concepts/syncer.md:
       one counter per organization *)

Module ByOrganization.

(** [var aspianHACBSQuota = 1], [var bspainAppStudioQuota = 1] *)
Record Globals := {
  aspianHACBSQuota : Z;
  bspainAppStudioQuota : Z
}.

Definition init : Globals :=
  {| aspianHACBSQuota := 1; bspainAppStudioQuota := 1 |}.

Definition Admit (ctx : Context) (a : Attributes) : Globals -> outcome * Globals :=
  run
    (if negb (String.eqb (GetSubresource a) "") then return_ None else
     match GetObject a with
     | OtherObject => return_ (Some ErrNotMetaObject)
     | MetaObject _ =>
         match GetUserInfo a with
         | None => panic            (* [user.GetGroups()] on nil *)
         | Some user =>
         (* the result [err] starts as nil; each pair of nested [if]s is
            written as one conjunction *)
         let err : option error := None in
         err ← (if isPresentInArray "org/aspian" (GetGroups user) && String.eqb (GetKind a) "Pipeline"
                then g ← get;
                     put {| aspianHACBSQuota := wrap (aspianHACBSQuota g - 1);
                            bspainAppStudioQuota := bspainAppStudioQuota g |};;
                     mret (if aspianHACBSQuota g =? 0 then Some quotaError else err)
                else mret err);
         err ← (if isPresentInArray "org/bspian" (GetGroups user) && String.eqb (GetKind a) "App"
                then g ← get;
                     put {| aspianHACBSQuota := aspianHACBSQuota g;
                            bspainAppStudioQuota := wrap (bspainAppStudioQuota g - 1) |};;
                     mret (if bspainAppStudioQuota g =? 0 then Some quotaError else err)
                else mret err);
         return_ err
         end
     end).

End ByOrganization.


(** ** Serving requests, and the requests a quota check applies to *)

(** The counters after [n] more calls of a handler with the same
    arguments. *)
Definition served {G} (handler : G -> outcome * G) (n : N) (g : G) : G :=
  N.iter n (fun s => snd (handler s)) g.

(** The counters after a list of calls. *)
Definition servedAll {G} (handler : Context -> Attributes -> G -> outcome * G)
    (calls : list (Context * Attributes)) (g : G) : G :=
  fold_left (fun s c => snd (handler (fst c) (snd c) s)) calls g.

Definition isMetaObject (o : RuntimeObject) : bool :=
  match o with MetaObject _ => true | OtherObject => false end.

Definition hasName (o : RuntimeObject) (n : string) : bool :=
  match o with MetaObject name => String.eqb name n | OtherObject => false end.

(** The request carries a user, and the user is in the group. *)
Definition inGroup (group : string) (a : Attributes) : bool :=
  match GetUserInfo a with
  | Some user => isPresentInArray group (GetGroups user)
  | None => false
  end.

(** A request that reaches a quota check of the third revision: no
    subresource, a [metav1.Object], a user in the organization's group, and
    the kind. *)
Definition reachesOrgCheck (group kind : string) (a : Attributes) : bool :=
  String.eqb (GetSubresource a) "" && isMetaObject (GetObject a)
  && inGroup group a
  && String.eqb (GetKind a) kind.

(** A request that reaches a quota check of the second revision: the
    context carries a cluster name, no subresource, a user in the group and
    the object's name. *)
Definition reachesNameCheck (group name : string) (ctx : Context) (a : Attributes) : bool :=
  match ctxCluster ctx with Some _ => true | None => false end
  && String.eqb (GetSubresource a) "" && hasName (GetObject a) name
  && inGroup group a.

(** How a fixed counter gates a request:
    the request is denied exactly when the counter is zero at entry; it is
    admitted otherwise; the counter goes down by one (as an [int]) in both
    cases; after a denial it is -1; and each of the next [2^64 - 1] calls is
    admitted. *)
Definition DeniesOnlyAtZero {G} (handler : G -> outcome * G) (counter : G -> Z) : Prop :=
  (forall g, denied (fst (handler g)) = true <-> counter g = 0) /\
  (forall g, admitted (fst (handler g)) = negb (denied (fst (handler g)))) /\
  (forall g, counter (snd (handler g)) = wrap (counter g - 1)) /\
  (forall g, counter g = 0 -> counter (snd (handler g)) = -1 /\ counter (snd (handler g)) < 0) /\
  (forall g n, counter g = 0 -> (n < 2 ^ 64 - 1)%N ->
     admitted (fst (handler (served handler n (snd (handler g))))) = true).

(** Example requests. *)
Definition noCluster : Context := {| ctxCluster := None |}.
Definition inCluster : Context := {| ctxCluster := Some "root:aspian:dev" |}.

Definition pipelineByAspian : Attributes :=
  {| GetSubresource := ""; GetObject := MetaObject "build";
     GetUserInfo := Some {| GetName := "alice"; GetGroups := ["system:authenticated"; "org/aspian"] |};
     GetKind := "Pipeline" |}.

Definition appByBspian : Attributes :=
  {| GetSubresource := ""; GetObject := MetaObject "shop";
     GetUserInfo := Some {| GetName := "bob"; GetGroups := ["org/bspian"] |};
     GetKind := "App" |}.

(** A user of another tenant ([acme]) who is also in the group [org/aspian]. *)
Definition pipelineByAcme : Attributes :=
  {| GetSubresource := ""; GetObject := MetaObject "build";
     GetUserInfo := Some {| GetName := "carol"; GetGroups := ["org/acme"; "org/aspian"] |};
     GetKind := "Pipeline" |}.

Definition hacbsByAspian : Attributes :=
  {| GetSubresource := ""; GetObject := MetaObject "hacbs";
     GetUserInfo := Some {| GetName := "alice"; GetGroups := ["aspian"] |};
     GetKind := "APIBinding" |}.

Definition appstudioByBspian : Attributes :=
  {| GetSubresource := ""; GetObject := MetaObject "appstudio";
     GetUserInfo := Some {| GetName := "bob"; GetGroups := ["bspian"] |};
     GetKind := "APIBinding" |}.

Definition dataMyDomain : Attributes :=
  {| GetSubresource := ""; GetObject := MetaObject "data.my.domain";
     GetUserInfo := Some {| GetName := "dave"; GetGroups := ["system:authenticated"] |};
     GetKind := "APIBinding" |}.

Definition statusUpdate : Attributes :=
  {| GetSubresource := "status"; GetObject := MetaObject "hacbs";
     GetUserInfo := Some {| GetName := "alice"; GetGroups := ["aspian"; "org/aspian"] |};
     GetKind := "Pipeline" |}.

Definition entitlementWith (items : list string) : ByEntitlement.Entitlement :=
  {| ByEntitlement.Spec :=
       {| ByEntitlement.QuotaItems :=
            map (fun l => {| ByEntitlement.Limits := l |}) items |} |}.

(** A plugin whose indexer holds the same entitlements for every logical
    cluster. *)
Definition everyCluster (es : list ByEntitlement.Entitlement) : ByEntitlement.CustomAdmission :=
  {| ByEntitlement.entitlementIndexer := Some (fun _ => inr es) |}.

(** A request that carries no user, and a plugin as
    [NewMutatingPCustomAdmission] leaves it. *)
Definition pipelineByNobody : Attributes :=
  {| GetSubresource := ""; GetObject := MetaObject "build";
     GetUserInfo := None; GetKind := "Pipeline" |}.

Definition withoutIndexer : ByEntitlement.CustomAdmission :=
  {| ByEntitlement.entitlementIndexer := None |}.

(** A handler whose answer is determined by its arguments alone, whatever
    calls the process served before. *)
Definition FunctionOfArguments {G}
    (handler : Context -> Attributes -> G -> outcome * G) (g0 : G) : Prop :=
  exists f : Context -> Attributes -> outcome,
    forall calls ctx a, fst (handler ctx a (servedAll handler calls g0)) = f ctx a.

(** * Workload scheduling and syncing

    The target registry, the location resolver, the placement engine, the
    label state machine and the sync agent are not among the sources: only
    the end-to-end test that drives them is.  They are modelled here from
    the design text, as one sequential state machine over the objects the
    test reads; the test's own checks are embedded from its source further
    down.  Retries, optimistic concurrency, status reporting and schema
    negotiation are outside the model. *)

(** The two label keys are the literals of the test:
    ["state.workload.kcp.dev/" + syncTargetKey] and
    ["internal.workload.kcp.dev/cluster=" + syncTargetKey]. *)
Definition ClusterResourceStateLabelPrefix : string := "state.workload.kcp.dev/".
Definition InternalDownstreamClusterLabel : string := "internal.workload.kcp.dev/cluster".

Definition stateKey (key : string) : string := ClusterResourceStateLabelPrefix +:+ key.

Definition isStateLabel (l : string) : bool :=
  String.prefix ClusterResourceStateLabelPrefix l.

(** An object's identity: workspace, namespace, kind, name. *)
Definition ObjId : Type := string * string * string * string.
Definition idWorkspace (id : ObjId) : string := fst (fst (fst id)).
Definition idNamespace (id : ObjId) : string := snd (fst (fst id)).
Definition idKind (id : ObjId) : string := snd (fst id).
Definition idName (id : ObjId) : string := snd id.

Record GroupVersionResource := {
  Group : string;
  Version : string;
  Resource : string
}.

Definition gvr_eqb (a b : GroupVersionResource) : bool :=
  String.eqb (Group a) (Group b) && String.eqb (Version a) (Version b)
  && String.eqb (Resource a) (Resource b).

(** The resource the registry's targets are instances of. *)
Definition syncTargetsResource : GroupVersionResource :=
  {| Group := "workload.kcp.dev"; Version := "v1alpha1"; Resource := "synctargets" |}.

(** Modelled from the spec: ExecutionTarget (section 3), "identity (name,
    stable UID), declared supported resource kinds, liveness condition".
    The registry holds it under its target key, the handle of
    [Register]. *)
Record ExecutionTarget := {
  targetName : string;
  targetUID : string;
  targetLabels : gmap string string;
  supportedKinds : list string;
  targetReady : bool
}.

(** Modelled from the spec: a Location's selector; a malformed one is
    reported on the status and never evaluated (section 4.2). *)
Inductive Selector :=
| MatchLabels (ls : gmap string string)
| Malformed.

(** Modelled from the spec: Location (section 3), "a named selector over
    ExecutionTargets plus a resource-kind filter; status holds
    AvailableInstances".  The fields are those the test writes and reads:
    labels, [Spec.Resource], [Status.AvailableInstances] (a pointer to an
    unsigned integer, [None] when not present). *)
Record Location := {
  locLabels : gmap string string;
  locResource : GroupVersionResource;
  locInstanceSelector : Selector;
  AvailableInstances : option N;
  selectorError : bool
}.

(** Modelled from the spec: [Placement.status.phase] (section 6). *)
Inductive Phase := Pending | Bound | Unbound.

(** Modelled from the spec: Placement (section 3), the binding of a
    workspace to one Location, with the target key assigned to the
    workspace's namespaces. *)
Record Placement := {
  plLocation : string;
  plPhase : Phase;
  plTarget : option string
}.

(** Modelled from the spec: an upstream object with its labels, among them
    the sync intents (section 3, "Sync Intent"). *)
Record Object := {
  objLabels : gmap string string;
  objSpec : string;
  objDeleting : bool
}.

(** Modelled from the spec: the downstream mirror (section 3), "a copy of an
    upstream object materialized on one target, tagged with provenance
    (source workspace id, source namespace, source name, owning target
    key)". *)
Record Mirror := {
  mirName : string;
  mirKind : string;
  mirSource : ObjId;
  mirLabels : gmap string string;
  mirSpec : string
}.

(** Modelled from the spec: the objects of the system, upstream and on the
    targets. *)
Record State := {
  registry : gmap string ExecutionTarget;           (* by target key *)
  locations : gmap string Location;                 (* by name *)
  placements : gmap string Placement;               (* by workspace *)
  namespaces : gmap (string * string) (gmap string string);  (* annotations, by workspace and name *)
  upstream : gmap ObjId Object;
  downstream : gmap (string * ObjId) Mirror         (* by target key and source object *)
}.

Definition initial : State :=
  {| registry := ∅; locations := ∅; placements := ∅; namespaces := ∅;
     upstream := ∅; downstream := ∅ |}.

Definition with_registry (r : gmap string ExecutionTarget) (s : State) : State :=
  {| registry := r; locations := locations s; placements := placements s;
     namespaces := namespaces s; upstream := upstream s; downstream := downstream s |}.

Definition with_locations (l : gmap string Location) (s : State) : State :=
  {| registry := registry s; locations := l; placements := placements s;
     namespaces := namespaces s; upstream := upstream s; downstream := downstream s |}.

Definition with_placements (p : gmap string Placement) (s : State) : State :=
  {| registry := registry s; locations := locations s; placements := p;
     namespaces := namespaces s; upstream := upstream s; downstream := downstream s |}.

Definition with_namespaces (n : gmap (string * string) (gmap string string)) (s : State) : State :=
  {| registry := registry s; locations := locations s; placements := placements s;
     namespaces := n; upstream := upstream s; downstream := downstream s |}.

Definition with_upstream (u : gmap ObjId Object) (s : State) : State :=
  {| registry := registry s; locations := locations s; placements := placements s;
     namespaces := namespaces s; upstream := u; downstream := downstream s |}.

Definition with_downstream (d : gmap (string * ObjId) Mirror) (s : State) : State :=
  {| registry := registry s; locations := locations s; placements := placements s;
     namespaces := namespaces s; upstream := upstream s; downstream := d |}.

Definition with_labels (ls : gmap string string) (o : Object) : Object :=
  {| objLabels := ls; objSpec := objSpec o; objDeleting := objDeleting o |}.

(** ** Label state machine (section 4.4): absent, Sync, Removing *)

(** Modelled from the spec: the transition absent to Sync of section 4.4,
    "Placement Engine assigns a target"; the label is the sync intent of
    section 6, key [state.<domain>/<target-key>], value [Sync]. *)
Definition assign (key : string) (o : Object) : Object :=
  if objDeleting o then o else
  match objLabels o !! stateKey key with
  | None => with_labels (<[stateKey key := "Sync"]> (objLabels o)) o
  | Some _ => o
  end.

(** Modelled from the spec: the transition Sync to Removing of section 4.4,
    on unbind or when the target leaves the matching set. *)
Definition lose (key : string) (o : Object) : Object :=
  match objLabels o !! stateKey key with
  | Some v =>
      if String.eqb v "Sync"
      then with_labels (<[stateKey key := "Removing"]> (objLabels o)) o
      else o
  | None => o
  end.

(** Modelled from the spec: the transition Sync to Removing of section 4.4
    on upstream deletion, for every target the object holds an intent
    for. *)
Definition markDeleted (o : Object) : Object :=
  {| objLabels :=
       map_imap (fun l v => Some (if isStateLabel l && String.eqb v "Sync"
                                  then "Removing" else v)) (objLabels o);
     objSpec := objSpec o;
     objDeleting := true |}.

(** Modelled from the spec: whether an object still holds an intent for
    some target (a label under the state prefix). *)
Definition hasIntent (o : Object) : bool :=
  existsb (fun lv => isStateLabel (fst lv)) (map_to_list (objLabels o)).

(** ** Location resolver (section 4.2) *)

(** Modelled from the spec: selector evaluation (section 4.2), "pure and
    side-effect free: label/resource-kind predicate over target facts". *)
Definition selects (sel : gmap string string) (t : ExecutionTarget) : bool :=
  forallb (fun kv => bool_decide (targetLabels t !! fst kv = Some (snd kv)))
    (map_to_list sel).

(** Modelled from the spec: a ready target matching the location (its
    selector and its resource filter). *)
Definition isCandidate (l : Location) (sel : gmap string string) (t : ExecutionTarget) : bool :=
  targetReady t && gvr_eqb (locResource l) syncTargetsResource && selects sel t.

(** Modelled from the spec: the ready targets matching a location, with
    their keys. *)
Definition candidates (reg : gmap string ExecutionTarget) (l : Location)
    (sel : gmap string string) : list (string * ExecutionTarget) :=
  List.filter (fun kt => isCandidate l sel (snd kt)) (map_to_list reg).

(** Modelled from the spec: "AvailableInstances = count of ready, matching
    targets" (section 3). *)
Definition readyMatching (reg : gmap string ExecutionTarget) (l : Location)
    (sel : gmap string string) : N :=
  N.of_nat (length (candidates reg l sel)).

(** Modelled from the spec: the resolver's recompute of one location
    (section 4.2); a malformed selector is reported and "the Location
    remains at its last-known-good count". *)
Definition resolveLocation (reg : gmap string ExecutionTarget) (l : Location) : Location :=
  match locInstanceSelector l with
  | MatchLabels sel =>
      {| locLabels := locLabels l; locResource := locResource l;
         locInstanceSelector := locInstanceSelector l;
         AvailableInstances := Some (readyMatching reg l sel);
         selectorError := false |}
  | Malformed =>
      {| locLabels := locLabels l; locResource := locResource l;
         locInstanceSelector := locInstanceSelector l;
         AvailableInstances := AvailableInstances l;   (* last known good *)
         selectorError := true |}
  end.

(** ** Placement engine (section 4.3) *)

(** Modelled from the spec: "the Location's current matching ready target
    set" (section 4.3). *)
Definition eligible (s : State) (location : string) : list (string * ExecutionTarget) :=
  match locations s !! location with
  | Some l =>
      match locInstanceSelector l with
      | MatchLabels sel => candidates (registry s) l sel
      | Malformed => []
      end
  | None => []
  end.

(** Modelled from the spec: "tie-break by lexicographically smallest target
    UID" (section 4.3). *)
Fixpoint smallestUID (ts : list (string * ExecutionTarget)) : option (string * ExecutionTarget) :=
  match ts with
  | [] => None
  | kt :: rest =>
      match smallestUID rest with
      | None => Some kt
      | Some best =>
          if String.ltb (targetUID (snd kt)) (targetUID (snd best)) then Some kt else Some best
      end
  end.

(** Modelled from the spec: the previously assigned target, if it "still
    lies within the current matching set". *)
Definition findTarget (key : string) (ts : list (string * ExecutionTarget))
    : option (string * ExecutionTarget) :=
  List.find (fun kt => String.eqb (fst kt) key) ts.

(** Modelled from the spec: the old intent of a workspace's objects
    "transitions to Removing". *)
Definition loseIn (workspace key : string) (u : gmap ObjId Object) : gmap ObjId Object :=
  map_imap (fun id o => Some (if String.eqb (idWorkspace id) workspace then lose key o else o)) u.

(** Modelled from the spec: "stamp each resource in that namespace (that is
    itself a syncable kind) with the sync-intent label for the assigned
    target". *)
Definition assignIn (workspace key : string) (kinds : list string)
    (u : gmap ObjId Object) : gmap ObjId Object :=
  map_imap (fun id o =>
              Some (if String.eqb (idWorkspace id) workspace
                       && existsb (String.eqb (idKind id)) kinds
                    then assign key o else o)) u.

(** Modelled from the spec: on re-selection, "old intent transitions to
    Removing, new intent set to Sync". *)
Definition loseOld (workspace : string) (old : option string) (new : option string)
    (u : gmap ObjId Object) : gmap ObjId Object :=
  match old with
  | Some k =>
      match new with
      | Some k' => if String.eqb k k' then u else loseIn workspace k u
      | None => loseIn workspace k u
      end
  | None => u
  end.

(** Modelled from the spec: "stamp the namespace with a placement
    annotation recording the resolved workspace/target pair". *)
Definition annotate (PlacementAnnotationKey workspace key : string)
    (n : gmap (string * string) (gmap string string))
    : gmap (string * string) (gmap string string) :=
  map_imap (fun wn ann =>
              Some (if String.eqb (fst wn) workspace
                    then <[PlacementAnnotationKey := workspace +:+ "/" +:+ key]> ann
                    else ann)) n.

(** Modelled from the spec: one reconcile of a workspace's placement
    (section 4.3): keep the assigned target while it is a candidate, else
    select again; Pending, Bound and Unbound as in section 3.
    [PlacementAnnotationKey] is the annotation key, a constant of the
    scheduling API package. *)
Definition reconcilePlacement (PlacementAnnotationKey workspace : string) (s : State) : State :=
  match placements s !! workspace with
  | None => s
  | Some p =>
      let cands := eligible s (plLocation p) in
      let kept := match plTarget p with
                  | Some k => findTarget k cands
                  | None => None
                  end in
      let chosen := match kept with Some kt => Some kt | None => smallestUID cands end in
      match chosen with
      | None =>
          let p' := {| plLocation := plLocation p;
                       plPhase := match plPhase p with Pending => Pending | _ => Unbound end;
                       plTarget := None |} in
          with_placements (<[workspace := p']> (placements s))
            (with_upstream (loseOld workspace (plTarget p) None (upstream s)) s)
      | Some kt =>
          let p' := {| plLocation := plLocation p; plPhase := Bound;
                       plTarget := Some (fst kt) |} in
          with_placements (<[workspace := p']> (placements s))
            (with_namespaces (annotate PlacementAnnotationKey workspace (fst kt) (namespaces s))
               (with_upstream
                  (assignIn workspace (fst kt) (supportedKinds (snd kt))
                     (loseOld workspace (plTarget p) (Some (fst kt)) (upstream s))) s))
      end
  end.

(** Modelled from the spec: [Bind(workspace, locationRef)] (section 4.3),
    one placement per workspace, superseded on rebind. *)
Definition bindWorkspace (PlacementAnnotationKey workspace location : string) (s : State) : State :=
  let p := match placements s !! workspace with
           | Some old => {| plLocation := location; plPhase := plPhase old; plTarget := plTarget old |}
           | None => {| plLocation := location; plPhase := Pending; plTarget := None |}
           end in
  reconcilePlacement PlacementAnnotationKey workspace
    (with_placements (<[workspace := p]> (placements s)) s).

(** Modelled from the spec: unbind, a trigger of Sync to Removing
    (section 4.4). *)
Definition unbindWorkspace (workspace : string) (s : State) : State :=
  match placements s !! workspace with
  | None => s
  | Some p =>
      with_placements (delete workspace (placements s))
        (with_upstream (loseOld workspace (plTarget p) None (upstream s)) s)
  end.

(** ** Sync agent (section 4.5), one reconcile of one object on one target *)

(** Modelled from the spec: the mirror of an upstream object on a target,
    a copy tagged with its provenance; the label is that of section 6,
    [internal.<domain>/cluster=<target-key>]. *)
Definition mirrorOf (key : string) (id : ObjId) (o : Object) : Mirror :=
  {| mirName := idName id;
     mirKind := idKind id;
     mirSource := id;
     mirLabels := <[InternalDownstreamClusterLabel := key]> (objLabels o);
     mirSpec := objSpec o |}.

(** Modelled from the spec: the upstream-to-downstream reconcile of
    section 4.5: "on Sync, create-or-update the downstream mirror"; "on
    Removing, delete the downstream mirror; once confirmed absent, clear the
    intent label"; an object under deletion goes when its last intent has
    gone. *)
Definition syncDown (key : string) (id : ObjId) (s : State) : State :=
  match upstream s !! id with
  | None => s
  | Some o =>
      match objLabels o !! stateKey key with
      | None => s
      | Some v =>
          if String.eqb v "Sync" then
            with_downstream (<[(key, id) := mirrorOf key id o]> (downstream s)) s
          else if String.eqb v "Removing" then
            match downstream s !! (key, id) with
            | Some _ => with_downstream (delete (key, id) (downstream s)) s
            | None =>
                let o' := with_labels (delete (stateKey key) (objLabels o)) o in
                if objDeleting o' && negb (hasIntent o')
                then with_upstream (delete id (upstream s)) s
                else with_upstream (<[id := o']> (upstream s)) s
            end
          else s
      end
  end.

(** ** Events *)

(** Modelled from the spec: what happens to the system, one event at a
    time: the registry's [Register], [Heartbeat], [Deregister] (section
    4.1), the creation of a location and the resolver's reconcile, the
    placement engine's bind, unbind and reconcile, the users' creations and
    deletions, and the sync agent's reconcile. *)
Inductive Event :=
| Register (key : string) (t : ExecutionTarget)
| Heartbeat (key : string) (ready : bool)
| Deregister (key : string)
| CreateLocation (name : string) (l : Location)
| ResolveLocations
| Bind (workspace location : string)
| Unbind (workspace : string)
| ReconcilePlacement (workspace : string)
| CreateNamespace (workspace name : string)
| CreateObject (id : ObjId) (labels : gmap string string) (spec : string)
| DeleteObject (id : ObjId)
| SyncDown (key : string) (id : ObjId).

(** Modelled from the spec: [Heartbeat(handle, readyCondition)]. *)
Definition setReady (ready : bool) (t : ExecutionTarget) : ExecutionTarget :=
  {| targetName := targetName t; targetUID := targetUID t; targetLabels := targetLabels t;
     supportedKinds := supportedKinds t; targetReady := ready |}.

(** Modelled from the spec: a new location has no status yet. *)
Definition createLocation (name : string) (l : Location) (s : State) : State :=
  match locations s !! name with
  | Some _ => s
  | None =>
      with_locations
        (<[name := {| locLabels := locLabels l; locResource := locResource l;
                      locInstanceSelector := locInstanceSelector l;
                      AvailableInstances := None; selectorError := false |}]> (locations s)) s
  end.

(** Modelled from the spec: the creation of an upstream object, refused
    when it exists or its namespace does not. *)
Definition createObject (id : ObjId) (labels : gmap string string) (spec : string)
    (s : State) : State :=
  match upstream s !! id, namespaces s !! (idWorkspace id, idNamespace id) with
  | None, Some _ =>
      with_upstream
        (<[id := {| objLabels := labels; objSpec := spec; objDeleting := false |}]> (upstream s)) s
  | _, _ => s
  end.

(** Modelled from the spec: upstream deletion; an object with intents is
    kept, under deletion, until the sync agents have cleared them. *)
Definition deleteObject (id : ObjId) (s : State) : State :=
  match upstream s !! id with
  | None => s
  | Some o =>
      if hasIntent o
      then with_upstream (<[id := markDeleted o]> (upstream s)) s
      else with_upstream (delete id (upstream s)) s
  end.

(** Modelled from the spec: the effect of one event on the state. *)
Definition applyEvent (PlacementAnnotationKey : string) (ev : Event) (s : State) : State :=
  match ev with
  | Register key t => with_registry (<[key := t]> (registry s)) s
  | Heartbeat key ready => with_registry (alter (setReady ready) key (registry s)) s
  | Deregister key =>
      with_registry (delete key (registry s))
        (with_upstream (map_imap (fun _ o => Some (lose key o)) (upstream s)) s)
  | CreateLocation name l => createLocation name l s
  | ResolveLocations =>
      with_locations (resolveLocation (registry s) <$> locations s) s
  | Bind workspace location => bindWorkspace PlacementAnnotationKey workspace location s
  | Unbind workspace => unbindWorkspace workspace s
  | ReconcilePlacement workspace => reconcilePlacement PlacementAnnotationKey workspace s
  | CreateNamespace workspace name =>
      match namespaces s !! (workspace, name) with
      | Some _ => s
      | None => with_namespaces (<[(workspace, name) := ∅]> (namespaces s)) s
      end
  | CreateObject id labels spec => createObject id labels spec s
  | DeleteObject id => deleteObject id s
  | SyncDown key id => syncDown key id s
  end.

(** Modelled from the spec: a run of the system. *)
Definition runEvents (PlacementAnnotationKey : string) (evs : list Event) (s : State) : State :=
  fold_left (fun s ev => applyEvent PlacementAnnotationKey ev s) evs s.

(** The sync intent of an object for a target, and its mirror there. *)
Definition intentIn (u : gmap ObjId Object) (key : string) (id : ObjId) : option string :=
  match u !! id with
  | Some o => objLabels o !! stateKey key
  | None => None
  end.

Definition intent (s : State) (key : string) (id : ObjId) : option string :=
  intentIn (upstream s) key id.

Definition mirror (s : State) (key : string) (id : ObjId) : option Mirror :=
  downstream s !! (key, id).

(** What a label may do in one step without being cleared: it keeps its
    value, or goes from Sync to Removing. *)
Definition NoClear (before after : option string) : Prop :=
  forall v, before = Some v ->
    after = Some v \/ (v = "Sync" /\ after = Some "Removing").

(** States the system reaches from the initial one. *)
Definition Reachable (PlacementAnnotationKey : string) (s : State) : Prop :=
  exists evs, s = runEvents PlacementAnnotationKey evs initial.

Definition isSyncDown (ev : Event) : bool :=
  match ev with SyncDown _ _ => true | _ => false end.

(** No mirror without an intent. *)
Definition NoOrphan (s : State) : Prop :=
  forall key id, intent s key id = None -> mirror s key id = None.

(** Every mirror carries its provenance: the owning target's key under the
    cluster label, the source object, its name and kind. *)
Definition Tagged (s : State) : Prop :=
  forall key id m, mirror s key id = Some m ->
    mirLabels m !! InternalDownstreamClusterLabel = Some key /\
    mirSource m = id /\ mirName m = idName id /\ mirKind m = idKind id.

(** Every mirror's object holds an intent for the mirror's target, Sync or
    Removing. *)
Definition Intended (s : State) : Prop :=
  forall key id m, mirror s key id = Some m ->
    intent s key id = Some "Sync" \/ intent s key id = Some "Removing".

(** A short life of one object on one target, for the examples: created
    with the intent Sync, mirrored, deleted upstream, its mirror removed. *)
Definition exampleId : ObjId := ("root:org:ws", "default", "services", "web").

Definition exampleLife : list Event :=
  [ CreateNamespace "root:org:ws" "default";
    CreateObject exampleId {[ stateKey "k1" := "Sync" ]} "ports: 80";
    SyncDown "k1" exampleId;
    DeleteObject exampleId;
    SyncDown "k1" exampleId ].

(** The target registry's mutations: [Register], [Heartbeat], [Deregister]. *)
Definition isRegistryEvent (ev : Event) : bool :=
  match ev with
  | Register _ _ | Heartbeat _ _ | Deregister _ => true
  | _ => false
  end.

(** Modelled from the spec: "ready targets currently matching L's selector"
    (sections 3 and 7), said of one target and without the resolver: the
    target is ready, the location's resource filter is the resource of the
    registry's targets, and the target carries every label the selector
    asks for. *)
Definition IsReadyMatching (l : Location) (sel : gmap string string)
    (t : ExecutionTarget) : Prop :=
  targetReady t = true /\
  locResource l = syncTargetsResource /\
  forall label value, sel !! label = Some value -> targetLabels t !! label = Some value.

(** Modelled from the spec: "the cardinality of the current ready-matching
    set" (section 3): [n] is the number of keys under which the registry
    holds a ready, matching target. *)
Definition IsCardinalityOfReadyMatching (reg : gmap string ExecutionTarget) (l : Location)
    (sel : gmap string string) (n : N) : Prop :=
  exists keys : list string,
    NoDup keys /\ n = N.of_nat (length keys) /\
    forall key, In key keys <-> exists t, reg !! key = Some t /\ IsReadyMatching l sel t.

(** [List] of one resource on the physical cluster of a target, with a label
    selector [label=value]. *)
Definition listDownstream (s : State) (key kind : string) (selector : string * string)
    : list Mirror :=
  List.filter
    (fun m => String.eqb (mirKind m) kind
              && bool_decide (mirLabels m !! fst selector = Some (snd selector)))
    (map snd (List.filter (fun km => String.eqb (fst (fst km)) key)
                (map_to_list (downstream s)))).

(** ** test/e2e/reconciler/scheduling/controller_test.go *)

Module TestScheduling.

(** The location the test creates: name [us-east1], label [foo=42], the
    resource [synctargets], no instance selector. *)
Definition locationName : string := "us-east1".

Definition location : Location :=
  {| locLabels := {["foo" := "42"]};
     locResource := {| Group := "workload.kcp.dev"; Version := "v1alpha1";
                       Resource := "synctargets" |};
     locInstanceSelector := MatchLabels ∅;
     AvailableInstances := None;
     selectorError := false |}.

(** "Wait for available instances in the location": the field is present
    and equal to [uint32(1)]. *)
Definition availableInstancesCheck (l : Location) : bool :=
  match AvailableInstances l with
  | None => false
  | Some actual => N.eqb actual 1
  end.

(** The labels of the two services the test creates. *)
Definition serviceLabels (syncTargetKey : string) : gmap string string :=
  {[ "state.workload.kcp.dev/" +:+ syncTargetKey := "Sync" ]}.

(** Their spec: one port, 80/TCP. *)
Definition serviceSpec : string := "ports: [{port: 80, protocol: TCP}]".

Definition serviceId (workspace name : string) : ObjId :=
  (workspace, "default", "services", name).

Definition createService (workspace name syncTargetKey : string) : Event :=
  CreateObject (serviceId workspace name) (serviceLabels syncTargetKey) serviceSpec.

(** The selector of the downstream list:
    ["internal.workload.kcp.dev/cluster=" + syncTargetKey]. *)
Definition downstreamSelector (syncTargetKey : string) : string * string :=
  ("internal.workload.kcp.dev/cluster", syncTargetKey).

Definition downstreamServices (s : State) (syncTargetKey : string) : list Mirror :=
  listDownstream s syncTargetKey "services" (downstreamSelector syncTargetKey).

(** [sets.NewString()], [Insert] and [List()]: the names, sorted, without
    duplicates. *)
Fixpoint insertName (n : string) (sorted : list string) : list string :=
  match sorted with
  | [] => [n]
  | x :: rest =>
      if String.eqb n x then sorted
      else if String.ltb n x then n :: sorted
      else x :: insertName n rest
  end.

Definition namesList (items : list Mirror) : list string :=
  fold_left (fun names m => insertName (mirName m) names) items [].

(** "Wait for the 2 services to be sync to the downstream cluster", then
    [require.Len(items, 2)] and [require.Equal(names.List(), {first, second})]. *)
Definition downstreamCheck (items : list Mirror) : bool :=
  negb (Nat.ltb (length items) 2) && Nat.eqb (length items) 2
  && bool_decide (namesList items = ["first"; "second"]).

(** "Wait for placement annotation on the default namespace". *)
Definition placementAnnotationCheck (PlacementAnnotationKey : string)
    (s : State) (userClusterName : string) : bool :=
  match namespaces s !! (userClusterName, "default") with
  | Some annotations => bool_decide (is_Some (annotations !! PlacementAnnotationKey))
  | None => false
  end.

(** The run of the test, as events: the workspaces' default namespaces, the
    sync target with its syncer, the location, the two bindings, the two
    services, and the syncer's reconciles. *)
Definition setUp (syncTargetKey : string) (t : ExecutionTarget)
    (userClusterName secondUserClusterName : string) : list Event :=
  [ CreateNamespace userClusterName "default";
    CreateNamespace secondUserClusterName "default";
    Register syncTargetKey t;
    CreateLocation locationName location;
    ResolveLocations ].

Definition bindFirst (userClusterName : string) : list Event :=
  [ Bind userClusterName locationName ].

Definition bindSecond (secondUserClusterName : string) : list Event :=
  [ Bind secondUserClusterName locationName ].

Definition syncService (workspace name syncTargetKey : string) : list Event :=
  [ createService workspace name syncTargetKey;
    SyncDown syncTargetKey (serviceId workspace name) ].

(** The run up to the first service and its mirror. *)
Definition runFirst (syncTargetKey : string) (t : ExecutionTarget)
    (userClusterName secondUserClusterName : string) : list Event :=
  setUp syncTargetKey t userClusterName secondUserClusterName
  ++ bindFirst userClusterName
  ++ syncService userClusterName "first" syncTargetKey.

(** The whole run: both workspaces bound, both services created, then
    synced. *)
Definition runBoth (syncTargetKey : string) (t : ExecutionTarget)
    (userClusterName secondUserClusterName : string) : list Event :=
  setUp syncTargetKey t userClusterName secondUserClusterName
  ++ bindFirst userClusterName
  ++ bindSecond secondUserClusterName
  ++ [ createService userClusterName "first" syncTargetKey;
       createService secondUserClusterName "second" syncTargetKey;
       SyncDown syncTargetKey (serviceId userClusterName "first");
       SyncDown syncTargetKey (serviceId secondUserClusterName "second") ].

(** The same service created without the label: the placement engine's
    reconcile stamps it. *)
Definition runStamped (syncTargetKey : string) (t : ExecutionTarget)
    (userClusterName secondUserClusterName : string) : list Event :=
  setUp syncTargetKey t userClusterName secondUserClusterName
  ++ bindFirst userClusterName
  ++ [ CreateObject (serviceId userClusterName "first") ∅ serviceSpec;
       ReconcilePlacement userClusterName;
       SyncDown syncTargetKey (serviceId userClusterName "first") ].

(** The mirror the sync agent makes of one of the test's services. *)
Definition serviceMirror (workspace name syncTargetKey : string) : Mirror :=
  mirrorOf syncTargetKey (serviceId workspace name)
    {| objLabels := serviceLabels syncTargetKey; objSpec := serviceSpec;
       objDeleting := false |}.

(** A sync target as the test's syncer fixture registers it: ready, syncing
    services. *)
Definition syncTarget (name : string) : ExecutionTarget :=
  {| targetName := name; targetUID := "uid-" +:+ name; targetLabels := ∅;
     supportedKinds := ["services"]; targetReady := true |}.

End TestScheduling.

(** The location of the test after the resolver's reconcile. *)
Definition resolvedLocation : Location :=
  {| locLabels := {["foo" := "42"]};
     locResource := syncTargetsResource;
     locInstanceSelector := MatchLabels ∅;
     AvailableInstances := Some 1%N;
     selectorError := false |}.

(** A placement bound to the test's location, with a target assigned. *)
Definition boundTo (key : string) : Placement :=
  {| plLocation := TestScheduling.locationName; plPhase := Bound; plTarget := Some key |}.


(** * The rest of the plugin: tenant lookup with an error, the plugin's
      set-up, and [Validate] *)

(** ** getTenantId of the second and third revisions

    It returns [(string, error)]: the error [organization group not found]
    when no group starts with [org/]. *)

Module WithError.

Definition organizationGroupNotFound : string := "organization group not found".

Fixpoint getTenantIdOf (groups : list string) : string * option string :=
  match groups with
  | [] => (EmptyString, Some organizationGroupNotFound)
  | group :: rest =>
      if String.prefix "org/" group then (drop4 group, None) else getTenantIdOf rest
  end.

Definition getTenantId (usr : UserInfo) : string * option string :=
  getTenantIdOf (GetGroups usr).

End WithError.

(** ** The plugin value and its set-up

    [NewMutatingPCustomAdmission], [SetKcpInformers], [SetEntitlements] and
    [ValidateInitialization].  The embedded [admission.Handler] of the API
    server library is its set of operations and its ready function, which
    [SetReadyFunc] replaces.  A field of function type is [None] while it is
    nil, and otherwise names the informer whose [HasSynced] it is; the two
    closures [NewMutatingPCustomAdmission] passes to [SetReadyFunc] read the
    plugin's fields when they are called. *)

Module Lifecycle.

(** [admission.Operation] *)
Inductive Operation := Create | Update | Delete | Connect.

Definition Operation_eqb (a b : Operation) : bool :=
  match a, b with
  | Create, Create | Update, Update | Delete, Delete | Connect, Connect => true
  | _, _ => false
  end.

(** The informers of the factory the setters read. *)
Inductive Informer := APIBindings | Entitlements.

(** The two closures: [func() bool { return p.apiBindingsHasSynced() }] and
    [func() bool { return p.apiEntitlementHasSynced() }]. *)
Inductive ReadyFunc := callsApiBindingsHasSynced | callsApiEntitlementHasSynced.

Record CustomAdmission := {
  operations : list Operation;              (* Handler *)
  readyFunc : option ReadyFunc;             (* Handler *)
  entitlementIndexer : option Informer;     (* first revision only *)
  apiBindingsHasSynced : option Informer;
  apiEntitlementHasSynced : option Informer
}.

(** [admission.NewHandler(ops...)] *)
Definition NewHandler (ops : list Operation) : CustomAdmission :=
  {| operations := ops; readyFunc := None; entitlementIndexer := None;
     apiBindingsHasSynced := None; apiEntitlementHasSynced := None |}.

(** [p.SetReadyFunc(f)] *)
Definition SetReadyFunc (f : ReadyFunc) (p : CustomAdmission) : CustomAdmission :=
  {| operations := operations p; readyFunc := Some f;
     entitlementIndexer := entitlementIndexer p;
     apiBindingsHasSynced := apiBindingsHasSynced p;
     apiEntitlementHasSynced := apiEntitlementHasSynced p |}.

Definition NewMutatingPCustomAdmission : CustomAdmission :=
  SetReadyFunc callsApiEntitlementHasSynced
    (SetReadyFunc callsApiBindingsHasSynced (NewHandler [Create; Update])).

(** The first revision's [SetKcpInformers]; the later ones leave out the
    indexer. *)
Definition SetKcpInformers (p : CustomAdmission) : CustomAdmission :=
  {| operations := operations p; readyFunc := readyFunc p;
     entitlementIndexer := Some Entitlements;
     apiBindingsHasSynced := Some APIBindings;
     apiEntitlementHasSynced := apiEntitlementHasSynced p |}.

Definition SetEntitlements (p : CustomAdmission) : CustomAdmission :=
  {| operations := operations p; readyFunc := readyFunc p;
     entitlementIndexer := entitlementIndexer p;
     apiBindingsHasSynced := apiBindingsHasSynced p;
     apiEntitlementHasSynced := Some Entitlements |}.

(** [nil], or [errors.New("missing apiBindingsHasSynced")]. *)
Definition ValidateInitialization (p : CustomAdmission) : option string :=
  match apiBindingsHasSynced p with
  | None => Some "missing apiBindingsHasSynced"
  | Some _ => None
  end.

(** [Handler.Handles(operation)] *)
Definition Handles (p : CustomAdmission) (op : Operation) : bool :=
  existsb (Operation_eqb op) (operations p).

(** The result of calling a function value: its result, or the panic of a
    call through nil. *)
Inductive called (A : Type) :=
| Value (a : A)
| NilCall.
Arguments Value {A} a.
Arguments NilCall {A}.

Definition callSynced (f : option Informer) (synced : Informer -> bool) : called bool :=
  match f with
  | Some i => Value (synced i)
  | None => NilCall
  end.

(** One evaluation of the handler's ready function, as [WaitForReady] does
    it; [synced] tells which informers have synced at that time.  Without a
    ready function the handler is ready. *)
Definition ready (p : CustomAdmission) (synced : Informer -> bool) : called bool :=
  match readyFunc p with
  | None => Value true
  | Some callsApiBindingsHasSynced => callSynced (apiBindingsHasSynced p) synced
  | Some callsApiEntitlementHasSynced => callSynced (apiEntitlementHasSynced p) synced
  end.

(** The setters an initializer may call on the plugin, in any order. *)
Inductive Setter := CallSetKcpInformers | CallSetEntitlements.

Definition applySetter (p : CustomAdmission) (c : Setter) : CustomAdmission :=
  match c with
  | CallSetKcpInformers => SetKcpInformers p
  | CallSetEntitlements => SetEntitlements p
  end.

Definition setUp (calls : list Setter) : CustomAdmission :=
  fold_left applySetter calls NewMutatingPCustomAdmission.

Definition isKcpInformers (c : Setter) : bool :=
  match c with CallSetKcpInformers => true | CallSetEntitlements => false end.

Definition isEntitlements (c : Setter) : bool :=
  match c with CallSetEntitlements => true | CallSetKcpInformers => false end.

End Lifecycle.

(** The receiver of the first revision's [Admit] after the set-up: its
    indexer is that of the factory's Entitlements informer, here [indexer],
    once [SetKcpInformers] has stored it, and nil before. *)
Definition receiver (indexer : ByEntitlement.Indexer) (p : Lifecycle.CustomAdmission)
    : ByEntitlement.CustomAdmission :=
  {| ByEntitlement.entitlementIndexer :=
       match Lifecycle.entitlementIndexer p with
       | Some _ => Some indexer
       | None => None
       end |}.

(** ** Validate

    The same in the three revisions.  The unstructured content [U], the
    typed [APIBinding] [B], the two conversions of
    [runtime.DefaultUnstructuredConverter], the test
    [apiBinding.Spec.Reference.Workspace != nil] and the API group's name
    are taken as given. *)

Module Validation.

Inductive RuntimeObject (U : Type) :=
| Unstructured (Object : U)      (* *unstructured.Unstructured *)
| Typed.                         (* any other type *)
Arguments Unstructured {U} Object.
Arguments Typed {U}.

Inductive ValidateError :=
| UnexpectedType                       (* fmt.Errorf("unexpected type %T") *)
| FailedToConvert (cause : string)     (* "failed to convert unstructured to APIBinding: %w" *)
| WriteBack (cause : string).          (* ToUnstructured's error *)

(** [a.GetResource()] and [a.GetObject()] *)
Record Attributes (U : Type) := {
  GetResource : GroupVersionResource;
  GetObject : RuntimeObject U
}.
Arguments GetResource {U} _.
Arguments GetObject {U} _.

Section Validate.
Variables U B : Type.
Variable GroupName : string.
Variable FromUnstructured : U -> string + B.
Variable ToUnstructured : B -> string + U.
Variable hasWorkspaceReference : B -> bool.

(** [a.GetResource().GroupResource() != apisv1alpha1.Resource("apibindings")] *)
Definition isAPIBindings (r : GroupVersionResource) : bool :=
  String.eqb (Group r) GroupName && String.eqb (Resource r) "apibindings".

(** The error returned, and the object as the call leaves it
    ([u.Object = raw] writes through the pointer). *)
Definition Validate (a : Attributes U) : option ValidateError * RuntimeObject U :=
  if negb (isAPIBindings (GetResource a)) then (None, GetObject a) else
  match GetObject a with
  | Typed => (Some UnexpectedType, GetObject a)
  | Unstructured u =>
      match FromUnstructured u with
      | inl err => (Some (FailedToConvert err), GetObject a)
      | inr apiBinding =>
          if negb (hasWorkspaceReference apiBinding) then (None, GetObject a) else
          match ToUnstructured apiBinding with
          | inl err => (Some (WriteBack err), GetObject a)
          | inr raw => (None, Unstructured raw)
          end
      end
  end.

(** The request [Validate] leaves behind: the same resource, the object as
    written back. *)
Definition afterValidate (a : Attributes U) : Attributes U :=
  {| GetResource := GetResource a; GetObject := snd (Validate a) |}.

End Validate.
Arguments Validate {U B} GroupName FromUnstructured ToUnstructured hasWorkspaceReference a.
Arguments afterValidate {U B} GroupName FromUnstructured ToUnstructured
  hasWorkspaceReference a.

End Validation.

(** Conversions for an example: the unstructured content is the binding's
    workspace reference, if it has one, and the typed binding holds the
    same. *)
Definition exampleGroup : string := "apis.kcp.dev".

Definition exampleFrom (u : option string) : string + option string := inr u.

Definition exampleTo (b : option string) : string + option string := inr b.

Definition exampleReference (b : option string) : bool :=
  match b with Some _ => true | None => false end.

Definition exampleBinding : Validation.Attributes (option string) :=
  {| Validation.GetResource :=
       {| Group := "apis.kcp.dev"; Version := "v1alpha1"; Resource := "apibindings" |};
     Validation.GetObject := Validation.Unstructured (Some "root:org") |}.

(** ** Reading the handlers *)

(** The limit an entitlement contributes: [Atoi] of its first quota item. *)
Definition firstLimit (e : ByEntitlement.Entitlement) : Z :=
  match ByEntitlement.QuotaItems (ByEntitlement.Spec e) with
  | item :: _ => fst (Atoi (ByEntitlement.Limits item))
  | [] => 0
  end.

(** A counter that starts at [c] denies exactly the call after [c] served
    ones, among the first [2^64] calls. *)
Definition DeniesExactlyAfter {G} (handler : G -> outcome * G) (counter : G -> Z) : Prop :=
  forall g k, 0 <= counter g <= MaxInt -> (k < 2 ^ 64)%N ->
    (denied (fst (handler (served handler k g))) = true <-> Z.of_N k = counter g).

(** Both used-quota counters of the first revision lie between 0 and [L]. *)
Definition WithinQuota (L : Z) (g : ByEntitlement.Globals) : Prop :=
  0 <= ByEntitlement.aspianHACBSUsedQuota g <= Z.max 0 L /\
  0 <= ByEntitlement.bspianAppStudioUsedQuota g <= Z.max 0 L.

(** A request the second revision's check by name applies to, whatever the
    context: no subresource, the object's name, a user in the group. *)
Definition matchesNameCheck (group name : string) (a : Attributes) : bool :=
  String.eqb (GetSubresource a) "" && hasName (GetObject a) name
  && inGroup group a.

(** * Theorems: the admission handlers *)

Ltac unfold_M :=
  unfold run, when, return_, panic, get, put, mbind, M_bind, mret, M_ret, bind, ret in *.

Lemma pow63 : 2 ^ (int_bits - 1) = 9223372036854775808.
Proof. reflexivity. Qed.

Lemma pow64 : 2 ^ int_bits = 18446744073709551616.
Proof. reflexivity. Qed.

Lemma wrap_id z : in_int z -> wrap z = z.
Proof.
  unfold in_int, MinInt, MaxInt, wrap. rewrite pow63, pow64. intros H.
  rewrite Z.mod_small; lia.
Qed.

Lemma wrap_sub1 z : wrap (wrap z - 1) = wrap (z - 1).
Proof.
  unfold wrap. rewrite pow63, pow64. f_equal.
  replace ((z + 9223372036854775808) mod 18446744073709551616 - 9223372036854775808 - 1
           + 9223372036854775808)
    with ((z + 9223372036854775808) mod 18446744073709551616 - 1) by lia.
  rewrite Zminus_mod_idemp_l. f_equal. lia.
Qed.

Lemma wrap_zero_inv z : wrap z = 0 -> exists q, z = 18446744073709551616 * q.
Proof.
  unfold wrap. rewrite pow63, pow64. intros H.
  pose proof (Z.div_mod (z + 9223372036854775808) 18446744073709551616 ltac:(lia)) as D.
  exists ((z + 9223372036854775808) / 18446744073709551616). lia.
Qed.

Section FixedCounter.
Context {G : Type} (handler : G -> outcome * G) (counter : G -> Z).
Variable e : error.
Hypothesis handler_outcome :
  forall g, fst (handler g) = Returns (if counter g =? 0 then Some e else None).
Hypothesis handler_counter :
  forall g, counter (snd (handler g)) = wrap (counter g - 1).

Lemma served_counter n g :
  in_int (counter g) -> counter (served handler n g) = wrap (counter g - Z.of_N n).
Proof.
  intros Hg. unfold served. induction n as [|n IH] using N.peano_ind.
  - simpl. rewrite Z.sub_0_r. symmetry. now apply wrap_id.
  - rewrite N.iter_succ, handler_counter, IH, wrap_sub1. f_equal. lia.
Qed.

Lemma fixed_counter : DeniesOnlyAtZero handler counter.
Proof.
  unfold DeniesOnlyAtZero. split; [|split; [|split; [|split]]].
  - intros g. rewrite handler_outcome.
    destruct (Z.eqb_spec (counter g) 0); simpl; split; congruence.
  - intros g. rewrite handler_outcome. now destruct (counter g =? 0).
  - apply handler_counter.
  - intros g Hz. rewrite handler_counter, Hz. split; reflexivity.
  - intros g n Hz Hn. rewrite handler_outcome.
    rewrite served_counter; rewrite handler_counter, Hz.
    + change (wrap (0 - 1)) with (-1).
      destruct (Z.eqb_spec (wrap (-1 - Z.of_N n)) 0) as [W|]; [|reflexivity].
      apply wrap_zero_inv in W. destruct W as [q Hq].
      assert (Z.of_N n < 18446744073709551615)
        by (change 18446744073709551615 with (Z.of_N (2 ^ 64 - 1)); lia).
      lia.
    + now vm_compute.
Qed.
End FixedCounter.

(** ** One call of a fixed-counter handler on a request its check applies to *)

Ltac split_andb :=
  repeat match goal with
         | H : _ && _ = true |- _ => apply andb_true_iff in H; destruct H
         end.

Lemma org_aspian_call ctx a g :
  reachesOrgCheck "org/aspian" "Pipeline" a = true ->
  ByOrganization.Admit ctx a g =
    (Returns (if ByOrganization.aspianHACBSQuota g =? 0 then Some quotaError else None),
     {| ByOrganization.aspianHACBSQuota := wrap (ByOrganization.aspianHACBSQuota g - 1);
        ByOrganization.bspainAppStudioQuota := ByOrganization.bspainAppStudioQuota g |}).
Proof.
  unfold reachesOrgCheck, inGroup, ByOrganization.Admit. intros H. split_andb.
  destruct (GetObject a); [|discriminate].
  destruct (GetUserInfo a) as [user|]; [|discriminate].
  match goal with K : String.eqb (GetKind a) _ = true |- _ => apply String.eqb_eq in K; rewrite K end.
  repeat match goal with K : _ = true |- _ => rewrite K end.
  rewrite andb_false_r. unfold_M. simpl.
  now destruct (ByOrganization.aspianHACBSQuota g =? 0).
Qed.

Lemma org_bspian_call ctx a g :
  reachesOrgCheck "org/bspian" "App" a = true ->
  ByOrganization.Admit ctx a g =
    (Returns (if ByOrganization.bspainAppStudioQuota g =? 0 then Some quotaError else None),
     {| ByOrganization.aspianHACBSQuota := ByOrganization.aspianHACBSQuota g;
        ByOrganization.bspainAppStudioQuota := wrap (ByOrganization.bspainAppStudioQuota g - 1) |}).
Proof.
  unfold reachesOrgCheck, inGroup, ByOrganization.Admit. intros H. split_andb.
  destruct (GetObject a); [|discriminate].
  destruct (GetUserInfo a) as [user|]; [|discriminate].
  match goal with K : String.eqb (GetKind a) _ = true |- _ => apply String.eqb_eq in K; rewrite K end.
  repeat match goal with K : _ = true |- _ => rewrite K end.
  rewrite andb_false_r. unfold_M. simpl.
  now destruct (ByOrganization.bspainAppStudioQuota g =? 0).
Qed.

Lemma name_aspian_call ctx a g :
  reachesNameCheck "aspian" "hacbs" ctx a = true ->
  ByObjectName.Admit ctx a g =
    (Returns (if ByObjectName.aspianHACBSBindQuota g =? 0
              then Some ByObjectName.noQuotaError else None),
     {| ByObjectName.aspianHACBSBindQuota := wrap (ByObjectName.aspianHACBSBindQuota g - 1);
        ByObjectName.bspainAppStudioBindQuota := ByObjectName.bspainAppStudioBindQuota g |}).
Proof.
  unfold reachesNameCheck, inGroup, ByObjectName.Admit, ClusterNameFrom. intros H. split_andb.
  destruct (ctxCluster ctx); [|discriminate].
  destruct (GetObject a) as [name|]; [|discriminate].
  destruct (GetUserInfo a) as [user|]; [|discriminate]. simpl in *.
  match goal with K : String.eqb name _ = true |- _ => apply String.eqb_eq in K; subst name end.
  repeat match goal with K : _ = true |- _ => rewrite K end.
  rewrite andb_false_r. unfold_M. simpl.
  now destruct (ByObjectName.aspianHACBSBindQuota g =? 0).
Qed.

Lemma name_bspian_call ctx a g :
  reachesNameCheck "bspian" "appstudio" ctx a = true ->
  ByObjectName.Admit ctx a g =
    (Returns (if ByObjectName.bspainAppStudioBindQuota g =? 0
              then Some ByObjectName.noQuotaError else None),
     {| ByObjectName.aspianHACBSBindQuota := ByObjectName.aspianHACBSBindQuota g;
        ByObjectName.bspainAppStudioBindQuota := wrap (ByObjectName.bspainAppStudioBindQuota g - 1) |}).
Proof.
  unfold reachesNameCheck, inGroup, ByObjectName.Admit, ClusterNameFrom. intros H. split_andb.
  destruct (ctxCluster ctx); [|discriminate].
  destruct (GetObject a) as [name|]; [|discriminate].
  destruct (GetUserInfo a) as [user|]; [|discriminate]. simpl in *.
  match goal with K : String.eqb name _ = true |- _ => apply String.eqb_eq in K; subst name end.
  repeat match goal with K : _ = true |- _ => rewrite K end.
  rewrite andb_false_r. unfold_M. simpl.
  now destruct (ByObjectName.bspainAppStudioBindQuota g =? 0).
Qed.

(** ** C3: the fixed counters *)

(** C3 (as amended).  In the two fixed-counter revisions (one counter per
    organization, checks by object name), for a request that reaches a quota
    check (no subresource, a [metav1.Object], the group, and the kind or the
    object name; for the by-name revision also a context that carries a
    cluster name): the request is denied if and only if the counter is zero
    at entry, it is admitted otherwise, the counter goes down by one even
    when the request is denied, after the denial it is -1, and each of the
    next [2^64 - 1] such requests is admitted. *)
Theorem fixed_counters_deny_only_at_zero (ctx : Context) (a : Attributes) :
  (reachesOrgCheck "org/aspian" "Pipeline" a = true ->
   DeniesOnlyAtZero (ByOrganization.Admit ctx a) ByOrganization.aspianHACBSQuota) /\
  (reachesOrgCheck "org/bspian" "App" a = true ->
   DeniesOnlyAtZero (ByOrganization.Admit ctx a) ByOrganization.bspainAppStudioQuota) /\
  (reachesNameCheck "aspian" "hacbs" ctx a = true ->
   DeniesOnlyAtZero (ByObjectName.Admit ctx a) ByObjectName.aspianHACBSBindQuota) /\
  (reachesNameCheck "bspian" "appstudio" ctx a = true ->
   DeniesOnlyAtZero (ByObjectName.Admit ctx a) ByObjectName.bspainAppStudioBindQuota).
Proof.
  split; [|split; [|split]]; intros H.
  - apply fixed_counter with (e := quotaError); intros g;
      now rewrite (org_aspian_call ctx a g H).
  - apply fixed_counter with (e := quotaError); intros g;
      now rewrite (org_bspian_call ctx a g H).
  - apply fixed_counter with (e := ByObjectName.noQuotaError); intros g;
      now rewrite (name_aspian_call ctx a g H).
  - apply fixed_counter with (e := ByObjectName.noQuotaError); intros g;
      now rewrite (name_bspian_call ctx a g H).
Qed.

Lemma fixed_counters_witness :
  DeniesOnlyAtZero (ByOrganization.Admit inCluster pipelineByAspian)
    ByOrganization.aspianHACBSQuota /\
  DeniesOnlyAtZero (ByOrganization.Admit inCluster appByBspian)
    ByOrganization.bspainAppStudioQuota /\
  DeniesOnlyAtZero (ByObjectName.Admit inCluster hacbsByAspian)
    ByObjectName.aspianHACBSBindQuota /\
  DeniesOnlyAtZero (ByObjectName.Admit inCluster appstudioByBspian)
    ByObjectName.bspainAppStudioBindQuota.
Proof.
  split; [|split; [|split]].
  - apply (fixed_counters_deny_only_at_zero inCluster pipelineByAspian). reflexivity.
  - apply (fixed_counters_deny_only_at_zero inCluster appByBspian). reflexivity.
  - apply (fixed_counters_deny_only_at_zero inCluster hacbsByAspian). reflexivity.
  - apply (fixed_counters_deny_only_at_zero inCluster appstudioByBspian). reflexivity.
Defined.

(** The third revision's answer to the same [Pipeline] request after [n]
    served ones, from the initial counters. *)
Lemma org_aspian_nth_call (n : N) :
  fst (ByOrganization.Admit noCluster pipelineByAspian
         (served (ByOrganization.Admit noCluster pipelineByAspian) n ByOrganization.init))
  = Returns (if wrap (1 - Z.of_N n) =? 0 then Some quotaError else None).
Proof.
  assert (R : reachesOrgCheck "org/aspian" "Pipeline" pipelineByAspian = true) by reflexivity.
  generalize (served_counter (ByOrganization.Admit noCluster pipelineByAspian)
                ByOrganization.aspianHACBSQuota
                (fun g => f_equal (fun r => ByOrganization.aspianHACBSQuota (snd r))
                            (org_aspian_call noCluster pipelineByAspian g R))
                n ByOrganization.init).
  generalize (served (ByOrganization.Admit noCluster pipelineByAspian) n ByOrganization.init).
  intros g C. rewrite (org_aspian_call noCluster pipelineByAspian g R). cbn [fst].
  rewrite C; [reflexivity|]. split; discriminate.
Qed.

(** C3, the claim as stated fails.  "Every subsequent matching request is
    admitted again": from the initial counters of the third revision, with
    the same request each time, the second call is the denial (the counter
    is 0), and the call after [2^64 + 1] served calls, a later matching
    request, is denied as well: the [int] counter has wrapped around to 0.
    "Denied if and only if the counter is zero", in the by-name revision:
    with a context from which [ClusterNameFrom] fails, the request named
    [hacbs] of a user in [aspian] is denied while the counter is 5. *)
Lemma later_request_denied_after_wrap :
  denied (fst (ByOrganization.Admit noCluster pipelineByAspian
                 (served (ByOrganization.Admit noCluster pipelineByAspian) 1
                    ByOrganization.init))) = true /\
  denied (fst (ByOrganization.Admit noCluster pipelineByAspian
                 (served (ByOrganization.Admit noCluster pipelineByAspian) (2 ^ 64 + 1)
                    ByOrganization.init))) = true /\
  (ByObjectName.aspianHACBSBindQuota ByObjectName.init = 5 /\
   denied (fst (ByObjectName.Admit noCluster hacbsByAspian ByObjectName.init)) = true).
Proof.
  split; [|split].
  - exact (f_equal denied (org_aspian_nth_call 1)).
  - exact (f_equal denied (org_aspian_nth_call (2 ^ 64 + 1))).
  - split; reflexivity.
Qed.

(** ** C10: subresource requests *)

(** C10.  A request on a subresource (its subresource is not empty) is
    admitted at once by each of the three revisions, and no counter
    changes. *)
Theorem Admit_subresource_untouched
    (m : ByEntitlement.CustomAdmission) (ctx : Context) (a : Attributes) :
  GetSubresource a <> "" ->
  (forall g, ByEntitlement.Admit m ctx a g = (Returns None, g)) /\
  (forall g, ByObjectName.Admit ctx a g = (Returns None, g)) /\
  (forall g, ByOrganization.Admit ctx a g = (Returns None, g)).
Proof.
  intros H. apply String.eqb_neq in H.
  unfold ByEntitlement.Admit, ByObjectName.Admit, ByOrganization.Admit.
  rewrite H. repeat split.
Qed.

Lemma Admit_subresource_witness :
  GetSubresource statusUpdate <> "" /\
  (forall g, ByEntitlement.Admit (everyCluster [entitlementWith ["0"]]) inCluster statusUpdate g
             = (Returns None, g)) /\
  (forall g, ByObjectName.Admit inCluster statusUpdate g = (Returns None, g)) /\
  (forall g, ByOrganization.Admit inCluster statusUpdate g = (Returns None, g)).
Proof.
  split; [discriminate|].
  apply (Admit_subresource_untouched (everyCluster [entitlementWith ["0"]]) inCluster statusUpdate).
  discriminate.
Defined.

(** ** C4: the unchecked index *)

(** C4.  In the entitlement revision, a request without subresource, on a
    [metav1.Object], by a user whose tenant is not empty and who is in
    [org/aspian] creating a [Pipeline] (or in [org/bspian] creating an
    [App]), reads [QuotaItems[0]] of the tenant's first entitlement in the
    plugin's indexer with no length check: when that list is empty the call
    panics (index out of range), whatever the counters are. *)
Theorem Admit_indexes_QuotaItems_unchecked
    (m : ByEntitlement.CustomAdmission) (ctx : Context) (a : Attributes)
    (g : ByEntitlement.Globals) (name : string) (usr : UserInfo)
    (indexer : ByEntitlement.Indexer)
    (e : ByEntitlement.Entitlement) (rest : list ByEntitlement.Entitlement) :
  GetSubresource a = "" ->
  GetObject a = MetaObject name ->
  GetUserInfo a = Some usr ->
  getTenantId usr <> "" ->
  (isPresentInArray "org/aspian" (GetGroups usr) = true /\ GetKind a = "Pipeline") \/
  (isPresentInArray "org/bspian" (GetGroups usr) = true /\ GetKind a = "App") ->
  ByEntitlement.entitlementIndexer m = Some indexer ->
  indexer ("root:" +:+ getTenantId usr) = inr (e :: rest) ->
  ByEntitlement.QuotaItems (ByEntitlement.Spec e) = [] ->
  fst (ByEntitlement.Admit m ctx a g) = Panics.
Proof.
  intros Hsub Hobj Husr Hten Hreq Hm Hidx Hempty.
  apply String.eqb_neq in Hten.
  unfold ByEntitlement.Admit. rewrite Hsub, Hobj, Husr, Hten. cbn [String.eqb negb].
  unfold_M. cbn [negb]. rewrite Hm, Hidx. cbn [range].
  unfold ByEntitlement.forEntitlement. unfold_M. rewrite Hempty.
  destruct Hreq as [[Hg Hk]|[Hg Hk]]; rewrite Hg, Hk; cbn [String.eqb Ascii.eqb Bool.eqb].
  - reflexivity.
  - rewrite andb_false_r || idtac.
    destruct (isPresentInArray "org/aspian" (GetGroups usr)); reflexivity.
Qed.

Lemma Admit_indexes_QuotaItems_witness :
  fst (ByEntitlement.Admit (everyCluster [entitlementWith []]) noCluster pipelineByAspian
         ByEntitlement.init) = Panics /\
  fst (ByEntitlement.Admit (everyCluster [entitlementWith []]) noCluster appByBspian
         ByEntitlement.init) = Panics.
Proof.
  split.
  - apply (Admit_indexes_QuotaItems_unchecked _ noCluster pipelineByAspian _ "build"
             {| GetName := "alice"; GetGroups := ["system:authenticated"; "org/aspian"] |}
             (fun _ => inr [entitlementWith []]) (entitlementWith []) []); try reflexivity.
    + discriminate.
    + left. split; reflexivity.
  - apply (Admit_indexes_QuotaItems_unchecked _ noCluster appByBspian _ "shop"
             {| GetName := "bob"; GetGroups := ["org/bspian"] |}
             (fun _ => inr [entitlementWith []]) (entitlementWith []) []); try reflexivity.
    + discriminate.
    + right. split; reflexivity.
Defined.

(** ** C1: the handlers read and write process-wide counters *)

Lemma not_function_of_arguments {G}
    (handler : Context -> Attributes -> G -> outcome * G) (g0 : G)
    (ctx : Context) (a : Attributes) (calls : list (Context * Attributes)) :
  fst (handler ctx a g0) <> fst (handler ctx a (servedAll handler calls g0)) ->
  ~ FunctionOfArguments handler g0.
Proof.
  intros Hne [f Hf]. apply Hne.
  rewrite (Hf calls ctx a). exact (Hf [] ctx a).
Qed.

(** C1.  [Admit] reads and writes the package-level counters, so its answer
    is not determined by its arguments: in each revision the same call is
    admitted by a fresh process and denied after earlier calls (one call for
    the counter [aspianHACBSQuota], one for [aspianHACBSUsedQuota] with a
    limit of 1, five for [aspianHACBSBindQuota]).  The counters are not kept
    per tenant: a call by a user of tenant [aspian] uses up the quota that a
    later call by a user of tenant [acme] is then denied for. *)
Theorem Admit_answer_depends_on_served_calls :
  let one := everyCluster [entitlementWith ["1"]] in
  (* same arguments, different answers *)
  (admitted (fst (ByOrganization.Admit noCluster pipelineByAspian ByOrganization.init)) = true /\
   denied (fst (ByOrganization.Admit noCluster pipelineByAspian
                  (served (ByOrganization.Admit noCluster pipelineByAspian) 1
                     ByOrganization.init))) = true) /\
  (admitted (fst (ByEntitlement.Admit one noCluster pipelineByAspian ByEntitlement.init)) = true /\
   denied (fst (ByEntitlement.Admit one noCluster pipelineByAspian
                  (served (ByEntitlement.Admit one noCluster pipelineByAspian) 1
                     ByEntitlement.init))) = true) /\
  (admitted (fst (ByObjectName.Admit inCluster hacbsByAspian ByObjectName.init)) = true /\
   denied (fst (ByObjectName.Admit inCluster hacbsByAspian
                  (served (ByObjectName.Admit inCluster hacbsByAspian) 5
                     ByObjectName.init))) = true) /\
  (* the calls write the counters *)
  (ByOrganization.aspianHACBSQuota
     (snd (ByOrganization.Admit noCluster pipelineByAspian ByOrganization.init))
     <> ByOrganization.aspianHACBSQuota ByOrganization.init /\
   ByEntitlement.aspianHACBSUsedQuota
     (snd (ByEntitlement.Admit one noCluster pipelineByAspian ByEntitlement.init))
     <> ByEntitlement.aspianHACBSUsedQuota ByEntitlement.init) /\
  (* no function of the arguments gives the answer *)
  (~ FunctionOfArguments ByOrganization.Admit ByOrganization.init /\
   ~ FunctionOfArguments (ByEntitlement.Admit one) ByEntitlement.init /\
   ~ FunctionOfArguments ByObjectName.Admit ByObjectName.init) /\
  (* one counter for all tenants *)
  (getTenantId <$> GetUserInfo pipelineByAspian = Some "aspian" /\
   getTenantId <$> GetUserInfo pipelineByAcme = Some "acme" /\
   admitted (fst (ByEntitlement.Admit one noCluster pipelineByAcme ByEntitlement.init)) = true /\
   denied (fst (ByEntitlement.Admit one noCluster pipelineByAcme
                  (servedAll (ByEntitlement.Admit one) [(noCluster, pipelineByAspian)]
                     ByEntitlement.init))) = true).
Proof.
  intros one. repeat split.
  - intros H. vm_compute in H. discriminate.
  - intros H. vm_compute in H. discriminate.
  - apply (not_function_of_arguments _ _ noCluster pipelineByAspian
             [(noCluster, pipelineByAspian)]).
    intros H. vm_compute in H. discriminate.
  - apply (not_function_of_arguments _ _ noCluster pipelineByAspian
             [(noCluster, pipelineByAspian)]).
    intros H. vm_compute in H. discriminate.
  - apply (not_function_of_arguments _ _ inCluster hacbsByAspian
             (repeat (inCluster, hacbsByAspian) 5)).
    intros H. vm_compute in H. discriminate.
Qed.

(** ** C2: the three revisions disagree *)

(** C2.  The three revisions gate on different things and are not
    equivalent.  The entitlement revision follows
    [QuotaItems[0].Limits] (limit 1 admits, limit 0 denies the same call);
    the by-name revision follows the object's name (it denies
    [data.my.domain] whatever the counters are); the per-organization
    revision follows its fixed counter.  The call [dataMyDomain] is denied
    by the by-name revision and admitted by the other two, in every state;
    the first [Pipeline] call of an [org/aspian] user with a limit of 0 is
    denied by the entitlement revision and admitted by the per-organization
    one. *)
Theorem Admit_revisions_disagree :
  (forall m ctx g1 g2 g3,
     admitted (fst (ByEntitlement.Admit m ctx dataMyDomain g1)) = true /\
     denied (fst (ByObjectName.Admit ctx dataMyDomain g2)) = true /\
     admitted (fst (ByOrganization.Admit ctx dataMyDomain g3)) = true) /\
  (denied (fst (ByEntitlement.Admit (everyCluster [entitlementWith ["0"]]) inCluster
                  pipelineByAspian ByEntitlement.init)) = true /\
   admitted (fst (ByEntitlement.Admit (everyCluster [entitlementWith ["1"]]) inCluster
                    pipelineByAspian ByEntitlement.init)) = true /\
   admitted (fst (ByOrganization.Admit inCluster pipelineByAspian ByOrganization.init)) = true /\
   admitted (fst (ByObjectName.Admit inCluster pipelineByAspian ByObjectName.init)) = true) /\
  (exists m ctx a,
     admitted (fst (ByEntitlement.Admit m ctx a ByEntitlement.init))
       <> admitted (fst (ByObjectName.Admit ctx a ByObjectName.init))) /\
  (exists ctx a,
     admitted (fst (ByObjectName.Admit ctx a ByObjectName.init))
       <> admitted (fst (ByOrganization.Admit ctx a ByOrganization.init))) /\
  (exists m ctx a,
     admitted (fst (ByEntitlement.Admit m ctx a ByEntitlement.init))
       <> admitted (fst (ByOrganization.Admit ctx a ByOrganization.init))).
Proof.
  split; [|split; [|split; [|split]]].
  - intros m ctx g1 g2 g3. split; [reflexivity|]. split; [|reflexivity].
    unfold ByObjectName.Admit, ClusterNameFrom. cbn.
    destruct (ctxCluster ctx); reflexivity.
  - repeat split.
  - exists (everyCluster []), inCluster, dataMyDomain. discriminate.
  - exists inCluster, dataMyDomain. discriminate.
  - exists (everyCluster [entitlementWith ["0"]]), inCluster, pipelineByAspian. discriminate.
Qed.

(** ** Further facts about the handlers *)

Lemma isPresentInArray_true input arr :
  isPresentInArray input arr = true <-> In input arr.
Proof.
  induction arr as [|str rest IH]; cbn.
  - split; [discriminate|tauto].
  - destruct (String.eqb_spec input str) as [->|Hne].
    + split; auto.
    + rewrite IH. split; [auto|]. intros [H|H]; [congruence|exact H].
Qed.

(** X1.  [isPresentInArray] is list membership. *)
Theorem isPresentInArray_is_membership (input : string) (arr : list string) :
  (isPresentInArray input arr = true <-> In input arr) /\
  (isPresentInArray input arr = false <-> ~ In input arr).
Proof.
  split; [apply isPresentInArray_true|].
  rewrite <- isPresentInArray_true. destruct (isPresentInArray input arr); split; congruence.
Qed.

Lemma substring_all s : String.substring 0 (String.length s) s = s.
Proof. induction s as [|c s IH]; cbn; [reflexivity|now rewrite IH]. Qed.

Lemma prefix_split p : forall s,
  String.prefix p s = true ->
  s = p +:+ String.substring (String.length p) (String.length s - String.length p) s.
Proof.
  induction p as [|a p IH]; intros s H.
  - change (s = String.substring 0 (String.length s - 0) s).
    now rewrite Nat.sub_0_r, substring_all.
  - destruct s as [|b s']; [discriminate H|].
    change ((if Ascii.ascii_dec a b then String.prefix p s' else false) = true) in H.
    destruct (Ascii.ascii_dec a b) as [->|]; [|discriminate H].
    change (String b s' =
            String b (p +:+ String.substring (String.length p)
                              (String.length s' - String.length p) s')).
    f_equal. now apply IH.
Qed.

Lemma prefix_org group :
  String.prefix "org/" group = true -> group = "org/" +:+ drop4 group.
Proof. apply prefix_split. Qed.

(** X2.  [getTenantId] gives the empty string, or the part after [org/] of
    one of the user's groups. *)
Theorem getTenantId_is_an_org_group (usr : UserInfo) :
  getTenantId usr = "" \/ In ("org/" +:+ getTenantId usr) (GetGroups usr).
Proof.
  unfold getTenantId. induction (GetGroups usr) as [|group rest IH]; cbn.
  - now left.
  - destruct (String.prefix "org/" group) eqn:E.
    + right. left. now apply prefix_org.
    + destruct IH as [IH|IH]; [now left|right; now right].
Qed.

(** X17.  The two fixed-counter revisions panic on one kind of request
    only, the one that carries no user ([a.GetUserInfo()] is nil), has no
    subresource and whose object is a [metav1.Object]: the call
    [user.GetGroups()] then panics, before any counter is touched.  Every
    request that carries a user returns, whatever the context and the
    counters. *)
Theorem fixed_counter_revisions_panic_on_nil_user_only (ctx : Context) (a : Attributes) :
  (forall g, fst (ByOrganization.Admit ctx a g) = Panics <->
             GetSubresource a = "" /\ isMetaObject (GetObject a) = true /\
             GetUserInfo a = None) /\
  (forall g, fst (ByObjectName.Admit ctx a g) = Panics <->
             GetSubresource a = "" /\ isMetaObject (GetObject a) = true /\
             GetUserInfo a = None) /\
  (forall g, fst (ByOrganization.Admit ctx a g) = Panics ->
             snd (ByOrganization.Admit ctx a g) = g) /\
  (forall g, fst (ByObjectName.Admit ctx a g) = Panics ->
             snd (ByObjectName.Admit ctx a g) = g) /\
  (forall usr, GetUserInfo a = Some usr ->
     (forall g, exists err, fst (ByOrganization.Admit ctx a g) = Returns err) /\
     (forall g, exists err, fst (ByObjectName.Admit ctx a g) = Returns err)).
Proof.
  assert (Org : forall g,
            (GetSubresource a = "" /\ isMetaObject (GetObject a) = true /\
             GetUserInfo a = None /\ ByOrganization.Admit ctx a g = (Panics, g)) \/
            ((GetSubresource a <> "" \/ isMetaObject (GetObject a) = false \/
              exists usr, GetUserInfo a = Some usr) /\
             exists err, fst (ByOrganization.Admit ctx a g) = Returns err)).
  { intros g. unfold ByOrganization.Admit.
    destruct (String.eqb_spec (GetSubresource a) ""); cbn [negb];
      [|right; split; [now left|now eexists]].
    destruct (GetObject a); cbn [isMetaObject];
      [|right; split; [right; now left|now eexists]].
    destruct (GetUserInfo a) as [user|]; [|left; repeat split; auto].
    right. split; [right; right; now eexists|].
    unfold_M.
    destruct (isPresentInArray "org/aspian" _ && _),
             (isPresentInArray "org/bspian" _ && _); cbn; now eexists. }
  assert (Name : forall g,
            (GetSubresource a = "" /\ isMetaObject (GetObject a) = true /\
             GetUserInfo a = None /\ ByObjectName.Admit ctx a g = (Panics, g)) \/
            ((GetSubresource a <> "" \/ isMetaObject (GetObject a) = false \/
              exists usr, GetUserInfo a = Some usr) /\
             exists err, fst (ByObjectName.Admit ctx a g) = Returns err)).
  { intros g. unfold ByObjectName.Admit, ClusterNameFrom.
    destruct (String.eqb_spec (GetSubresource a) ""); cbn [negb];
      [|right; split; [now left|now eexists]].
    destruct (GetObject a) as [name|]; cbn [isMetaObject];
      [|right; split; [right; now left|now eexists]].
    destruct (GetUserInfo a) as [user|];
      [|left; repeat split; auto; now destruct (ctxCluster ctx)].
    right. split; [right; right; now eexists|].
    unfold_M. destruct (ctxCluster ctx);
      destruct (isPresentInArray "aspian" _ && _),
               (isPresentInArray "bspian" _ && _); cbn;
      repeat match goal with
             | |- context [if ?b then _ else _] => destruct b; cbn
             end; now eexists. }
  split; [|split; [|split; [|split]]].
  - intros g. destruct (Org g) as [(H1 & H2 & H3 & ->)|[H [err He]]].
    + now split.
    + rewrite He. split; [discriminate|]. intros (H1 & H2 & H3).
      destruct H as [H|[H|[usr H]]]; congruence.
  - intros g. destruct (Name g) as [(H1 & H2 & H3 & ->)|[H [err He]]].
    + now split.
    + rewrite He. split; [discriminate|]. intros (H1 & H2 & H3).
      destruct H as [H|[H|[usr H]]]; congruence.
  - intros g. destruct (Org g) as [(_ & _ & _ & ->)|[_ [err ->]]]; [reflexivity|discriminate].
  - intros g. destruct (Name g) as [(_ & _ & _ & ->)|[_ [err ->]]]; [reflexivity|discriminate].
  - intros usr Hu. split; intros g.
    + destruct (Org g) as [(_ & _ & H & _)|[_ H]]; [congruence|exact H].
    + destruct (Name g) as [(_ & _ & H & _)|[_ H]]; [congruence|exact H].
Qed.

Lemma fixed_counter_revisions_panic_witness :
  fst (ByOrganization.Admit inCluster pipelineByNobody ByOrganization.init) = Panics /\
  fst (ByObjectName.Admit inCluster pipelineByNobody ByObjectName.init) = Panics /\
  (exists err, fst (ByObjectName.Admit noCluster hacbsByAspian ByObjectName.init) = Returns err).
Proof.
  destruct (fixed_counter_revisions_panic_on_nil_user_only inCluster pipelineByNobody)
    as (H1 & H2 & _).
  split; [apply H1; repeat split|]. split; [apply H2; repeat split|].
  destruct (fixed_counter_revisions_panic_on_nil_user_only noCluster hacbsByAspian)
    as (_ & _ & _ & _ & H).
  exact (proj2 (H _ eq_refl) ByObjectName.init).
Defined.

Lemma forEntitlement_panic_inv user a e g :
  fst (ByEntitlement.forEntitlement user a e g) = Panic ->
  ByEntitlement.QuotaItems (ByEntitlement.Spec e) = [].
Proof.
  unfold ByEntitlement.forEntitlement.
  destruct (ByEntitlement.QuotaItems (ByEntitlement.Spec e)) as [|item items]; [reflexivity|].
  unfold_M.
  destruct (isPresentInArray "org/aspian" (GetGroups user)),
           (String.eqb (GetKind a) "Pipeline"),
           (isPresentInArray "org/bspian" (GetGroups user)),
           (String.eqb (GetKind a) "App"); cbn;
    repeat match goal with
           | |- context [if ?b then _ else _] => destruct b; cbn
           end; discriminate.
Qed.

Lemma range_panic_inv user a es : forall g,
  fst (range es (ByEntitlement.forEntitlement user a) g) = Panic ->
  exists e, In e es /\ ByEntitlement.QuotaItems (ByEntitlement.Spec e) = [].
Proof.
  induction es as [|e es IH]; intros g; cbn [range].
  - discriminate.
  - unfold mbind, M_bind, bind.
    pose proof (forEntitlement_panic_inv user a e g) as He.
    destruct (ByEntitlement.forEntitlement user a e g) as [[[]|err|] g']; cbn [fst] in *.
    + intros H. destruct (IH g' H) as (e' & Hin & Hq). exists e'. split; [now right|exact Hq].
    + discriminate.
    + intros _. exists e. split; [now left|now apply He].
Qed.

(** X4.  The entitlement revision panics for three reasons only, each on a
    request without subresource whose object is a [metav1.Object]: the
    request carries no user ([usr.GetGroups()] in [getTenantId]); or the
    user's tenant is not empty and the plugin's indexer is nil, as
    [NewMutatingPCustomAdmission] leaves it ([ByIndex]); or the tenant is
    not empty and one of its entitlements has an empty [QuotaItems].  The
    first two always panic, and leave the counters as they were. *)
Theorem Admit_panic_causes
    (m : ByEntitlement.CustomAdmission) (ctx : Context) (a : Attributes)
    (g : ByEntitlement.Globals) :
  (fst (ByEntitlement.Admit m ctx a g) = Panics ->
   GetSubresource a = "" /\ isMetaObject (GetObject a) = true /\
   (GetUserInfo a = None \/
    exists usr, GetUserInfo a = Some usr /\ getTenantId usr <> "" /\
      (ByEntitlement.entitlementIndexer m = None \/
       exists indexer es e,
         ByEntitlement.entitlementIndexer m = Some indexer /\
         indexer ("root:" +:+ getTenantId usr) = inr es /\ In e es /\
         ByEntitlement.QuotaItems (ByEntitlement.Spec e) = []))) /\
  (GetSubresource a = "" -> isMetaObject (GetObject a) = true -> GetUserInfo a = None ->
   ByEntitlement.Admit m ctx a g = (Panics, g)) /\
  (forall usr,
     GetSubresource a = "" -> isMetaObject (GetObject a) = true ->
     GetUserInfo a = Some usr -> getTenantId usr <> "" ->
     ByEntitlement.entitlementIndexer m = None ->
     ByEntitlement.Admit m ctx a g = (Panics, g)).
Proof.
  unfold ByEntitlement.Admit.
  destruct (String.eqb_spec (GetSubresource a) "") as [Hs|Hs]; cbn [negb];
    [|split; [discriminate|split; [congruence|intros; congruence]]].
  destruct (GetObject a) as [name|]; cbn [isMetaObject];
    [|split; [discriminate|split; [discriminate|intros; discriminate]]].
  destruct (GetUserInfo a) as [user|];
    [|split; [auto|split; [reflexivity|intros; discriminate]]].
  unfold run, when, return_, panic, mbind, M_bind, bind, mret, M_ret, ret.
  destruct (String.eqb_spec (getTenantId user) "") as [Ht|Ht]; cbn [negb];
    [split; [discriminate|split; [discriminate|intros usr _ _ [= <-]; congruence]]|].
  destruct (ByEntitlement.entitlementIndexer m) as [indexer|].
  - split; [|split; [discriminate|intros; discriminate]].
    destruct (indexer _) as [err|es] eqn:E; [discriminate|].
    pose proof (range_panic_inv user a es g) as Hp.
    destruct (range es _ g) as [[[]|err|] g']; cbn [fst] in *; try discriminate.
    intros _. destruct (Hp eq_refl) as (e & Hin & Hq).
    split; [exact Hs|]. split; [reflexivity|]. right. exists user.
    split; [reflexivity|]. split; [exact Ht|]. right. exists indexer, es, e. auto.
  - split; [|split; [discriminate|reflexivity]].
    intros _. split; [exact Hs|]. split; [reflexivity|]. right. exists user. auto.
Qed.

Lemma Admit_panic_causes_witness :
  ByEntitlement.Admit (everyCluster [entitlementWith ["1"]]) noCluster pipelineByNobody
    ByEntitlement.init = (Panics, ByEntitlement.init) /\
  ByEntitlement.Admit withoutIndexer noCluster pipelineByAspian ByEntitlement.init
    = (Panics, ByEntitlement.init).
Proof.
  split.
  - destruct (Admit_panic_causes (everyCluster [entitlementWith ["1"]]) noCluster
                pipelineByNobody ByEntitlement.init) as (_ & H & _).
    exact (H eq_refl eq_refl eq_refl).
  - destruct (Admit_panic_causes withoutIndexer noCluster pipelineByAspian
                ByEntitlement.init) as (_ & _ & H).
    apply (H {| GetName := "alice"; GetGroups := ["system:authenticated"; "org/aspian"] |});
      try reflexivity.
    discriminate.
Defined.

(** * Theorems: more about the entitlement revision *)

Lemma MaxInt_value : MaxInt = 9223372036854775807.
Proof. reflexivity. Qed.

Lemma MinInt_value : MinInt = -9223372036854775808.
Proof. reflexivity. Qed.

Lemma digit_value_range c : is_digit c = true -> 0 <= digit_value c <= 9.
Proof.
  unfold is_digit, digit_value. cbv zeta. intros H.
  apply andb_prop in H as [H1 H2]. apply Z.leb_le in H1, H2. lia.
Qed.

(** The fast path's loop: [k] digits after [n] stay below [(n + 1) * 10^k]. *)
Lemma atoiLoop_bound s : forall n v,
  0 <= n -> atoiLoop s n = Some v ->
  0 <= v < (n + 1) * 10 ^ Z.of_nat (String.length s).
Proof.
  induction s as [|ch r IH]; intros n v Hn H; cbn [atoiLoop String.length] in *.
  - injection H as <-. cbn. lia.
  - destruct (is_digit ch) eqn:Ed; [|discriminate].
    pose proof (digit_value_range ch Ed) as Hd.
    apply IH in H; [|lia].
    rewrite Nat2Z.inj_succ, Z.pow_succ_r by lia.
    assert (0 < 10 ^ Z.of_nat (String.length r)) by (apply Z.pow_pos_nonneg; lia).
    nia.
Qed.

Lemma parseUintLoop_bound s : forall n,
  0 <= n <= maxUint64 -> 0 <= fst (parseUintLoop s n) <= maxUint64.
Proof.
  assert (M : maxUint64 = 18446744073709551615) by reflexivity.
  induction s as [|c r IH]; intros n Hn; cbn [parseUintLoop].
  - exact Hn.
  - destruct (is_digit c) eqn:Ed; cbn [negb]; [|cbn; lia].
    pose proof (digit_value_range c Ed) as Hd.
    destruct (Z.leb_spec (maxUint64 / 10 + 1) n); [cbn; lia|].
    cbv zeta. destruct (Z.ltb_spec maxUint64 (n * 10 + digit_value c)); [cbn; lia|].
    apply IH. lia.
Qed.

Lemma ParseInt_in_int s : in_int (fst (ParseInt s)).
Proof.
  assert (M : maxUint64 = 18446744073709551615) by reflexivity.
  unfold in_int. rewrite MaxInt_value, MinInt_value.
  unfold ParseInt. destruct s as [|c r]; [cbn; lia|]. cbv zeta.
  set (s' := if Ascii.eqb c "+" || Ascii.eqb c "-" then r else String c r).
  assert (Hu : 0 <= fst (ParseUint s') <= maxUint64).
  { unfold ParseUint. destruct s'; [cbn; lia|]. apply parseUintLoop_bound. lia. }
  destruct (ParseUint s') as [un err]. cbn [fst] in Hu.
  change (2 ^ (int_bits - 1)) with 9223372036854775808.
  destruct err as [[]|]; [cbn; lia| |];
    destruct (Ascii.eqb c "-"); cbn [negb andb];
    repeat match goal with
           | |- context [?x <=? ?y] => destruct (Z.leb_spec x y)
           | |- context [?x <? ?y] => destruct (Z.ltb_spec x y)
           end; cbn [fst]; lia.
Qed.

(** The value [strconv.Atoi] returns is an [int], whatever the string. *)
Lemma Atoi_in_int s : in_int (fst (Atoi s)).
Proof.
  unfold Atoi. cbv zeta.
  destruct ((0 <? Z.of_nat (String.length s)) && (Z.of_nat (String.length s) <? 19)) eqn:Ef;
    [|apply ParseInt_in_int].
  apply andb_prop in Ef as [_ Hlen]. apply Z.ltb_lt in Hlen.
  unfold in_int. rewrite MaxInt_value, MinInt_value.
  destruct s as [|c r]; [cbn; lia|].
  set (s' := if Ascii.eqb c "-" || Ascii.eqb c "+" then r else String c r).
  assert (Hs' : Z.of_nat (String.length s') <= 18).
  { subst s'. cbn [String.length] in Hlen.
    destruct (Ascii.eqb c "-" || Ascii.eqb c "+"); cbn [String.length]; lia. }
  destruct s' as [|c' r'] eqn:Es; [cbn; lia|]. rewrite <- Es in *.
  destruct (atoiLoop s' 0) as [n|] eqn:El; [|cbn; lia].
  apply atoiLoop_bound in El; [|lia].
  assert (10 ^ Z.of_nat (String.length s') <= 10 ^ 18) by (apply Z.pow_le_mono_r; lia).
  change (10 ^ 18) with 1000000000000000000 in *.
  destruct (Ascii.eqb c "-"); cbn [fst]; lia.
Qed.

(** The model on strings of each kind: plain and signed numbers, syntax
    errors, and range errors met before and after an invalid byte. *)
Lemma Atoi_values :
  Atoi "5" = (5, None) /\ Atoi "-3" = (-3, None) /\ Atoi "+7" = (7, None) /\
  Atoi "" = (0, Some ErrSyntax) /\ Atoi "-" = (0, Some ErrSyntax) /\
  Atoi "12x" = (0, Some ErrSyntax) /\ Atoi "1_000" = (0, Some ErrSyntax) /\
  Atoi "9223372036854775807" = (MaxInt, None) /\
  Atoi "9223372036854775808" = (MaxInt, Some ErrRange) /\
  Atoi "-9223372036854775808" = (MinInt, None) /\
  Atoi "-9223372036854775809" = (MinInt, Some ErrRange) /\
  Atoi "99999999999999999999x" = (MaxInt, Some ErrRange) /\
  Atoi "-99999999999999999999x" = (MinInt, Some ErrRange) /\
  Atoi "9999999999999999999x" = (0, Some ErrSyntax).
Proof. repeat split; vm_compute; reflexivity. Qed.

Lemma firstLimit_in_int e : in_int (firstLimit e).
Proof.
  unfold firstLimit. destruct (ByEntitlement.QuotaItems _); [|apply Atoi_in_int].
  unfold in_int. rewrite MaxInt_value, MinInt_value. lia.
Qed.

Lemma wrap_succ_below z limit : in_int z -> in_int limit -> z < limit -> wrap (z + 1) = z + 1.
Proof.
  unfold in_int. rewrite MaxInt_value, MinInt_value. intros Hz Hl Hlt.
  apply wrap_id. unfold in_int. rewrite MaxInt_value, MinInt_value. lia.
Qed.

(** One entitlement, for a [Pipeline] request of a user in [org/aspian]. *)
Lemma forEntitlement_pipeline user a e g :
  isPresentInArray "org/aspian" (GetGroups user) = true ->
  GetKind a = "Pipeline" ->
  ByEntitlement.QuotaItems (ByEntitlement.Spec e) <> [] ->
  in_int (ByEntitlement.aspianHACBSUsedQuota g) ->
  ByEntitlement.forEntitlement user a e g =
    if ByEntitlement.aspianHACBSUsedQuota g <? firstLimit e
    then (Next tt,
          {| ByEntitlement.aspianHACBSUsedQuota := ByEntitlement.aspianHACBSUsedQuota g + 1;
             ByEntitlement.bspianAppStudioUsedQuota :=
               ByEntitlement.bspianAppStudioUsedQuota g |})
    else (Return (Some quotaError), g).
Proof.
  intros Hg Hk Hne Hin. unfold ByEntitlement.forEntitlement, firstLimit.
  rewrite Hg, Hk. destruct (ByEntitlement.QuotaItems _) as [|item items] eqn:E; [congruence|].
  unfold_M. cbn [String.eqb Ascii.eqb Bool.eqb].
  destruct (Z.ltb_spec (ByEntitlement.aspianHACBSUsedQuota g) (fst (Atoi (ByEntitlement.Limits item))))
    as [Hlt|Hge].
  - rewrite (wrap_succ_below _ _ Hin (Atoi_in_int _) Hlt).
    rewrite andb_false_r || idtac.
    destruct (isPresentInArray "org/bspian" (GetGroups user)); reflexivity.
  - reflexivity.
Qed.

(** What the loop over the entitlements does for such a request: it takes
    one unit per entitlement, in order, as long as the counter is below the
    entitlement's limit. *)
Lemma range_pipeline user a : forall es g,
  isPresentInArray "org/aspian" (GetGroups user) = true ->
  GetKind a = "Pipeline" ->
  (forall e, In e es -> ByEntitlement.QuotaItems (ByEntitlement.Spec e) <> []) ->
  in_int (ByEntitlement.aspianHACBSUsedQuota g) ->
  exists k : nat,
    (k <= length es)%nat /\
    snd (range es (ByEntitlement.forEntitlement user a) g) =
      {| ByEntitlement.aspianHACBSUsedQuota :=
           ByEntitlement.aspianHACBSUsedQuota g + Z.of_nat k;
         ByEntitlement.bspianAppStudioUsedQuota := ByEntitlement.bspianAppStudioUsedQuota g |} /\
    (forall i e, (i < k)%nat -> es !! i = Some e ->
                 ByEntitlement.aspianHACBSUsedQuota g + Z.of_nat i < firstLimit e) /\
    ((fst (range es (ByEntitlement.forEntitlement user a) g) = Next tt /\ k = length es) \/
     (fst (range es (ByEntitlement.forEntitlement user a) g) = Return (Some quotaError) /\
      exists e, es !! k = Some e /\
                firstLimit e <= ByEntitlement.aspianHACBSUsedQuota g + Z.of_nat k)).
Proof.
  induction es as [|e es IH]; intros g Hg Hk Hall Hin.
  - exists 0%nat. cbn. rewrite Z.add_0_r. repeat split; [lia | now destruct g | lia | now left].
  - cbn [range]. unfold mbind, M_bind, bind.
    rewrite (forEntitlement_pipeline user a e g Hg Hk (Hall e (or_introl eq_refl)) Hin).
    destruct (Z.ltb_spec (ByEntitlement.aspianHACBSUsedQuota g) (firstLimit e)) as [Hlt|Hge].
    + set (g1 := {| ByEntitlement.aspianHACBSUsedQuota :=
                      ByEntitlement.aspianHACBSUsedQuota g + 1;
                    ByEntitlement.bspianAppStudioUsedQuota :=
                      ByEntitlement.bspianAppStudioUsedQuota g |}).
      assert (Hin1 : in_int (ByEntitlement.aspianHACBSUsedQuota g1)).
      { pose proof (firstLimit_in_int e) as Hl. unfold in_int in *. cbn. lia. }
      destruct (IH g1 Hg Hk (fun e' He' => Hall e' (or_intror He')) Hin1)
        as (k & Hle & Hs & Hbelow & Hres).
      exists (S k). cbn [length]. split; [lia|]. split; [|split].
      * rewrite Hs. cbn. f_equal. lia.
      * intros [|i] e' Hi He'; cbn in He'.
        -- injection He' as <-. lia.
        -- specialize (Hbelow i e' ltac:(lia) He'). cbn in Hbelow. lia.
      * destruct Hres as [[Hr ->]|(Hr & e' & He' & Hlim)].
        -- left. now split.
        -- right. split; [exact Hr|]. exists e'. split; [exact He'|]. cbn in Hlim. lia.
    + exists 0%nat. cbn [length fst snd]. rewrite Z.add_0_r.
      split; [lia|]. split; [now destruct g|]. split; [lia|].
      right. split; [reflexivity|]. exists e. split; [reflexivity|lia].
Qed.

(** The entitlement revision on a request that reaches the loop. *)
Lemma Admit_reaches_loop m ctx a g name usr indexer es :
  GetSubresource a = "" ->
  GetObject a = MetaObject name ->
  GetUserInfo a = Some usr ->
  getTenantId usr <> "" ->
  ByEntitlement.entitlementIndexer m = Some indexer ->
  indexer ("root:" +:+ getTenantId usr) = inr es ->
  ByEntitlement.Admit m ctx a g =
    match range es (ByEntitlement.forEntitlement usr a) g with
    | (Next _, g') => (Returns None, g')
    | (Return e, g') => (Returns e, g')
    | (Panic, g') => (Panics, g')
    end.
Proof.
  intros Hsub Hobj Husr Hten Hm Hidx. apply String.eqb_neq in Hten.
  unfold ByEntitlement.Admit. rewrite Hsub, Hobj, Husr, Hten. cbn [String.eqb negb].
  unfold_M. cbn [negb]. rewrite Hm, Hidx.
  destruct (range es _ g) as [[[]|e|] g']; reflexivity.
Qed.

(** X5.  A [Pipeline] request of a user in [org/aspian] takes one unit of
    quota for each entitlement of the tenant, in the indexer's order, while
    the counter is below the entitlement's limit: it is admitted exactly
    when every entitlement had room, the counter then being up by the number
    of entitlements; a denied request keeps the [k] units it took before the
    entitlement that had no room. *)
Theorem pipeline_takes_one_unit_per_entitlement
    (m : ByEntitlement.CustomAdmission) (ctx : Context) (a : Attributes)
    (g : ByEntitlement.Globals) (name : string) (usr : UserInfo)
    (indexer : ByEntitlement.Indexer) (es : list ByEntitlement.Entitlement) :
  GetSubresource a = "" ->
  GetObject a = MetaObject name ->
  GetUserInfo a = Some usr ->
  getTenantId usr <> "" ->
  ByEntitlement.entitlementIndexer m = Some indexer ->
  indexer ("root:" +:+ getTenantId usr) = inr es ->
  isPresentInArray "org/aspian" (GetGroups usr) = true ->
  GetKind a = "Pipeline" ->
  (forall e, In e es -> ByEntitlement.QuotaItems (ByEntitlement.Spec e) <> []) ->
  in_int (ByEntitlement.aspianHACBSUsedQuota g) ->
  exists k : nat,
    (k <= length es)%nat /\
    ByEntitlement.aspianHACBSUsedQuota (snd (ByEntitlement.Admit m ctx a g))
      = ByEntitlement.aspianHACBSUsedQuota g + Z.of_nat k /\
    ByEntitlement.bspianAppStudioUsedQuota (snd (ByEntitlement.Admit m ctx a g))
      = ByEntitlement.bspianAppStudioUsedQuota g /\
    (forall i e, (i < k)%nat -> es !! i = Some e ->
                 ByEntitlement.aspianHACBSUsedQuota g + Z.of_nat i < firstLimit e) /\
    ((fst (ByEntitlement.Admit m ctx a g) = Returns None /\ k = length es) \/
     (fst (ByEntitlement.Admit m ctx a g) = Returns (Some quotaError) /\
      exists e, es !! k = Some e /\
                firstLimit e <= ByEntitlement.aspianHACBSUsedQuota g + Z.of_nat k)).
Proof.
  intros Hsub Hobj Husr Hten Hm Hidx Hg Hk Hall Hin.
  rewrite (Admit_reaches_loop m ctx a g name usr indexer es Hsub Hobj Husr Hten Hm Hidx).
  destruct (range_pipeline usr a es g Hg Hk Hall Hin)
    as (k & Hle & Hs & Hbelow & Hres).
  exists k. destruct (range es _ g) as [r g']. cbn [fst snd] in *. subst g'.
  split; [exact Hle|].
  destruct Hres as [[-> ->]|(-> & e & He & Hlim)]; cbn [fst snd];
    (split; [reflexivity|]); (split; [reflexivity|]); (split; [exact Hbelow|]).
  - now left.
  - right. split; [reflexivity|]. now exists e.
Qed.

Lemma pipeline_takes_one_unit_witness :
  exists k : nat,
    (k <= 2)%nat /\
    ByEntitlement.aspianHACBSUsedQuota
      (snd (ByEntitlement.Admit (everyCluster [entitlementWith ["5"]; entitlementWith ["0"]])
              noCluster pipelineByAspian ByEntitlement.init)) = 0 + Z.of_nat k /\
    fst (ByEntitlement.Admit (everyCluster [entitlementWith ["5"]; entitlementWith ["0"]])
           noCluster pipelineByAspian ByEntitlement.init) = Returns (Some quotaError).
Proof.
  destruct (pipeline_takes_one_unit_per_entitlement
              (everyCluster [entitlementWith ["5"]; entitlementWith ["0"]])
              noCluster pipelineByAspian ByEntitlement.init "build"
              {| GetName := "alice"; GetGroups := ["system:authenticated"; "org/aspian"] |}
              (fun _ => inr [entitlementWith ["5"]; entitlementWith ["0"]])
              [entitlementWith ["5"]; entitlementWith ["0"]])
    as (k & Hle & Ha & _ & _ & Hres); try reflexivity.
  - discriminate.
  - intros e [<-|[<-|[]]]; discriminate.
  - split; discriminate.
  - exists k. split; [exact Hle|]. split; [exact Ha|].
    destruct Hres as [[Hr _]|[Hr _]]; [|exact Hr].
    revert Hr. vm_compute. discriminate.
Defined.

(** X6.  A user whose first [org/] group is the bare prefix, or who has no
    such group, has the empty tenant, and the entitlement revision then
    admits the request without any check and without touching a counter,
    also when the user is in [org/aspian] and no quota is left. *)
Theorem empty_tenant_is_never_checked
    (m : ByEntitlement.CustomAdmission) (ctx : Context) (a : Attributes)
    (g : ByEntitlement.Globals) (name : string) (usr : UserInfo) :
  GetSubresource a = "" ->
  GetObject a = MetaObject name ->
  GetUserInfo a = Some usr ->
  getTenantId usr = "" ->
  ByEntitlement.Admit m ctx a g = (Returns None, g).
Proof.
  intros Hsub Hobj Husr Hten. unfold ByEntitlement.Admit.
  now rewrite Hsub, Hobj, Husr, Hten.
Qed.

Lemma empty_tenant_witness :
  let a := {| GetSubresource := ""; GetObject := MetaObject "build";
              GetUserInfo := Some {| GetName := "eve"; GetGroups := ["org/"; "org/aspian"] |};
              GetKind := "Pipeline" |} in
  inGroup "org/aspian" a = true /\
  ByEntitlement.Admit (everyCluster [entitlementWith ["0"]]) noCluster a ByEntitlement.init
    = (Returns None, ByEntitlement.init).
Proof.
  cbv zeta. split; [reflexivity|].
  apply (empty_tenant_is_never_checked _ _ _ _ "build"
           {| GetName := "eve"; GetGroups := ["org/"; "org/aspian"] |}); reflexivity.
Defined.

(** One entitlement never lowers a counter and never takes it past
    [MaxInt]. *)
Lemma forEntitlement_grows user a e g :
  in_int (ByEntitlement.aspianHACBSUsedQuota g) ->
  in_int (ByEntitlement.bspianAppStudioUsedQuota g) ->
  let g' := snd (ByEntitlement.forEntitlement user a e g) in
  (ByEntitlement.aspianHACBSUsedQuota g <= ByEntitlement.aspianHACBSUsedQuota g'
   /\ in_int (ByEntitlement.aspianHACBSUsedQuota g')) /\
  (ByEntitlement.bspianAppStudioUsedQuota g <= ByEntitlement.bspianAppStudioUsedQuota g'
   /\ in_int (ByEntitlement.bspianAppStudioUsedQuota g')).
Proof.
  intros Ha Hb. unfold ByEntitlement.forEntitlement. unfold_M.
  assert (S : forall z l, in_int z -> z < fst (Atoi l) -> z <= wrap (z + 1) /\ in_int (wrap (z + 1))).
  { intros z l Hz Hlt. rewrite (wrap_succ_below _ _ Hz (Atoi_in_int l) Hlt).
    pose proof (Atoi_in_int l) as Hl. unfold in_int in *. lia. }
  destruct (isPresentInArray "org/aspian" (GetGroups user)),
           (String.eqb (GetKind a) "Pipeline"),
           (isPresentInArray "org/bspian" (GetGroups user)),
           (String.eqb (GetKind a) "App"),
           (ByEntitlement.QuotaItems (ByEntitlement.Spec e)) as [|item items]; cbn;
    repeat match goal with
           | |- context [?x <? ?y] => destruct (Z.ltb_spec x y); cbn
           end;
    repeat match goal with
           | H : ?z < fst (Atoi ?l) |- _ =>
               first [pose proof (S z l Ha H) | pose proof (S z l Hb H)]; clear H
           end;
    intuition (try lia).
Qed.

Lemma range_grows user a : forall es g,
  in_int (ByEntitlement.aspianHACBSUsedQuota g) ->
  in_int (ByEntitlement.bspianAppStudioUsedQuota g) ->
  let g' := snd (range es (ByEntitlement.forEntitlement user a) g) in
  (ByEntitlement.aspianHACBSUsedQuota g <= ByEntitlement.aspianHACBSUsedQuota g'
   /\ in_int (ByEntitlement.aspianHACBSUsedQuota g')) /\
  (ByEntitlement.bspianAppStudioUsedQuota g <= ByEntitlement.bspianAppStudioUsedQuota g'
   /\ in_int (ByEntitlement.bspianAppStudioUsedQuota g')).
Proof.
  induction es as [|e es IH]; intros g Ha Hb; cbn [range].
  - cbn. intuition lia.
  - unfold mbind, M_bind, bind.
    pose proof (forEntitlement_grows user a e g Ha Hb) as H. cbv zeta in H.
    destruct (ByEntitlement.forEntitlement user a e g) as [[[]|err|] g1]; cbn [fst snd] in *;
      try exact H.
    destruct H as [[H1 H2] [H3 H4]].
    specialize (IH g1 H2 H4). cbv zeta in IH. destruct IH as [[I1 I2] [I3 I4]].
    intuition lia.
Qed.

(** X7.  In the entitlement revision no call lowers a used-quota counter,
    and no call overflows one: counters that are Go [int]s stay [int]s
    without wrapping, whatever the request and the entitlements. *)
Theorem used_quota_never_decreases_nor_overflows
    (m : ByEntitlement.CustomAdmission) (ctx : Context) (a : Attributes)
    (g : ByEntitlement.Globals) :
  in_int (ByEntitlement.aspianHACBSUsedQuota g) ->
  in_int (ByEntitlement.bspianAppStudioUsedQuota g) ->
  (ByEntitlement.aspianHACBSUsedQuota g
     <= ByEntitlement.aspianHACBSUsedQuota (snd (ByEntitlement.Admit m ctx a g))
   /\ in_int (ByEntitlement.aspianHACBSUsedQuota (snd (ByEntitlement.Admit m ctx a g)))) /\
  (ByEntitlement.bspianAppStudioUsedQuota g
     <= ByEntitlement.bspianAppStudioUsedQuota (snd (ByEntitlement.Admit m ctx a g))
   /\ in_int (ByEntitlement.bspianAppStudioUsedQuota (snd (ByEntitlement.Admit m ctx a g)))).
Proof.
  intros Ha Hb.
  assert (Same : (ByEntitlement.aspianHACBSUsedQuota g <= ByEntitlement.aspianHACBSUsedQuota g
                  /\ in_int (ByEntitlement.aspianHACBSUsedQuota g)) /\
                 (ByEntitlement.bspianAppStudioUsedQuota g
                    <= ByEntitlement.bspianAppStudioUsedQuota g
                  /\ in_int (ByEntitlement.bspianAppStudioUsedQuota g)))
    by (intuition lia).
  unfold ByEntitlement.Admit.
  destruct (negb (String.eqb (GetSubresource a) "")); [exact Same|].
  destruct (GetObject a); [|exact Same].
  destruct (GetUserInfo a) as [user|]; [|exact Same].
  unfold run, when, return_, panic, mbind, M_bind, bind, mret, M_ret, ret.
  destruct (negb (String.eqb (getTenantId user) "")); [|exact Same].
  destruct (ByEntitlement.entitlementIndexer m) as [indexer|]; [|exact Same].
  destruct (indexer _) as [err|es]; [exact Same|].
  pose proof (range_grows user a es g Ha Hb) as H. cbv zeta in H.
  destruct (range es _ g) as [[[]|err|] g']; exact H.
Qed.

Lemma used_quota_witness :
  let g' := snd (ByEntitlement.Admit (everyCluster [entitlementWith ["9999999999999999999999"]])
                   noCluster pipelineByAspian
                   {| ByEntitlement.aspianHACBSUsedQuota := MaxInt;
                      ByEntitlement.bspianAppStudioUsedQuota := 0 |}) in
  MaxInt <= ByEntitlement.aspianHACBSUsedQuota g' /\
  in_int (ByEntitlement.aspianHACBSUsedQuota g').
Proof.
  cbv zeta.
  apply (used_quota_never_decreases_nor_overflows
           (everyCluster [entitlementWith ["9999999999999999999999"]]) noCluster
           pipelineByAspian
           {| ByEntitlement.aspianHACBSUsedQuota := MaxInt;
              ByEntitlement.bspianAppStudioUsedQuota := 0 |});
    split; discriminate.
Defined.

Lemma forEntitlement_within L user a e g :
  firstLimit e <= L -> WithinQuota L g ->
  WithinQuota L (snd (ByEntitlement.forEntitlement user a e g)).
Proof.
  intros Hl [Ha Hb]. unfold ByEntitlement.forEntitlement, firstLimit in *. unfold_M.
  assert (S : forall z l, 0 <= z <= Z.max 0 L -> fst (Atoi l) <= L -> z < fst (Atoi l) ->
                          0 <= wrap (z + 1) <= Z.max 0 L).
  { intros z l Hz HL Hlt.
    rewrite (wrap_succ_below z (fst (Atoi l))); [lia| |apply Atoi_in_int|exact Hlt].
    pose proof (Atoi_in_int l) as Hi. unfold in_int in *.
    rewrite MaxInt_value, MinInt_value in *. lia. }
  unfold WithinQuota.
  destruct (isPresentInArray "org/aspian" (GetGroups user)),
           (String.eqb (GetKind a) "Pipeline"),
           (isPresentInArray "org/bspian" (GetGroups user)),
           (String.eqb (GetKind a) "App"),
           (ByEntitlement.QuotaItems (ByEntitlement.Spec e)) as [|item items]; cbn;
    repeat match goal with
           | |- context [?x <? ?y] => destruct (Z.ltb_spec x y); cbn
           end;
    repeat match goal with
           | H : ?z < fst (Atoi ?l) |- _ =>
               first [pose proof (S z l Ha Hl H) | pose proof (S z l Hb Hl H)]; clear H
           end;
    split; assumption.
Qed.

Lemma range_within L user a : forall es g,
  (forall e, In e es -> firstLimit e <= L) -> WithinQuota L g ->
  WithinQuota L (snd (range es (ByEntitlement.forEntitlement user a) g)).
Proof.
  induction es as [|e es IH]; intros g Hall Hg; cbn [range].
  - exact Hg.
  - unfold mbind, M_bind, bind.
    pose proof (forEntitlement_within L user a e g (Hall e (or_introl eq_refl)) Hg) as H.
    destruct (ByEntitlement.forEntitlement user a e g) as [[[]|err|] g1]; cbn [fst snd] in *;
      try exact H.
    apply IH; [|exact H]. intros e' He'. apply Hall. now right.
Qed.

Lemma Admit_within L m ctx a g :
  (forall indexer v es e,
     ByEntitlement.entitlementIndexer m = Some indexer -> indexer v = inr es -> In e es ->
     firstLimit e <= L) ->
  WithinQuota L g -> WithinQuota L (snd (ByEntitlement.Admit m ctx a g)).
Proof.
  intros Hall Hg. unfold ByEntitlement.Admit.
  destruct (negb (String.eqb (GetSubresource a) "")); [exact Hg|].
  destruct (GetObject a); [|exact Hg].
  destruct (GetUserInfo a) as [user|]; [|exact Hg].
  unfold run, when, return_, panic, mbind, M_bind, bind, mret, M_ret, ret.
  destruct (negb (String.eqb (getTenantId user) "")); [|exact Hg].
  destruct (ByEntitlement.entitlementIndexer m) as [indexer|] eqn:Em; [|exact Hg].
  destruct (indexer _) as [err|es] eqn:E; [exact Hg|].
  pose proof (range_within L user a es g (fun e He => Hall indexer _ es e eq_refl E He) Hg) as H.
  destruct (range es _ g) as [[[]|err|] g']; exact H.
Qed.

(** X8.  When no entitlement of any tenant has a limit above [L], the
    used-quota counters of the entitlement revision stay between 0 and [L]
    through every sequence of calls from the start of the process: no more
    than [L] units are ever handed out per counter. *)
Theorem used_quota_stays_within_the_largest_limit
    (m : ByEntitlement.CustomAdmission) (L : Z) (calls : list (Context * Attributes)) :
  (forall indexer v es e,
     ByEntitlement.entitlementIndexer m = Some indexer -> indexer v = inr es -> In e es ->
     firstLimit e <= L) ->
  WithinQuota L (servedAll (ByEntitlement.Admit m) calls ByEntitlement.init).
Proof.
  intros Hall. unfold servedAll.
  assert (H0 : WithinQuota L ByEntitlement.init) by (unfold WithinQuota; cbn; lia).
  revert H0. generalize ByEntitlement.init.
  induction calls as [|[ctx a] calls IH]; intros g Hg; cbn [fold_left fst snd].
  - exact Hg.
  - apply IH. now apply Admit_within.
Qed.

Lemma used_quota_within_witness :
  WithinQuota 2
    (servedAll (ByEntitlement.Admit (everyCluster [entitlementWith ["2"]]))
       [(noCluster, pipelineByAspian); (noCluster, pipelineByAcme);
        (noCluster, pipelineByAspian); (noCluster, appByBspian)]
       ByEntitlement.init).
Proof.
  apply used_quota_stays_within_the_largest_limit.
  intros indexer v es e [= <-] [= <-] [<-|[]]. discriminate.
Defined.

(** * Theorems: more about the fixed-counter revisions and the helpers *)

Section ExactDenial.
Context {G : Type} (handler : G -> outcome * G) (counter : G -> Z).
Variable e : error.
Hypothesis handler_outcome :
  forall g, fst (handler g) = Returns (if counter g =? 0 then Some e else None).
Hypothesis handler_counter :
  forall g, counter (snd (handler g)) = wrap (counter g - 1).

Lemma fixed_counter_exact : DeniesExactlyAfter handler counter.
Proof.
  intros g k Hc Hk. rewrite handler_outcome.
  rewrite (served_counter handler counter handler_counter).
  2:{ unfold in_int. rewrite MinInt_value. rewrite MaxInt_value in *. lia. }
  rewrite MaxInt_value in Hc.
  assert (Hk' : Z.of_N k < 18446744073709551616)
    by (change 18446744073709551616 with (Z.of_N (2 ^ 64)); lia).
  destruct (Z.eqb_spec (wrap (counter g - Z.of_N k)) 0) as [W|W]; cbn.
  - split; [intros _|reflexivity]. apply wrap_zero_inv in W. destruct W as [q Hq]. lia.
  - split; [discriminate|]. intros Heq. exfalso. apply W. rewrite Heq, Z.sub_diag.
    reflexivity.
Qed.
End ExactDenial.

(** X11.  A fixed counter that holds [c] (between 0 and [MaxInt]) admits
    the next [c] requests its check applies to, denies the one after them,
    and admits every later one up to the [2^64]-th: among the first [2^64]
    such requests exactly the one that finds the counter at zero is
    denied. *)
Theorem fixed_counter_denies_exactly_one_request (ctx : Context) (a : Attributes) :
  (reachesOrgCheck "org/aspian" "Pipeline" a = true ->
   DeniesExactlyAfter (ByOrganization.Admit ctx a) ByOrganization.aspianHACBSQuota) /\
  (reachesOrgCheck "org/bspian" "App" a = true ->
   DeniesExactlyAfter (ByOrganization.Admit ctx a) ByOrganization.bspainAppStudioQuota) /\
  (reachesNameCheck "aspian" "hacbs" ctx a = true ->
   DeniesExactlyAfter (ByObjectName.Admit ctx a) ByObjectName.aspianHACBSBindQuota) /\
  (reachesNameCheck "bspian" "appstudio" ctx a = true ->
   DeniesExactlyAfter (ByObjectName.Admit ctx a) ByObjectName.bspainAppStudioBindQuota).
Proof.
  split; [|split; [|split]]; intros H.
  - apply fixed_counter_exact with (e := quotaError); intros g;
      now rewrite (org_aspian_call ctx a g H).
  - apply fixed_counter_exact with (e := quotaError); intros g;
      now rewrite (org_bspian_call ctx a g H).
  - apply fixed_counter_exact with (e := ByObjectName.noQuotaError); intros g;
      now rewrite (name_aspian_call ctx a g H).
  - apply fixed_counter_exact with (e := ByObjectName.noQuotaError); intros g;
      now rewrite (name_bspian_call ctx a g H).
Qed.

Lemma fixed_counter_denies_exactly_one_witness :
  (denied (fst (ByObjectName.Admit inCluster hacbsByAspian
                  (served (ByObjectName.Admit inCluster hacbsByAspian) 5
                     ByObjectName.init))) = true <->
   Z.of_N 5 = ByObjectName.aspianHACBSBindQuota ByObjectName.init) /\
  (denied (fst (ByOrganization.Admit inCluster pipelineByAspian
                  (served (ByOrganization.Admit inCluster pipelineByAspian) 7
                     ByOrganization.init))) = true <->
   Z.of_N 7 = ByOrganization.aspianHACBSQuota ByOrganization.init).
Proof.
  split.
  - destruct (fixed_counter_denies_exactly_one_request inCluster hacbsByAspian)
      as (_ & _ & H & _).
    apply (H eq_refl); [split; discriminate | reflexivity].
  - destruct (fixed_counter_denies_exactly_one_request inCluster pipelineByAspian)
      as (H & _).
    apply (H eq_refl); [split; discriminate | reflexivity].
Defined.

(** X9.  In the per-organization revision: the two checks exclude each
    other; a request that reaches neither changes no counter, and it is
    admitted unless its object is no [metav1.Object] (it is denied) or it
    carries no user (the call panics); a request is denied only when its
    object is no [metav1.Object] or the counter of the check it reaches is
    zero; and no call changes both counters. *)
Theorem per_organization_checks_are_separate
    (ctx : Context) (a : Attributes) (g : ByOrganization.Globals) :
  (reachesOrgCheck "org/aspian" "Pipeline" a = true ->
   reachesOrgCheck "org/bspian" "App" a = false) /\
  (reachesOrgCheck "org/aspian" "Pipeline" a = false ->
   reachesOrgCheck "org/bspian" "App" a = false ->
   snd (ByOrganization.Admit ctx a g) = g /\
   (fst (ByOrganization.Admit ctx a g) = Returns None \/
    (fst (ByOrganization.Admit ctx a g) = Returns (Some ErrNotMetaObject) /\
     GetObject a = OtherObject) \/
    (fst (ByOrganization.Admit ctx a g) = Panics /\ GetUserInfo a = None))) /\
  (denied (fst (ByOrganization.Admit ctx a g)) = true ->
   GetObject a = OtherObject \/
   (reachesOrgCheck "org/aspian" "Pipeline" a = true /\ ByOrganization.aspianHACBSQuota g = 0) \/
   (reachesOrgCheck "org/bspian" "App" a = true /\ ByOrganization.bspainAppStudioQuota g = 0)) /\
  (ByOrganization.aspianHACBSQuota (snd (ByOrganization.Admit ctx a g))
     = ByOrganization.aspianHACBSQuota g \/
   ByOrganization.bspainAppStudioQuota (snd (ByOrganization.Admit ctx a g))
     = ByOrganization.bspainAppStudioQuota g).
Proof.
  unfold reachesOrgCheck, inGroup, ByOrganization.Admit.
  destruct (String.eqb (GetSubresource a) ""); cbn [negb andb];
    [|repeat split; try discriminate; auto].
  destruct (GetObject a) as [name|]; cbn [isMetaObject andb];
    [|repeat split; try discriminate; auto].
  destruct (GetUserInfo a) as [user|]; cbn [andb];
    [|repeat split; try discriminate; auto].
  destruct (String.eqb_spec (GetKind a) "Pipeline") as [Hp|Hp],
           (String.eqb_spec (GetKind a) "App") as [Ha|Ha];
    try (exfalso; congruence);
    destruct (isPresentInArray "org/aspian" (GetGroups user)),
             (isPresentInArray "org/bspian" (GetGroups user));
    unfold_M; cbn;
    repeat match goal with
           | |- context [?x =? 0] => destruct (Z.eqb_spec x 0); cbn
           end;
    destruct g; cbn in *; repeat split; try discriminate; auto; intros; try discriminate; auto.
Qed.

Lemma per_organization_checks_witness :
  reachesOrgCheck "org/bspian" "App" pipelineByAspian = false /\
  snd (ByOrganization.Admit inCluster dataMyDomain ByOrganization.init) = ByOrganization.init.
Proof.
  split.
  - destruct (per_organization_checks_are_separate inCluster pipelineByAspian
                ByOrganization.init) as (H & _).
    exact (H eq_refl).
  - destruct (per_organization_checks_are_separate inCluster dataMyDomain
                ByOrganization.init) as (_ & H & _).
    exact (proj1 (H eq_refl eq_refl)).
Defined.

(** X10.  In the revision that checks by object name: the counters after a
    call do not depend on the request's context; a request that matches
    neither check changes no counter, and none changes both; with a context
    from which [ClusterNameFrom] fails every request without subresource on
    a [metav1.Object] is denied if it carries a user (without one the call
    panics); and a request is denied only for one of: an object that is no
    [metav1.Object], such a context, the name [data.my.domain], or a zero
    counter of the check it matches. *)
Theorem by_name_checks_and_context
    (ctx ctx' : Context) (a : Attributes) (g : ByObjectName.Globals) :
  snd (ByObjectName.Admit ctx a g) = snd (ByObjectName.Admit ctx' a g) /\
  (matchesNameCheck "aspian" "hacbs" a = false ->
   matchesNameCheck "bspian" "appstudio" a = false ->
   snd (ByObjectName.Admit ctx a g) = g) /\
  (ByObjectName.aspianHACBSBindQuota (snd (ByObjectName.Admit ctx a g))
     = ByObjectName.aspianHACBSBindQuota g \/
   ByObjectName.bspainAppStudioBindQuota (snd (ByObjectName.Admit ctx a g))
     = ByObjectName.bspainAppStudioBindQuota g) /\
  (ctxCluster ctx = None -> GetSubresource a = "" -> isMetaObject (GetObject a) = true ->
   (denied (fst (ByObjectName.Admit ctx a g)) = true <-> GetUserInfo a <> None) /\
   (fst (ByObjectName.Admit ctx a g) = Panics <-> GetUserInfo a = None)) /\
  (denied (fst (ByObjectName.Admit ctx a g)) = true ->
   GetObject a = OtherObject \/ ctxCluster ctx = None \/
   hasName (GetObject a) "data.my.domain" = true \/
   (matchesNameCheck "aspian" "hacbs" a = true /\ ByObjectName.aspianHACBSBindQuota g = 0) \/
   (matchesNameCheck "bspian" "appstudio" a = true /\
    ByObjectName.bspainAppStudioBindQuota g = 0)).
Proof.
  unfold matchesNameCheck, inGroup, ByObjectName.Admit, ClusterNameFrom.
  destruct (String.eqb_spec (GetSubresource a) "") as [Hs|Hs]; cbn [negb andb];
    [|repeat split; try discriminate; auto; intros; congruence].
  destruct (GetObject a) as [name|]; cbn [isMetaObject hasName andb];
    [|repeat split; try discriminate; auto].
  destruct (GetUserInfo a) as [user|]; cbn [andb].
  2: { destruct (ctxCluster ctx), (ctxCluster ctx'); rewrite ?andb_false_r;
       repeat split; try discriminate; auto; intros; congruence. }
  destruct (String.eqb_spec name "hacbs") as [Hh|Hh],
           (String.eqb_spec name "appstudio") as [Hp|Hp],
           (String.eqb_spec name "data.my.domain") as [Hd|Hd];
    try (exfalso; congruence);
    destruct (isPresentInArray "aspian" (GetGroups user)),
             (isPresentInArray "bspian" (GetGroups user));
    destruct (ctxCluster ctx), (ctxCluster ctx');
    unfold_M; cbn;
    repeat match goal with
           | |- context [?x =? 0] => destruct (Z.eqb_spec x 0); cbn
           end;
    destruct g; cbn in *; repeat split; try discriminate; auto 6;
    intros; try discriminate; auto 6.
Qed.

Lemma by_name_checks_witness :
  denied (fst (ByObjectName.Admit noCluster hacbsByAspian ByObjectName.init)) = true /\
  snd (ByObjectName.Admit inCluster pipelineByAspian ByObjectName.init) = ByObjectName.init.
Proof.
  split.
  - destruct (by_name_checks_and_context noCluster noCluster hacbsByAspian ByObjectName.init)
      as (_ & _ & _ & H & _).
    apply (H eq_refl eq_refl eq_refl). discriminate.
  - destruct (by_name_checks_and_context inCluster inCluster pipelineByAspian
                ByObjectName.init) as (_ & H & _).
    exact (H eq_refl eq_refl).
Defined.

(** X3.  The later revisions' [getTenantId] returns the error
    [organization group not found] exactly when no group of the user starts
    with [org/]; its string is always the first revision's tenant, and
    without the error [org/] followed by it is one of the user's groups.  So
    the first revision cannot tell a user without organization from one
    whose group is the bare [org/]. *)
Theorem getTenantId_error_iff_no_org_group (usr : UserInfo) :
  fst (WithError.getTenantId usr) = getTenantId usr /\
  (snd (WithError.getTenantId usr) = Some WithError.organizationGroupNotFound <->
   forall group, In group (GetGroups usr) -> String.prefix "org/" group = false) /\
  (snd (WithError.getTenantId usr) = None \/
   snd (WithError.getTenantId usr) = Some WithError.organizationGroupNotFound) /\
  (snd (WithError.getTenantId usr) = None ->
   In ("org/" +:+ fst (WithError.getTenantId usr)) (GetGroups usr)).
Proof.
  unfold WithError.getTenantId, getTenantId.
  induction (GetGroups usr) as [|group rest IH];
    cbn [WithError.getTenantIdOf getTenantIdOf].
  - split; [reflexivity|]. split; [|split]; [|now right|discriminate].
    split; [intros _ group []|reflexivity].
  - destruct (String.prefix "org/" group) eqn:E; cbn [fst snd].
    + split; [reflexivity|]. split; [|split]; [|now left|].
      * split; [discriminate|]. intros H. specialize (H group (or_introl eq_refl)). congruence.
      * intros _. left. now apply prefix_org.
    + destruct IH as (I1 & I2 & I3 & I4). split; [exact I1|]. split; [|split].
      * rewrite I2. split.
        -- intros H g' [<-|Hg]; [exact E|now apply H].
        -- intros H g' Hg. apply H. now right.
      * exact I3.
      * intros H. right. now apply I4.
Qed.

(** * The plugin's set-up *)

Section SetUp.
Import Lifecycle.

Lemma existsb_snoc {A} (f : A -> bool) l x :
  existsb f (l ++ [x]) = existsb f l || f x.
Proof. rewrite existsb_app. cbn. now rewrite orb_false_r. Qed.

(** What a sequence of setter calls leaves in each field. *)
Lemma setters_fields (calls : list Setter) (p : CustomAdmission) :
  let q := fold_left applySetter calls p in
  operations q = operations p /\
  readyFunc q = readyFunc p /\
  apiBindingsHasSynced q =
    (if existsb isKcpInformers calls then Some APIBindings else apiBindingsHasSynced p) /\
  entitlementIndexer q =
    (if existsb isKcpInformers calls then Some Entitlements else entitlementIndexer p) /\
  apiEntitlementHasSynced q =
    (if existsb isEntitlements calls then Some Entitlements else apiEntitlementHasSynced p).
Proof.
  induction calls as [|c calls IH] using rev_ind; [cbn; auto|].
  cbn zeta in *. rewrite fold_left_app, !existsb_snoc.
  destruct IH as (I1 & I2 & I3 & I4 & I5).
  destruct c; cbn; rewrite ?orb_true_r, ?orb_false_r; auto.
Qed.

Lemma existsb_isKcpInformers calls :
  existsb isKcpInformers calls = true <-> In CallSetKcpInformers calls.
Proof.
  rewrite existsb_exists. split.
  - intros ([] & H & E); [exact H|discriminate].
  - intros H. now exists CallSetKcpInformers.
Qed.

Lemma existsb_isEntitlements calls :
  existsb isEntitlements calls = true <-> In CallSetEntitlements calls.
Proof.
  rewrite existsb_exists. split.
  - intros ([] & H & E); [discriminate|exact H].
  - intros H. now exists CallSetEntitlements.
Qed.

End SetUp.

(** X12.  Whatever setters are called on a new plugin, in whatever order:
    [ValidateInitialization] returns nil exactly when [SetKcpInformers] was
    among them, and exactly then the first revision's [entitlementIndexer],
    which [Admit] reads, is set.  [SetEntitlements] has no part in it. *)
Theorem ValidateInitialization_iff_SetKcpInformers (calls : list Lifecycle.Setter) :
  (Lifecycle.ValidateInitialization (Lifecycle.setUp calls) = None <->
   In Lifecycle.CallSetKcpInformers calls) /\
  (Lifecycle.ValidateInitialization (Lifecycle.setUp calls)
     = Some "missing apiBindingsHasSynced" <->
   Lifecycle.entitlementIndexer (Lifecycle.setUp calls) = None) /\
  (Lifecycle.entitlementIndexer (Lifecycle.setUp calls) = Some Lifecycle.Entitlements <->
   In Lifecycle.CallSetKcpInformers calls).
Proof.
  unfold Lifecycle.ValidateInitialization, Lifecycle.setUp.
  destruct (setters_fields calls Lifecycle.NewMutatingPCustomAdmission)
    as (_ & _ & -> & -> & _).
  rewrite <- existsb_isKcpInformers.
  destruct (existsb Lifecycle.isKcpInformers calls); cbn; intuition congruence.
Qed.

(** X13.  The second [SetReadyFunc] of [NewMutatingPCustomAdmission]
    replaces the first: after any setter calls the plugin's readiness is
    [apiEntitlementHasSynced()] alone.  It is the entitlement informer's
    answer when [SetEntitlements] was called and a call through nil when it
    was not; it never reads the API bindings informer, the only one
    [ValidateInitialization] asks for; and the plugin handles exactly the
    create and update operations. *)
Theorem readiness_is_the_entitlement_informer_alone
    (calls : list Lifecycle.Setter) (synced : Lifecycle.Informer -> bool) :
  (In Lifecycle.CallSetEntitlements calls ->
   Lifecycle.ready (Lifecycle.setUp calls) synced
     = Lifecycle.Value (synced Lifecycle.Entitlements)) /\
  (Lifecycle.ready (Lifecycle.setUp calls) synced = Lifecycle.NilCall <->
   (forall c, In c calls -> c = Lifecycle.CallSetKcpInformers)) /\
  (forall synced', synced' Lifecycle.Entitlements = synced Lifecycle.Entitlements ->
   Lifecycle.ready (Lifecycle.setUp calls) synced'
     = Lifecycle.ready (Lifecycle.setUp calls) synced) /\
  (forall op, Lifecycle.Handles (Lifecycle.setUp calls) op = true <->
     op = Lifecycle.Create \/ op = Lifecycle.Update).
Proof.
  unfold Lifecycle.ready, Lifecycle.Handles, Lifecycle.setUp.
  destruct (setters_fields calls Lifecycle.NewMutatingPCustomAdmission)
    as (-> & -> & _ & _ & ->).
  cbn [Lifecycle.NewMutatingPCustomAdmission Lifecycle.SetReadyFunc Lifecycle.NewHandler
       Lifecycle.readyFunc Lifecycle.operations Lifecycle.apiEntitlementHasSynced].
  repeat split.
  - intros H. apply existsb_isEntitlements in H. now rewrite H.
  - destruct (existsb Lifecycle.isEntitlements calls) eqn:E; [discriminate|].
    intros _ c Hc. destruct c; [reflexivity|].
    apply existsb_isEntitlements in Hc. congruence.
  - intros H. destruct (existsb Lifecycle.isEntitlements calls) eqn:E; [|reflexivity].
    apply existsb_isEntitlements, H in E. discriminate.
  - intros synced' H. destruct (existsb Lifecycle.isEntitlements calls); cbn; congruence.
  - destruct op; cbn; intuition discriminate.
  - intros [-> | ->]; reflexivity.
Qed.

Lemma readiness_witness :
  Lifecycle.ValidateInitialization (Lifecycle.setUp [Lifecycle.CallSetKcpInformers]) = None /\
  Lifecycle.ready (Lifecycle.setUp [Lifecycle.CallSetKcpInformers]) (fun _ => true)
    = Lifecycle.NilCall /\
  Lifecycle.ready
    (Lifecycle.setUp [Lifecycle.CallSetKcpInformers; Lifecycle.CallSetEntitlements])
    (fun i => match i with Lifecycle.Entitlements => true | _ => false end)
    = Lifecycle.Value true.
Proof.
  split; [reflexivity|]. split.
  - destruct (readiness_is_the_entitlement_informer_alone
                [Lifecycle.CallSetKcpInformers] (fun _ => true)) as (_ & H & _).
    apply H. intros c [<-|[]]. reflexivity.
  - destruct (readiness_is_the_entitlement_informer_alone
                [Lifecycle.CallSetKcpInformers; Lifecycle.CallSetEntitlements]
                (fun i => match i with Lifecycle.Entitlements => true | _ => false end))
      as (H & _).
    apply H. right. left. reflexivity.
Defined.

(** A request that reaches the tenant's entitlements, on a plugin whose
    indexer is nil. *)
Lemma Admit_nil_indexer m ctx a g usr :
  GetSubresource a = "" -> isMetaObject (GetObject a) = true ->
  GetUserInfo a = Some usr -> getTenantId usr <> "" ->
  ByEntitlement.entitlementIndexer m = None ->
  ByEntitlement.Admit m ctx a g = (Panics, g).
Proof.
  intros Hs Ho Hu Ht Hm. apply String.eqb_neq in Ht.
  unfold ByEntitlement.Admit. rewrite Hs, Hu. cbn [String.eqb negb].
  destruct (GetObject a); [|discriminate].
  unfold_M. now rewrite Ht, Hm.
Qed.

(** X18.  The first revision's [Admit] needs [SetKcpInformers]: on a plugin
    set up without it the indexer is nil and every request that reaches the
    tenant's entitlements (no subresource, a [metav1.Object], a user with a
    tenant) panics, the counters unchanged; on a plugin set up with it, and
    so on every plugin that passes [ValidateInitialization], [Admit] reads
    the Entitlements informer's indexer. *)
Theorem Admit_needs_SetKcpInformers
    (indexer : ByEntitlement.Indexer) (calls : list Lifecycle.Setter)
    (ctx : Context) (a : Attributes) (g : ByEntitlement.Globals) :
  (In Lifecycle.CallSetKcpInformers calls ->
   receiver indexer (Lifecycle.setUp calls)
     = {| ByEntitlement.entitlementIndexer := Some indexer |}) /\
  (~ In Lifecycle.CallSetKcpInformers calls ->
   Lifecycle.ValidateInitialization (Lifecycle.setUp calls)
     = Some "missing apiBindingsHasSynced" /\
   forall usr,
     GetSubresource a = "" -> isMetaObject (GetObject a) = true ->
     GetUserInfo a = Some usr -> getTenantId usr <> "" ->
     ByEntitlement.Admit (receiver indexer (Lifecycle.setUp calls)) ctx a g = (Panics, g)) /\
  (Lifecycle.ValidateInitialization (Lifecycle.setUp calls) = None ->
   ByEntitlement.Admit (receiver indexer (Lifecycle.setUp calls)) ctx a g
     = ByEntitlement.Admit {| ByEntitlement.entitlementIndexer := Some indexer |} ctx a g).
Proof.
  unfold receiver, Lifecycle.ValidateInitialization, Lifecycle.setUp.
  destruct (setters_fields calls Lifecycle.NewMutatingPCustomAdmission)
    as (_ & _ & -> & -> & _).
  pose proof (existsb_isKcpInformers calls) as Hin.
  destruct (existsb Lifecycle.isKcpInformers calls); cbn.
  - split; [reflexivity|]. split; [|reflexivity].
    intros Hn. exfalso. apply Hn, Hin. reflexivity.
  - split; [|split; [|discriminate]].
    + intros H. apply Hin in H. discriminate.
    + intros _. split; [reflexivity|]. intros usr Hs Ho Hu Ht.
      now apply (Admit_nil_indexer _ ctx a g usr).
Qed.

Lemma Admit_needs_SetKcpInformers_witness :
  ByEntitlement.Admit
    (receiver (fun _ => inr [entitlementWith ["1"]])
       (Lifecycle.setUp [Lifecycle.CallSetEntitlements]))
    noCluster pipelineByAspian ByEntitlement.init = (Panics, ByEntitlement.init) /\
  fst (ByEntitlement.Admit
         (receiver (fun _ => inr [entitlementWith ["1"]])
            (Lifecycle.setUp [Lifecycle.CallSetKcpInformers]))
         noCluster pipelineByAspian ByEntitlement.init) = Returns None.
Proof.
  split.
  - destruct (Admit_needs_SetKcpInformers (fun _ => inr [entitlementWith ["1"]])
                [Lifecycle.CallSetEntitlements] noCluster pipelineByAspian
                ByEntitlement.init) as (_ & H & _).
    refine (proj2 (H _) {| GetName := "alice";
                           GetGroups := ["system:authenticated"; "org/aspian"] |}
              eq_refl eq_refl eq_refl _).
    + intros [H'|[]]. discriminate.
    + discriminate.
  - destruct (Admit_needs_SetKcpInformers (fun _ => inr [entitlementWith ["1"]])
                [Lifecycle.CallSetKcpInformers] noCluster pipelineByAspian
                ByEntitlement.init) as (_ & _ & H).
    rewrite (H eq_refl). reflexivity.
Defined.

(** * Validate *)

Section ValidateProps.
Import Validation.
Context {U B : Type}.
Variable GroupName : string.
Variable FromUnstructured : U -> string + B.
Variable ToUnstructured : B -> string + U.
Variable hasWorkspaceReference : B -> bool.

(** X14.  [Validate] returns an error only for the resource [apibindings]
    of the API group, and an error leaves the object as it was: the type
    error for an object that is not unstructured, the conversion error for
    one [FromUnstructured] refuses, and [ToUnstructured]'s error for a
    binding with a workspace reference.  A request for any other resource
    is accepted untouched, and the object is replaced only by the
    write-back of a binding with a workspace reference. *)
Theorem Validate_errors_and_write_back (a : Attributes U) :
  (forall e,
     fst (Validate GroupName FromUnstructured ToUnstructured hasWorkspaceReference a)
       = Some e ->
     isAPIBindings GroupName (GetResource a) = true /\
     snd (Validate GroupName FromUnstructured ToUnstructured hasWorkspaceReference a)
       = GetObject a /\
     match e with
     | UnexpectedType => GetObject a = Typed
     | FailedToConvert c =>
         exists u, GetObject a = Unstructured u /\ FromUnstructured u = inl c
     | WriteBack c =>
         exists u b, GetObject a = Unstructured u /\ FromUnstructured u = inr b /\
                     hasWorkspaceReference b = true /\ ToUnstructured b = inl c
     end) /\
  (isAPIBindings GroupName (GetResource a) = false ->
   Validate GroupName FromUnstructured ToUnstructured hasWorkspaceReference a
     = (None, GetObject a)) /\
  (snd (Validate GroupName FromUnstructured ToUnstructured hasWorkspaceReference a)
     = GetObject a \/
   exists u b raw,
     GetObject a = Unstructured u /\ FromUnstructured u = inr b /\
     hasWorkspaceReference b = true /\ ToUnstructured b = inr raw /\
     Validate GroupName FromUnstructured ToUnstructured hasWorkspaceReference a
       = (None, Unstructured raw)).
Proof.
  unfold Validate.
  destruct (isAPIBindings GroupName (GetResource a)) eqn:Er; cbn [negb].
  2: { cbn. split; [discriminate|]. split; [reflexivity|now left]. }
  destruct (GetObject a) as [u|] eqn:Eo.
  2: { cbn. split; [|split; [discriminate|now left]]. intros e' [= <-]. auto. }
  destruct (FromUnstructured u) as [c|b] eqn:Ef.
  { cbn. split; [|split; [discriminate|now left]]. intros e' [= <-].
    split; [reflexivity|]. split; [reflexivity|]. exists u. auto. }
  destruct (hasWorkspaceReference b) eqn:Ew; cbn [negb].
  2: { cbn. split; [discriminate|]. split; [discriminate|now left]. }
  destruct (ToUnstructured b) as [c|raw] eqn:Et; cbn.
  - split; [|split; [discriminate|now left]]. intros e' [= <-].
    split; [reflexivity|]. split; [reflexivity|]. exists u, b. auto.
  - split; [discriminate|]. split; [discriminate|]. right. exists u, b, raw. auto.
Qed.

(** X15.  Where [FromUnstructured] reads back what [ToUnstructured] wrote,
    a second [Validate] on the request a first one accepted accepts it too
    and leaves the object as the first one wrote it. *)
Theorem Validate_twice_changes_nothing
    (roundTrip : forall b raw, ToUnstructured b = inr raw -> FromUnstructured raw = inr b)
    (a : Attributes U) :
  fst (Validate GroupName FromUnstructured ToUnstructured hasWorkspaceReference a) = None ->
  Validate GroupName FromUnstructured ToUnstructured hasWorkspaceReference
    (afterValidate GroupName FromUnstructured ToUnstructured hasWorkspaceReference a)
  = (None, snd (Validate GroupName FromUnstructured ToUnstructured hasWorkspaceReference a)).
Proof.
  unfold afterValidate, Validate; cbn [GetResource GetObject].
  destruct (isAPIBindings GroupName (GetResource a)); cbn [negb]; [|reflexivity].
  destruct (GetObject a) as [u|] eqn:Eo; [|discriminate].
  destruct (FromUnstructured u) as [c|b] eqn:Ef; [discriminate|].
  destruct (hasWorkspaceReference b) eqn:Ew; cbn [negb].
  - destruct (ToUnstructured b) as [c|raw] eqn:Et; [discriminate|].
    intros _. cbn [fst snd]. now rewrite (roundTrip b raw Et), Ew, Et.
  - intros _. cbn [fst snd]. now rewrite Ef, Ew.
Qed.

End ValidateProps.

Lemma Validate_twice_witness :
  Validation.Validate exampleGroup exampleFrom exampleTo exampleReference
    (Validation.afterValidate exampleGroup exampleFrom exampleTo exampleReference
       exampleBinding)
  = (None, Validation.Unstructured (Some "root:org")).
Proof.
  apply (Validate_twice_changes_nothing exampleGroup exampleFrom exampleTo exampleReference).
  - intros b raw [= <-]. reflexivity.
  - reflexivity.
Defined.

(** * The test's check of the downstream list *)

(** X16.  The test's check of the downstream services passes exactly on a
    list of two items named [first] and [second], in either order: a third
    item, or two items of the same name, fail it. *)
Theorem downstreamCheck_two_names (items : list Mirror) :
  TestScheduling.downstreamCheck items = true <->
  exists a b, items = [a; b] /\
    (mirName a = "first" /\ mirName b = "second" \/
     mirName a = "second" /\ mirName b = "first").
Proof.
  unfold TestScheduling.downstreamCheck, TestScheduling.namesList. split.
  - intros H. apply andb_prop in H as [H Hn]. apply andb_prop in H as [_ Hl].
    apply Nat.eqb_eq in Hl. apply bool_decide_eq_true in Hn.
    destruct items as [|a [|b [|c rest]]]; try discriminate.
    exists a, b. split; [reflexivity|].
    cbn [fold_left TestScheduling.insertName] in Hn.
    destruct (String.eqb (mirName b) (mirName a)); [discriminate|].
    destruct (String.ltb (mirName b) (mirName a)); injection Hn as -> ->; auto.
  - intros (a & b & -> & [[Ea Eb]|[Ea Eb]]);
      cbn [length fold_left TestScheduling.insertName]; rewrite Ea, Eb; reflexivity.
Qed.

(** * Theorems: the label state machine and the sync agent *)

Lemma stateKey_inj k1 k2 : stateKey k1 = stateKey k2 -> k1 = k2.
Proof.
  unfold stateKey. intros H. exact (String.app_inj _ _ _ H).
Qed.

Lemma stateKey_isStateLabel key : isStateLabel (stateKey key) = true.
Proof. destruct key; reflexivity. Qed.

Lemma hasIntent_false o key : hasIntent o = false -> objLabels o !! stateKey key = None.
Proof.
  unfold hasIntent. intros H.
  destruct (objLabels o !! stateKey key) as [v|] eqn:E; [|reflexivity].
  apply elem_of_map_to_list in E. apply list_elem_of_In in E.
  assert (X : existsb (fun lv : string * string => isStateLabel (fst lv))
                (map_to_list (objLabels o)) = true).
  { apply existsb_exists. exists (stateKey key, v). split; [exact E|apply stateKey_isStateLabel]. }
  congruence.
Qed.

Lemma NoClear_refl a : NoClear a a.
Proof. intros v H. now left. Qed.

Lemma NoClear_None a : NoClear None a.
Proof. intros v H. discriminate. Qed.

Lemma NoClear_trans a b c : NoClear a b -> NoClear b c -> NoClear a c.
Proof.
  intros H1 H2 v Hv. destruct (H1 v Hv) as [Hb|[Hs Hb]].
  - exact (H2 v Hb).
  - destruct (H2 _ Hb) as [Hc|[Hs' _]].
    + right. now split.
    + discriminate.
Qed.

Lemma assign_NoClear key o l : NoClear (objLabels o !! l) (objLabels (assign key o) !! l).
Proof.
  unfold assign. destruct (objDeleting o); [apply NoClear_refl|].
  destruct (objLabels o !! stateKey key) eqn:E; [apply NoClear_refl|].
  intros v Hv. left. cbn. rewrite lookup_insert_ne; [exact Hv|].
  intros Heq. subst l. congruence.
Qed.

Lemma lose_NoClear key o l : NoClear (objLabels o !! l) (objLabels (lose key o) !! l).
Proof.
  unfold lose. destruct (objLabels o !! stateKey key) as [v|] eqn:E; [|apply NoClear_refl].
  destruct (String.eqb_spec v "Sync") as [->|]; [|apply NoClear_refl].
  intros w Hw. cbn. destruct (decide (stateKey key = l)) as [<-|Hne].
  - rewrite lookup_insert_eq. right. split; congruence.
  - rewrite lookup_insert_ne by exact Hne. now left.
Qed.

Lemma markDeleted_NoClear o l : NoClear (objLabels o !! l) (objLabels (markDeleted o) !! l).
Proof.
  intros v Hv. cbn. rewrite map_lookup_imap, Hv. cbn.
  destruct (isStateLabel l); cbn; [|now left].
  destruct (String.eqb_spec v "Sync") as [->|]; [right|left]; easy.
Qed.

(** A change of every object by a function that clears nothing. *)
Lemma imap_NoClear (f : ObjId -> Object -> Object) u key id :
  (forall i o, NoClear (objLabels o !! stateKey key) (objLabels (f i o) !! stateKey key)) ->
  NoClear (intentIn u key id) (intentIn (map_imap (fun i o => Some (f i o)) u) key id).
Proof.
  intros H. unfold intentIn. rewrite map_lookup_imap.
  destruct (u !! id) as [o|]; cbn; [apply H|apply NoClear_None].
Qed.

Lemma loseIn_NoClear workspace k u key id :
  NoClear (intentIn u key id) (intentIn (loseIn workspace k u) key id).
Proof.
  apply (imap_NoClear (fun i o => if String.eqb (idWorkspace i) workspace then lose k o else o)).
  intros i o. destruct (String.eqb (idWorkspace i) workspace);
    [apply lose_NoClear|apply NoClear_refl].
Qed.

Lemma assignIn_NoClear workspace k kinds u key id :
  NoClear (intentIn u key id) (intentIn (assignIn workspace k kinds u) key id).
Proof.
  apply (imap_NoClear (fun i o => if String.eqb (idWorkspace i) workspace
                                       && existsb (String.eqb (idKind i)) kinds
                                    then assign k o else o)).
  intros i o. destruct (_ && _); [apply assign_NoClear|apply NoClear_refl].
Qed.

Lemma loseOld_NoClear workspace old new u key id :
  NoClear (intentIn u key id) (intentIn (loseOld workspace old new u) key id).
Proof.
  unfold loseOld. destruct old as [k|]; [|apply NoClear_refl].
  destruct new as [k'|]; [destruct (String.eqb k k'); [apply NoClear_refl|]|];
    apply loseIn_NoClear.
Qed.

(** ** What an event does to the intents and to the mirrors *)

Lemma reconcile_NoClear pak workspace s key id :
  NoClear (intent s key id) (intent (reconcilePlacement pak workspace s) key id).
Proof.
  unfold reconcilePlacement, intent.
  destruct (placements s !! workspace) as [p|]; [|apply NoClear_refl].
  cbv zeta.
  destruct (match match plTarget p with
                  | Some k => findTarget k (eligible s (plLocation p))
                  | None => None
                  end with
            | Some kt => Some kt
            | None => smallestUID (eligible s (plLocation p))
            end) as [kt|]; cbn.
  - eapply NoClear_trans; [apply loseOld_NoClear|apply assignIn_NoClear].
  - apply loseOld_NoClear.
Qed.

Lemma reconcile_downstream pak workspace s :
  downstream (reconcilePlacement pak workspace s) = downstream s.
Proof.
  unfold reconcilePlacement.
  destruct (placements s !! workspace) as [p|]; [|reflexivity].
  cbv zeta.
  destruct (match match plTarget p with
                  | Some k => findTarget k (eligible s (plLocation p))
                  | None => None
                  end with
            | Some kt => Some kt
            | None => smallestUID (eligible s (plLocation p))
            end); reflexivity.
Qed.

Lemma event_downstream pak ev s :
  isSyncDown ev = false -> downstream (applyEvent pak ev s) = downstream s.
Proof.
  destruct ev; cbn; intros H; try reflexivity; try discriminate.
  - unfold createLocation. now destruct (locations s !! name).
  - unfold bindWorkspace. now rewrite reconcile_downstream.
  - unfold unbindWorkspace. now destruct (placements s !! workspace).
  - apply reconcile_downstream.
  - now destruct (namespaces s !! (workspace, name)).
  - unfold createObject.
    now destruct (upstream s !! id), (namespaces s !! (idWorkspace id, idNamespace id)).
  - unfold deleteObject. destruct (upstream s !! id) as [o|]; [|reflexivity].
    now destruct (hasIntent o).
Qed.

Lemma event_NoClear pak ev s key id :
  isSyncDown ev = false ->
  NoClear (intent s key id) (intent (applyEvent pak ev s) key id).
Proof.
  destruct ev; cbn; intros H; try apply NoClear_refl; try discriminate.
  - (* Deregister *)
    unfold intent. cbn. apply (imap_NoClear (fun _ o => lose key0 o)).
    intros i o. apply lose_NoClear.
  - unfold createLocation. destruct (locations s !! name); apply NoClear_refl.
  - (* Bind *)
    unfold bindWorkspace.
    match goal with |- NoClear _ (intent (reconcilePlacement _ _ ?s1) _ _) =>
      change (intent s key id) with (intent s1 key id) end.
    apply reconcile_NoClear.
  - (* Unbind *)
    unfold unbindWorkspace. destruct (placements s !! workspace) as [p|]; [|apply NoClear_refl].
    unfold intent. cbn. apply loseOld_NoClear.
  - apply reconcile_NoClear.
  - destruct (namespaces s !! (workspace, name)); apply NoClear_refl.
  - (* CreateObject *)
    unfold createObject.
    destruct (upstream s !! id0) as [o|] eqn:E; [apply NoClear_refl|].
    destruct (namespaces s !! (idWorkspace id0, idNamespace id0)); [|apply NoClear_refl].
    unfold intent, intentIn. cbn. destruct (decide (id0 = id)) as [->|Hne].
    + rewrite E. apply NoClear_None.
    + rewrite lookup_insert_ne by exact Hne. apply NoClear_refl.
  - (* DeleteObject *)
    unfold deleteObject. destruct (upstream s !! id0) as [o|] eqn:E; [|apply NoClear_refl].
    unfold intent, intentIn. destruct (hasIntent o) eqn:Hi; cbn.
    + destruct (decide (id0 = id)) as [->|Hne].
      * rewrite E, lookup_insert_eq. apply markDeleted_NoClear.
      * rewrite lookup_insert_ne by exact Hne. apply NoClear_refl.
    + destruct (decide (id0 = id)) as [->|Hne].
      * rewrite E, (hasIntent_false o key Hi). apply NoClear_None.
      * rewrite lookup_delete_ne by exact Hne. apply NoClear_refl.
Qed.

(** ** The sync agent's reconcile *)

(** A reconcile clears an intent only for its own object and target, from
    Removing, and with the mirror already gone. *)
Lemma syncDown_clears key0 id0 s key id v :
  intent s key id = Some v ->
  intent (syncDown key0 id0 s) key id = None ->
  v = "Removing" /\ key0 = key /\ id0 = id /\ mirror s key id = None.
Proof.
  unfold syncDown, intent, intentIn, mirror. intros Hv.
  destruct (upstream s !! id0) as [o|] eqn:Eo; [|congruence].
  destruct (objLabels o !! stateKey key0) as [w|] eqn:Ew; [|congruence].
  destruct (String.eqb_spec w "Sync"); [cbn; congruence|].
  destruct (String.eqb_spec w "Removing") as [->|]; [|congruence].
  destruct (downstream s !! (key0, id0)) eqn:Em; [cbn; congruence|].
  destruct (decide (id0 = id)) as [->|Hid].
  - rewrite Eo in Hv. destruct (decide (key0 = key)) as [->|Hk].
    + intros _. rewrite Ew in Hv. repeat split; congruence.
    + assert (Hl : delete (stateKey key0) (objLabels o) !! stateKey key = Some v).
      { rewrite lookup_delete_ne; [exact Hv|]. intros H. now apply stateKey_inj in H. }
      destruct (objDeleting _ && negb (hasIntent _)) eqn:Ep; cbn.
      * apply andb_true_iff in Ep. destruct Ep as [_ Ep].
        apply negb_true_iff in Ep. apply (hasIntent_false _ key) in Ep.
        cbn in Ep. congruence.
      * rewrite lookup_insert_eq. cbn. congruence.
  - destruct (objDeleting _ && negb (hasIntent _)); cbn.
    + rewrite lookup_delete_ne by exact Hid. congruence.
    + rewrite lookup_insert_ne by exact Hid. congruence.
Qed.

(** A reconcile leaves an intent that is Sync as it is. *)
Lemma syncDown_keeps_Sync key0 id0 s key id :
  intent s key id = Some "Sync" -> intent (syncDown key0 id0 s) key id = Some "Sync".
Proof.
  intros Hv. destruct (intent (syncDown key0 id0 s) key id) as [w|] eqn:E.
  - revert E. unfold syncDown, intent, intentIn in *.
    destruct (upstream s !! id0) as [o|] eqn:Eo; [|congruence].
    destruct (objLabels o !! stateKey key0) as [x|] eqn:Ex; [|congruence].
    destruct (String.eqb_spec x "Sync"); [cbn; congruence|].
    destruct (String.eqb_spec x "Removing") as [->|]; [|congruence].
    destruct (downstream s !! (key0, id0)); [cbn; congruence|].
    destruct (decide (id0 = id)) as [->|Hid].
    + rewrite Eo in Hv.
      assert (Hk : stateKey key0 <> stateKey key) by congruence.
      destruct (objDeleting _ && negb (hasIntent _)); cbn.
      * rewrite lookup_delete_eq. congruence.
      * rewrite lookup_insert_eq. cbn. rewrite lookup_delete_ne by exact Hk. congruence.
    + destruct (objDeleting _ && negb (hasIntent _)); cbn.
      * rewrite lookup_delete_ne by exact Hid. congruence.
      * rewrite lookup_insert_ne by exact Hid. congruence.
  - destruct (syncDown_clears _ _ _ _ _ _ Hv E) as [? _]. discriminate.
Qed.

(** The mirrors after a reconcile: the old one, or the fresh copy of an
    object whose intent for the target is Sync. *)
Lemma syncDown_mirror key0 id0 s key id m :
  mirror (syncDown key0 id0 s) key id = Some m ->
  mirror s key id = Some m \/
  (key0 = key /\ id0 = id /\
   exists o, upstream s !! id = Some o /\ objLabels o !! stateKey key = Some "Sync" /\
             m = mirrorOf key id o).
Proof.
  unfold syncDown, mirror.
  destruct (upstream s !! id0) as [o|] eqn:Eo; [|now left].
  destruct (objLabels o !! stateKey key0) as [w|] eqn:Ew; [|now left].
  destruct (String.eqb_spec w "Sync") as [->|].
  - cbn. destruct (decide ((key0, id0) = (key, id))) as [Heq|Hne].
    + injection Heq as -> ->. rewrite lookup_insert_eq. intros [= <-].
      right. repeat split. now exists o.
    + rewrite lookup_insert_ne by exact Hne. now left.
  - destruct (String.eqb_spec w "Removing") as [->|]; [|now left].
    destruct (downstream s !! (key0, id0)) eqn:Em.
    + cbn. destruct (decide ((key0, id0) = (key, id))) as [Heq|Hne].
      * rewrite Heq, lookup_delete_eq. discriminate.
      * rewrite lookup_delete_ne by exact Hne. now left.
    + destruct (objDeleting _ && negb (hasIntent _)); cbn; now left.
Qed.

(** A reconcile removes no mirror but its own, and only under Removing. *)
Lemma syncDown_mirror_gone key0 id0 s key id m :
  mirror s key id = Some m ->
  mirror (syncDown key0 id0 s) key id = None ->
  key0 = key /\ id0 = id /\ intent s key id = Some "Removing".
Proof.
  unfold syncDown, mirror, intent, intentIn. intros Hm.
  destruct (upstream s !! id0) as [o|] eqn:Eo; [|congruence].
  destruct (objLabels o !! stateKey key0) as [w|] eqn:Ew; [|congruence].
  destruct (String.eqb_spec w "Sync") as [->|].
  - cbn. destruct (decide ((key0, id0) = (key, id))) as [Heq|Hne].
    + rewrite Heq, lookup_insert_eq. discriminate.
    + rewrite lookup_insert_ne by exact Hne. congruence.
  - destruct (String.eqb_spec w "Removing") as [->|]; [|congruence].
    destruct (downstream s !! (key0, id0)) eqn:Em.
    + cbn. destruct (decide ((key0, id0) = (key, id))) as [Heq|Hne].
      * injection Heq as -> ->. intros _. rewrite Eo. now repeat split.
      * rewrite lookup_delete_ne by exact Hne. congruence.
    + destruct (objDeleting _ && negb (hasIntent _)); cbn; congruence.
Qed.

(** ** Invariants of the reachable states *)

Lemma NoOrphan_step pak ev s : NoOrphan s -> NoOrphan (applyEvent pak ev s).
Proof.
  intros IH key id Hn. destruct (isSyncDown ev) eqn:Ea.
  - destruct ev; try discriminate. cbn in *.
    destruct (mirror (syncDown key0 id0 s) key id) as [m|] eqn:Em; [|reflexivity].
    destruct (intent s key id) as [v|] eqn:Ev.
    + destruct (syncDown_clears _ _ _ _ _ _ Ev Hn) as (_ & -> & -> & Hm).
      apply syncDown_mirror in Em. destruct Em as [Em|(_ & _ & o & Ho & Hl & _)].
      * congruence.
      * unfold intent, intentIn in Ev. rewrite Ho in Ev.
        destruct (syncDown_clears key id s key id v) as (-> & _); [|exact Hn|congruence].
        unfold intent, intentIn. now rewrite Ho.
    + apply syncDown_mirror in Em. destruct Em as [Em|(_ & _ & o & Ho & Hl & _)].
      * rewrite (IH key id Ev) in Em. discriminate.
      * unfold intent, intentIn in Ev. rewrite Ho in Ev. congruence.
  - unfold mirror. rewrite (event_downstream pak ev s Ea). apply IH.
    destruct (intent s key id) as [v|] eqn:Ev; [|reflexivity].
    destruct (event_NoClear pak ev s key id Ea v Ev) as [H|[_ H]]; congruence.
Qed.

Lemma Tagged_step pak ev s : Tagged s -> Tagged (applyEvent pak ev s).
Proof.
  intros IH key id m Hm. destruct (isSyncDown ev) eqn:Ea.
  - destruct ev; try discriminate. cbn in Hm.
    apply syncDown_mirror in Hm. destruct Hm as [Hm|(_ & _ & o & _ & _ & ->)].
    + now apply IH.
    + cbn. rewrite lookup_insert_eq. now repeat split.
  - unfold mirror in Hm. rewrite (event_downstream pak ev s Ea) in Hm. now apply IH.
Qed.

Lemma runEvents_app pak evs ev s :
  runEvents pak (evs ++ [ev]) s = applyEvent pak ev (runEvents pak evs s).
Proof. unfold runEvents. now rewrite fold_left_app. Qed.

Lemma Reachable_ind_inv pak (P : State -> Prop) :
  P initial -> (forall ev s, P s -> P (applyEvent pak ev s)) ->
  forall s, Reachable pak s -> P s.
Proof.
  intros H0 Hs s [evs ->]. induction evs as [|ev evs IH] using rev_ind.
  - exact H0.
  - rewrite runEvents_app. now apply Hs.
Qed.

Lemma Reachable_NoOrphan pak s : Reachable pak s -> NoOrphan s.
Proof.
  apply Reachable_ind_inv.
  - intros key id _. reflexivity.
  - intros ev s'. apply NoOrphan_step.
Qed.

Lemma Reachable_Tagged pak s : Reachable pak s -> Tagged s.
Proof.
  apply Reachable_ind_inv.
  - intros key id m H. discriminate.
  - intros ev s'. apply Tagged_step.
Qed.

Lemma syncDown_intent_Some key0 id0 s key id w :
  intent (syncDown key0 id0 s) key id = Some w -> intent s key id = Some w.
Proof.
  unfold syncDown, intent, intentIn.
  destruct (upstream s !! id0) as [o|] eqn:Eo; [|easy].
  destruct (objLabels o !! stateKey key0) as [x|] eqn:Ex; [|easy].
  destruct (String.eqb_spec x "Sync"); [easy|].
  destruct (String.eqb_spec x "Removing") as [->|]; [|easy].
  destruct (downstream s !! (key0, id0)); [easy|].
  destruct (decide (id0 = id)) as [->|Hid].
  - rewrite Eo. destruct (objDeleting _ && negb (hasIntent _)); cbn.
    + rewrite lookup_delete_eq. discriminate.
    + rewrite lookup_insert_eq. cbn.
      destruct (decide (stateKey key0 = stateKey key)) as [<-|Hk].
      * rewrite lookup_delete_eq. discriminate.
      * now rewrite lookup_delete_ne by exact Hk.
  - destruct (objDeleting _ && negb (hasIntent _)); cbn.
    + now rewrite lookup_delete_ne by exact Hid.
    + now rewrite lookup_insert_ne by exact Hid.
Qed.

Lemma Intended_step pak ev s : Intended s -> Intended (applyEvent pak ev s).
Proof.
  intros IH key id m Hm. destruct (isSyncDown ev) eqn:Ea.
  - destruct ev; try discriminate. cbn in *.
    destruct (intent (syncDown key0 id0 s) key id) as [w|] eqn:Ew.
    + apply syncDown_intent_Some in Ew.
      apply syncDown_mirror in Hm. destruct Hm as [Hm|(_ & _ & o & Ho & Hl & _)].
      * destruct (IH key id m Hm); [left|right]; congruence.
      * unfold intent, intentIn in Ew. rewrite Ho in Ew. left. congruence.
    + apply syncDown_mirror in Hm. destruct Hm as [Hm|(_ & _ & o & Ho & Hl & _)].
      * destruct (IH key id m Hm) as [H|H];
          destruct (syncDown_clears _ _ _ _ _ _ H Ew) as (? & _ & _ & Hn); congruence.
      * assert (H : intent s key id = Some "Sync")
          by (unfold intent, intentIn; now rewrite Ho).
        destruct (syncDown_clears _ _ _ _ _ _ H Ew) as (? & _); discriminate.
  - unfold mirror in Hm. rewrite (event_downstream pak ev s Ea) in Hm.
    destruct (IH key id m Hm) as [H|H];
      destruct (event_NoClear pak ev s key id Ea _ H) as [H'|[? H']];
      auto; discriminate.
Qed.

Lemma Reachable_Intended pak s : Reachable pak s -> Intended s.
Proof.
  apply Reachable_ind_inv.
  - intros key id m H. discriminate.
  - intros ev s'. apply Intended_step.
Qed.

(** ** C9: two-phase deletion *)

(** C9.  For every object and target: an intent is cleared only by the sync
    agent's reconcile of that object on that target, only from Removing,
    and only when the mirror is already absent (and it stays absent); from
    Sync the next state is Sync or Removing, never absent; in every
    reachable state an object without the intent has no mirror on the
    target; and under Removing the agent first deletes the mirror, keeping
    the key, and clears the key on the reconcile that finds the mirror
    gone. *)
Theorem two_phase_deletion (PlacementAnnotationKey : string) :
  (forall s ev key id v,
     intent s key id = Some v ->
     intent (applyEvent PlacementAnnotationKey ev s) key id = None ->
     v = "Removing" /\ ev = SyncDown key id /\ mirror s key id = None /\
     mirror (applyEvent PlacementAnnotationKey ev s) key id = None) /\
  (forall s ev key id,
     intent s key id = Some "Sync" ->
     intent (applyEvent PlacementAnnotationKey ev s) key id = Some "Sync" \/
     intent (applyEvent PlacementAnnotationKey ev s) key id = Some "Removing") /\
  (forall s key id,
     Reachable PlacementAnnotationKey s -> intent s key id = None -> mirror s key id = None) /\
  (forall s key id m,
     intent s key id = Some "Removing" -> mirror s key id = Some m ->
     intent (applyEvent PlacementAnnotationKey (SyncDown key id) s) key id = Some "Removing" /\
     mirror (applyEvent PlacementAnnotationKey (SyncDown key id) s) key id = None) /\
  (forall s key id,
     intent s key id = Some "Removing" -> mirror s key id = None ->
     intent (applyEvent PlacementAnnotationKey (SyncDown key id) s) key id = None).
Proof.
  split; [|split; [|split; [|split]]].
  - intros s ev key id v Hv Hn. destruct (isSyncDown ev) eqn:Ea.
    + destruct ev; try discriminate. cbn in Hn |- *.
      destruct (syncDown_clears _ _ _ _ _ _ Hv Hn) as (-> & -> & -> & Hm).
      repeat split; [exact Hm|].
      destruct (mirror (syncDown key id s) key id) as [m|] eqn:Em; [|reflexivity].
      apply syncDown_mirror in Em. destruct Em as [Em|(_ & _ & o & Ho & Hl & _)].
      * congruence.
      * unfold intent, intentIn in Hv. rewrite Ho in Hv. congruence.
    + destruct (event_NoClear PlacementAnnotationKey ev s key id Ea v Hv) as [H|[_ H]];
        congruence.
  - intros s ev key id Hv. destruct (isSyncDown ev) eqn:Ea.
    + destruct ev; try discriminate. left. now apply syncDown_keeps_Sync.
    + destruct (event_NoClear PlacementAnnotationKey ev s key id Ea _ Hv) as [H|[_ H]]; auto.
  - intros s key id Hr. now apply (Reachable_NoOrphan PlacementAnnotationKey).
  - intros s key id m Hv Hm. cbn. unfold syncDown, intent, intentIn, mirror in *.
    destruct (upstream s !! id) as [o|] eqn:Eo; [|discriminate].
    rewrite Hv, Hm. cbn. rewrite Eo, lookup_delete_eq. now split.
  - intros s key id Hv Hm. cbn. unfold syncDown, intent, intentIn, mirror in *.
    destruct (upstream s !! id) as [o|] eqn:Eo; [|discriminate].
    rewrite Hv, Hm. cbn. destruct (objDeleting o && negb (hasIntent _)); cbn.
    + now rewrite lookup_delete_eq.
    + rewrite lookup_insert_eq. cbn. now rewrite lookup_delete_eq.
Qed.

Lemma two_phase_deletion_witness :
  let s := runEvents "placement" exampleLife initial in
  intent s "k1" exampleId = Some "Removing" /\
  intent (applyEvent "placement" (SyncDown "k1" exampleId) s) "k1" exampleId = None /\
  mirror s "k1" exampleId = None /\
  mirror (applyEvent "placement" (SyncDown "k1" exampleId) s) "k1" exampleId = None.
Proof.
  cbv zeta.
  assert (Hv : intent (runEvents "placement" exampleLife initial) "k1" exampleId
               = Some "Removing") by (vm_compute; reflexivity).
  assert (Hn : intent (applyEvent "placement" (SyncDown "k1" exampleId)
                         (runEvents "placement" exampleLife initial)) "k1" exampleId
               = None) by (vm_compute; reflexivity).
  destruct (two_phase_deletion "placement") as (Hclear & _).
  destruct (Hclear _ _ _ _ _ Hv Hn) as (_ & _ & Hm & Hm').
  repeat split; assumption.
Defined.

(** * Theorems: the resolver and the test's scenario *)

Ltac state_simpl :=
  unfold with_registry, with_locations, with_placements, with_namespaces,
         with_upstream, with_downstream, initial;
  cbn [registry locations placements namespaces upstream downstream].

Lemma selects_empty t : selects ∅ t = true.
Proof. unfold selects. now rewrite map_to_list_empty. Qed.

Lemma resolve_locations pak s name l sel :
  locations (applyEvent pak ResolveLocations s) !! name = Some l ->
  locInstanceSelector l = MatchLabels sel ->
  AvailableInstances l = Some (readyMatching (registry s) l sel).
Proof.
  cbn. rewrite lookup_fmap. destruct (locations s !! name) as [l0|]; [|discriminate].
  cbn. intros [= <-]. unfold resolveLocation.
  destruct (locInstanceSelector l0) as [sel0|] eqn:E; cbn; [|discriminate].
  now intros [= <-].
Qed.

(** The state after the test's set-up, for a ready target. *)
Lemma setUp_state pak key t user second :
  targetReady t = true -> user <> second ->
  runEvents pak (TestScheduling.setUp key t user second) initial =
  {| registry := {[ key := t ]};
     locations :=
       {[ TestScheduling.locationName :=
            {| locLabels := {["foo" := "42"]};
               locResource := syncTargetsResource;
               locInstanceSelector := MatchLabels ∅;
               AvailableInstances := Some 1%N;
               selectorError := false |} ]};
     placements := ∅;
     namespaces := <[(second, "default") := ∅]> {[ (user, "default") := ∅ ]};
     upstream := ∅;
     downstream := ∅ |}.
Proof.
  intros Hr Hne. unfold runEvents, TestScheduling.setUp.
  cbn [fold_left applyEvent]. unfold createLocation. state_simpl.
  rewrite lookup_empty. state_simpl.
  rewrite lookup_insert_ne by congruence. rewrite lookup_empty. state_simpl.
  rewrite lookup_empty. state_simpl.
  rewrite !insert_empty, map_fmap_singleton. unfold resolveLocation.
  cbn [locInstanceSelector TestScheduling.location locLabels locResource].
  unfold readyMatching, candidates. rewrite map_to_list_singleton.
  cbn [List.filter snd]. unfold isCandidate. rewrite Hr, selects_empty.
  reflexivity.
Qed.

Lemma runEvents_cat pak evs1 evs2 s :
  runEvents pak (evs1 ++ evs2) s = runEvents pak evs2 (runEvents pak evs1 s).
Proof. unfold runEvents. apply fold_left_app. Qed.

Lemma eligible_one s key t :
  registry s = {[ key := t ]} ->
  locations s = {[ TestScheduling.locationName := resolvedLocation ]} ->
  targetReady t = true ->
  eligible s TestScheduling.locationName = [(key, t)].
Proof.
  intros Hreg Hloc Hr. unfold eligible. rewrite Hloc, lookup_singleton_eq.
  cbn [locInstanceSelector resolvedLocation]. unfold candidates.
  rewrite Hreg, map_to_list_singleton. cbn [List.filter snd].
  unfold isCandidate. now rewrite Hr, selects_empty.
Qed.

(** Binding a workspace that has no placement yet, when the location has
    exactly one candidate. *)
Lemma bind_fresh pak workspace s key t :
  placements s !! workspace = None ->
  eligible s TestScheduling.locationName = [(key, t)] ->
  bindWorkspace pak workspace TestScheduling.locationName s =
  {| registry := registry s; locations := locations s;
     placements := <[workspace := boundTo key]> (placements s);
     namespaces := annotate pak workspace key (namespaces s);
     upstream := assignIn workspace key (supportedKinds t) (upstream s);
     downstream := downstream s |}.
Proof.
  intros Hp He. unfold bindWorkspace. rewrite Hp. unfold reconcilePlacement.
  state_simpl. rewrite lookup_insert_eq. cbv zeta.
  cbn [plLocation plTarget plPhase].
  match goal with |- context [eligible ?s1 _] =>
    change (eligible s1 TestScheduling.locationName)
      with (eligible s TestScheduling.locationName) end.
  rewrite He. cbn [smallestUID fst snd loseOld]. state_simpl.
  now rewrite insert_insert_eq.
Qed.

Lemma annotate_insert pak workspace key w n ann m :
  annotate pak workspace key (<[(w, n) := ann]> m) =
  <[(w, n) := if String.eqb w workspace
              then <[pak := workspace +:+ "/" +:+ key]> ann else ann]>
    (annotate pak workspace key m).
Proof. unfold annotate. now apply map_imap_insert_Some. Qed.

Lemma annotate_empty pak workspace key : annotate pak workspace key ∅ = ∅.
Proof. apply map_imap_empty. Qed.

Lemma assignIn_empty workspace key kinds : assignIn workspace key kinds ∅ = ∅.
Proof. apply map_imap_empty. Qed.

Lemma eqb_ne (a b : string) : a <> b -> String.eqb a b = false.
Proof. apply String.eqb_neq. Qed.

(** The state after the set-up and the first binding. *)
Lemma bindFirst_state pak key t user second :
  targetReady t = true -> user <> second ->
  runEvents pak (TestScheduling.setUp key t user second ++ TestScheduling.bindFirst user) initial =
  {| registry := {[ key := t ]};
     locations := {[ TestScheduling.locationName := resolvedLocation ]};
     placements := {[ user := boundTo key ]};
     namespaces := <[(second, "default") := ∅]>
                     {[ (user, "default") := {[ pak := user +:+ "/" +:+ key ]} ]};
     upstream := ∅;
     downstream := ∅ |}.
Proof.
  intros Hr Hne. rewrite runEvents_cat, (setUp_state pak key t user second Hr Hne).
  unfold runEvents, TestScheduling.bindFirst. cbn [fold_left applyEvent].
  rewrite (bind_fresh pak user _ key t); [| apply lookup_empty | now apply eligible_one ].
  state_simpl. rewrite assignIn_empty, insert_empty.
  rewrite <- (insert_empty (user, "default") ∅), !annotate_insert, annotate_empty.
  rewrite String.eqb_refl, (eqb_ne second user) by congruence.
  now rewrite !insert_empty.
Qed.

(** Creating an object that does not exist yet, in an existing namespace. *)
Lemma createObject_fresh id labels spec s ann :
  upstream s !! id = None ->
  namespaces s !! (idWorkspace id, idNamespace id) = Some ann ->
  createObject id labels spec s =
  with_upstream (<[id := {| objLabels := labels; objSpec := spec; objDeleting := false |}]>
                   (upstream s)) s.
Proof. intros Hu Hn. unfold createObject. now rewrite Hu, Hn. Qed.

(** The agent's reconcile of an object whose intent for the target is
    Sync. *)
Lemma syncDown_Sync key id s o :
  upstream s !! id = Some o ->
  objLabels o !! stateKey key = Some "Sync" ->
  syncDown key id s = with_downstream (<[(key, id) := mirrorOf key id o]> (downstream s)) s.
Proof. intros Hu Hl. unfold syncDown. now rewrite Hu, Hl. Qed.

Lemma serviceLabels_Sync key : TestScheduling.serviceLabels key !! stateKey key = Some "Sync".
Proof. unfold TestScheduling.serviceLabels. apply lookup_singleton_eq. Qed.

Lemma serviceId_ne w1 w2 : TestScheduling.serviceId w1 "first" <> TestScheduling.serviceId w2 "second".
Proof. unfold TestScheduling.serviceId. congruence. Qed.

(** The state at the end of [runFirst]. *)
Lemma runFirst_state pak key t user second :
  targetReady t = true -> user <> second ->
  runEvents pak (TestScheduling.runFirst key t user second) initial =
  {| registry := {[ key := t ]};
     locations := {[ TestScheduling.locationName := resolvedLocation ]};
     placements := {[ user := boundTo key ]};
     namespaces := <[(second, "default") := ∅]>
                     {[ (user, "default") := {[ pak := user +:+ "/" +:+ key ]} ]};
     upstream := {[ TestScheduling.serviceId user "first" :=
                      {| objLabels := TestScheduling.serviceLabels key;
                         objSpec := TestScheduling.serviceSpec; objDeleting := false |} ]};
     downstream := {[ (key, TestScheduling.serviceId user "first") :=
                        TestScheduling.serviceMirror user "first" key ]} |}.
Proof.
  intros Hr Hne. unfold TestScheduling.runFirst.
  rewrite app_assoc, runEvents_cat, (bindFirst_state pak key t user second Hr Hne).
  unfold runEvents, TestScheduling.syncService, TestScheduling.createService.
  cbn [fold_left applyEvent].
  erewrite createObject_fresh; [| apply lookup_empty | ].
  2:{ cbn [namespaces idWorkspace idNamespace TestScheduling.serviceId fst snd].
      rewrite lookup_insert_ne by congruence. apply lookup_singleton_eq. }
  state_simpl.
  erewrite syncDown_Sync; [| cbn [upstream]; rewrite insert_empty; apply lookup_singleton_eq
                           | apply serviceLabels_Sync ].
  state_simpl. now rewrite !insert_empty.
Qed.

(** Listing the mirrors of a target that holds one service. *)
Lemma list_one s key workspace name :
  downstream s = {[ (key, TestScheduling.serviceId workspace name) :=
                      TestScheduling.serviceMirror workspace name key ]} ->
  TestScheduling.downstreamServices s key = [TestScheduling.serviceMirror workspace name key].
Proof.
  intros Hd. unfold TestScheduling.downstreamServices, listDownstream.
  rewrite Hd, map_to_list_singleton. cbn [List.filter fst snd map].
  rewrite String.eqb_refl. cbn [List.filter fst snd map].
  unfold TestScheduling.serviceMirror, mirrorOf at 1 2.
  cbn [mirKind mirLabels idKind TestScheduling.serviceId TestScheduling.downstreamSelector fst snd].
  rewrite String.eqb_refl, bool_decide_eq_true_2; [reflexivity|].
  apply lookup_insert_eq.
Qed.

(** The state after both bindings. *)
Lemma bindSecond_state pak key t user second :
  targetReady t = true -> user <> second ->
  runEvents pak (TestScheduling.setUp key t user second ++ TestScheduling.bindFirst user
                 ++ TestScheduling.bindSecond second) initial =
  {| registry := {[ key := t ]};
     locations := {[ TestScheduling.locationName := resolvedLocation ]};
     placements := <[second := boundTo key]> {[ user := boundTo key ]};
     namespaces := <[(second, "default") := {[ pak := second +:+ "/" +:+ key ]}]>
                     {[ (user, "default") := {[ pak := user +:+ "/" +:+ key ]} ]};
     upstream := ∅;
     downstream := ∅ |}.
Proof.
  intros Hr Hne.
  rewrite app_assoc, runEvents_cat, (bindFirst_state pak key t user second Hr Hne).
  unfold runEvents, TestScheduling.bindSecond. cbn [fold_left applyEvent].
  rewrite (bind_fresh pak second _ key t);
    [| now apply lookup_singleton_ne | now apply eligible_one ].
  state_simpl. rewrite assignIn_empty.
  rewrite <- (insert_empty (user, "default") _), !annotate_insert, annotate_empty.
  rewrite String.eqb_refl, (eqb_ne user second) by congruence.
  now rewrite !insert_empty.
Qed.

(** The state at the end of [runBoth]. *)
Lemma runBoth_state pak key t user second :
  targetReady t = true -> user <> second ->
  runEvents pak (TestScheduling.runBoth key t user second) initial =
  {| registry := {[ key := t ]};
     locations := {[ TestScheduling.locationName := resolvedLocation ]};
     placements := <[second := boundTo key]> {[ user := boundTo key ]};
     namespaces := <[(second, "default") := {[ pak := second +:+ "/" +:+ key ]}]>
                     {[ (user, "default") := {[ pak := user +:+ "/" +:+ key ]} ]};
     upstream :=
       <[TestScheduling.serviceId second "second" :=
           {| objLabels := TestScheduling.serviceLabels key;
              objSpec := TestScheduling.serviceSpec; objDeleting := false |}]>
         {[ TestScheduling.serviceId user "first" :=
              {| objLabels := TestScheduling.serviceLabels key;
                 objSpec := TestScheduling.serviceSpec; objDeleting := false |} ]};
     downstream :=
       <[(key, TestScheduling.serviceId second "second") :=
           TestScheduling.serviceMirror second "second" key]>
         {[ (key, TestScheduling.serviceId user "first") :=
              TestScheduling.serviceMirror user "first" key ]} |}.
Proof.
  intros Hr Hne. unfold TestScheduling.runBoth.
  rewrite !app_assoc, runEvents_cat, <- !app_assoc.
  rewrite (bindSecond_state pak key t user second Hr Hne).
  unfold runEvents, TestScheduling.createService. cbn [fold_left applyEvent].
  erewrite (createObject_fresh (TestScheduling.serviceId user "first"));
    [| apply lookup_empty | ].
  2:{ cbn [namespaces idWorkspace idNamespace TestScheduling.serviceId fst snd].
      rewrite lookup_insert_ne by congruence. apply lookup_singleton_eq. }
  state_simpl. rewrite insert_empty.
  erewrite (createObject_fresh (TestScheduling.serviceId second "second")).
  2:{ cbn [upstream]. apply lookup_singleton_ne. apply serviceId_ne. }
  2:{ cbn [namespaces idWorkspace idNamespace TestScheduling.serviceId fst snd].
      apply lookup_insert_eq. }
  state_simpl.
  erewrite (syncDown_Sync key (TestScheduling.serviceId user "first")).
  2:{ cbn [upstream]. rewrite lookup_insert_ne by (apply not_eq_sym, serviceId_ne).
      apply lookup_singleton_eq. }
  2:{ apply serviceLabels_Sync. }
  state_simpl. rewrite insert_empty.
  erewrite syncDown_Sync; [| cbn [upstream]; apply lookup_insert_eq | apply serviceLabels_Sync ].
  state_simpl. reflexivity.
Qed.

(** A reconcile of a placement that is bound to the location's only
    candidate. *)
Lemma reconcile_bound pak workspace s key t :
  placements s !! workspace = Some (boundTo key) ->
  eligible s TestScheduling.locationName = [(key, t)] ->
  reconcilePlacement pak workspace s =
  {| registry := registry s; locations := locations s;
     placements := <[workspace := boundTo key]> (placements s);
     namespaces := annotate pak workspace key (namespaces s);
     upstream := assignIn workspace key (supportedKinds t) (upstream s);
     downstream := downstream s |}.
Proof.
  intros Hp He. unfold reconcilePlacement. rewrite Hp. cbv zeta.
  cbn [plLocation plTarget plPhase boundTo]. rewrite He.
  unfold findTarget. cbn [List.find fst snd]. rewrite String.eqb_refl.
  cbn [fst snd loseOld]. rewrite String.eqb_refl. reflexivity.
Qed.

Lemma assignIn_insert workspace key kinds id o u :
  assignIn workspace key kinds (<[id := o]> u) =
  <[id := if String.eqb (idWorkspace id) workspace && existsb (String.eqb (idKind id)) kinds
          then assign key o else o]> (assignIn workspace key kinds u).
Proof. unfold assignIn. now apply map_imap_insert_Some. Qed.

(** The service created without the label ends as the labelled one does. *)
Lemma runStamped_state pak key t user second :
  targetReady t = true -> user <> second ->
  existsb (String.eqb "services") (supportedKinds t) = true ->
  runEvents pak (TestScheduling.runStamped key t user second) initial =
  runEvents pak (TestScheduling.runFirst key t user second) initial.
Proof.
  intros Hr Hne Hk. rewrite (runFirst_state pak key t user second Hr Hne).
  unfold TestScheduling.runStamped.
  rewrite app_assoc, runEvents_cat, (bindFirst_state pak key t user second Hr Hne).
  unfold runEvents. cbn [fold_left applyEvent].
  erewrite (createObject_fresh (TestScheduling.serviceId user "first"));
    [| apply lookup_empty | ].
  2:{ cbn [namespaces idWorkspace idNamespace TestScheduling.serviceId fst snd].
      rewrite lookup_insert_ne by congruence. apply lookup_singleton_eq. }
  state_simpl.
  rewrite (reconcile_bound pak user _ key t);
    [| apply lookup_singleton_eq | now apply eligible_one ].
  state_simpl. rewrite assignIn_insert, assignIn_empty.
  cbn [idWorkspace idKind TestScheduling.serviceId fst snd].
  rewrite String.eqb_refl, Hk. cbn [andb]. unfold assign.
  cbn [objDeleting objLabels]. rewrite lookup_empty. unfold with_labels.
  cbn [objLabels objSpec objDeleting].
  rewrite <- (insert_empty (user, "default") _), !annotate_insert, annotate_empty.
  rewrite String.eqb_refl, (eqb_ne second user) by congruence.
  rewrite !insert_singleton_eq, !insert_empty.
  erewrite (syncDown_Sync key (TestScheduling.serviceId user "first")).
  2:{ cbn [upstream]. apply lookup_singleton_eq. }
  2:{ apply lookup_singleton_eq. }
  state_simpl. unfold TestScheduling.serviceMirror, TestScheduling.serviceLabels, stateKey,
    ClusterResourceStateLabelPrefix.
  now rewrite !insert_empty.
Qed.

(** Listing the mirrors of a target that holds the two services. *)
Lemma list_two s key user second :
  downstream s =
    <[(key, TestScheduling.serviceId second "second") :=
        TestScheduling.serviceMirror second "second" key]>
      {[ (key, TestScheduling.serviceId user "first") :=
           TestScheduling.serviceMirror user "first" key ]} ->
  TestScheduling.downstreamServices s key =
    [TestScheduling.serviceMirror second "second" key;
     TestScheduling.serviceMirror user "first" key] \/
  TestScheduling.downstreamServices s key =
    [TestScheduling.serviceMirror user "first" key;
     TestScheduling.serviceMirror second "second" key].
Proof.
  intros Hd. unfold TestScheduling.downstreamServices, listDownstream. rewrite Hd.
  assert (P : map_to_list
                (<[(key, TestScheduling.serviceId second "second") :=
                     TestScheduling.serviceMirror second "second" key]>
                   ({[ (key, TestScheduling.serviceId user "first") :=
                         TestScheduling.serviceMirror user "first" key ]}
                    : gmap (string * ObjId) Mirror))
              ≡ₚ [((key, TestScheduling.serviceId second "second"),
                   TestScheduling.serviceMirror second "second" key);
                  ((key, TestScheduling.serviceId user "first"),
                   TestScheduling.serviceMirror user "first" key)]).
  { etransitivity; [apply map_to_list_insert|now rewrite map_to_list_singleton].
    apply lookup_singleton_ne. intros [= H]. }
  symmetry in P. apply Permutation_length_2_inv in P.
  assert (K : forall w n,
             String.eqb (mirKind (TestScheduling.serviceMirror w n key)) "services"
             && bool_decide (mirLabels (TestScheduling.serviceMirror w n key)
                               !! fst (TestScheduling.downstreamSelector key)
                             = Some (snd (TestScheduling.downstreamSelector key))) = true).
  { intros w n. unfold TestScheduling.serviceMirror, mirrorOf.
    cbn [mirKind mirLabels idKind TestScheduling.serviceId TestScheduling.downstreamSelector
         fst snd].
    rewrite String.eqb_refl, bool_decide_eq_true_2; [reflexivity|apply lookup_insert_eq]. }
  destruct P as [-> | ->]; [left|right];
    cbn [List.filter fst snd map]; rewrite String.eqb_refl;
    cbn [List.filter fst snd map]; now rewrite !K.
Qed.

(** * C5, C6, C7, C8 *)

(** C5.  The sync intent of an object for a target is the label
    [state.workload.kcp.dev/<target key>] with the value [Sync]: that is
    what the placement engine's assignment writes, what the test's services
    carry, and the only label under which the sync agent creates a mirror;
    and in every reachable state every mirror on a target carries the label
    [internal.workload.kcp.dev/cluster] with the target's key as value (the
    selector the test lists by), names its source object, and belongs to an
    object whose intent for the target is Sync or Removing. *)
Theorem sync_intent_and_provenance_labels (PlacementAnnotationKey : string) :
  (forall key o,
     objDeleting o = false ->
     objLabels o !! ("state.workload.kcp.dev/" +:+ key) = None ->
     objLabels (assign key o) !! ("state.workload.kcp.dev/" +:+ key) = Some "Sync") /\
  (forall key,
     TestScheduling.serviceLabels key !! ("state.workload.kcp.dev/" +:+ key) = Some "Sync" /\
     TestScheduling.downstreamSelector key = ("internal.workload.kcp.dev/cluster", key)) /\
  (forall s ev key id m,
     mirror s key id = None ->
     mirror (applyEvent PlacementAnnotationKey ev s) key id = Some m ->
     ev = SyncDown key id /\
     exists o, upstream s !! id = Some o /\
               objLabels o !! ("state.workload.kcp.dev/" +:+ key) = Some "Sync") /\
  (forall s key id m,
     Reachable PlacementAnnotationKey s -> mirror s key id = Some m ->
     mirLabels m !! "internal.workload.kcp.dev/cluster" = Some key /\
     mirSource m = id /\ mirName m = idName id /\ mirKind m = idKind id /\
     (intent s key id = Some "Sync" \/ intent s key id = Some "Removing")).
Proof.
  split; [|split; [|split]].
  - intros key o Hd Hl. unfold assign. rewrite Hd.
    change (stateKey key) with ("state.workload.kcp.dev/" +:+ key). rewrite Hl.
    cbn. apply lookup_insert_eq.
  - intros key. split; [apply serviceLabels_Sync|reflexivity].
  - intros s ev key id m Hn Hm. destruct (isSyncDown ev) eqn:Ea.
    + destruct ev; try discriminate. cbn in Hm.
      apply syncDown_mirror in Hm. destruct Hm as [Hm|(-> & -> & o & Ho & Hl & _)].
      * congruence.
      * split; [reflexivity|]. now exists o.
    + unfold mirror in *. rewrite (event_downstream _ ev s Ea) in Hm. congruence.
  - intros s key id m Hr Hm.
    destruct (Reachable_Tagged _ s Hr key id m Hm) as (H1 & H2 & H3 & H4).
    repeat split; try assumption.
    exact (Reachable_Intended _ s Hr key id m Hm).
Qed.

Lemma sync_intent_and_provenance_labels_witness :
  let s := runEvents "placement" (firstn 3 exampleLife) initial in
  mirLabels (mirrorOf "k1" exampleId
               {| objLabels := {[ stateKey "k1" := "Sync" ]}; objSpec := "ports: 80";
                  objDeleting := false |})
    !! "internal.workload.kcp.dev/cluster" = Some "k1" /\
  intent s "k1" exampleId = Some "Sync".
Proof.
  cbv zeta.
  assert (Hr : Reachable "placement" (runEvents "placement" (firstn 3 exampleLife) initial))
    by (now exists (firstn 3 exampleLife)).
  assert (Hm : mirror (runEvents "placement" (firstn 3 exampleLife) initial) "k1" exampleId
               = Some (mirrorOf "k1" exampleId
                         {| objLabels := {[ stateKey "k1" := "Sync" ]};
                            objSpec := "ports: 80"; objDeleting := false |}))
    by (vm_compute; reflexivity).
  destruct (sync_intent_and_provenance_labels "placement") as (_ & _ & _ & H).
  destruct (H _ _ _ _ Hr Hm) as (Hl & _ & _ & _ & [Hi|Hi]).
  - split; assumption.
  - exfalso. revert Hi. vm_compute. discriminate.
Defined.

Lemma resolveLocation_idem reg l :
  resolveLocation reg (resolveLocation reg l) = resolveLocation reg l.
Proof.
  unfold resolveLocation. destruct (locInstanceSelector l) eqn:E; cbn; [|reflexivity].
  unfold readyMatching, candidates, isCandidate. reflexivity.
Qed.

(** A location whose selector is malformed keeps its last count and
    reports the error. *)
Lemma resolve_malformed pak s name l :
  locations s !! name = Some l ->
  locInstanceSelector l = Malformed ->
  exists l', locations (applyEvent pak ResolveLocations s) !! name = Some l' /\
             AvailableInstances l' = AvailableInstances l /\ selectorError l' = true.
Proof.
  intros Hl Hs. cbn. rewrite lookup_fmap, Hl. cbn. unfold resolveLocation. rewrite Hs.
  eexists. split; [reflexivity|]. now split.
Qed.

(** ** The count of a location against the ready, matching targets *)

Lemma gvr_eqb_eq a b : gvr_eqb a b = true <-> a = b.
Proof.
  unfold gvr_eqb. destruct a as [g v r], b as [g' v' r']; cbn. split.
  - intros H. apply andb_prop in H as [H Hr]. apply andb_prop in H as [Hg Hv].
    apply String.eqb_eq in Hg, Hv, Hr. now subst.
  - intros [= -> -> ->]. now rewrite !String.eqb_refl.
Qed.

Lemma selects_spec sel t :
  selects sel t = true <->
  forall label value, sel !! label = Some value -> targetLabels t !! label = Some value.
Proof.
  unfold selects. rewrite forallb_forall. split.
  - intros H label value Hl.
    specialize (H (label, value)). cbn in H.
    eapply bool_decide_eq_true_1, H.
    apply list_elem_of_In, elem_of_map_to_list. exact Hl.
  - intros H [label value] Hin. cbn. apply bool_decide_eq_true_2, H.
    apply list_elem_of_In, elem_of_map_to_list in Hin. exact Hin.
Qed.

Lemma isCandidate_spec l sel t : isCandidate l sel t = true <-> IsReadyMatching l sel t.
Proof.
  unfold isCandidate, IsReadyMatching. rewrite !andb_true_iff, gvr_eqb_eq, selects_spec.
  tauto.
Qed.

Lemma NoDup_fst_filter {A B} (f : A * B -> bool) (l : list (A * B)) :
  NoDup (map fst l) -> NoDup (map fst (List.filter f l)).
Proof.
  induction l as [|x l IH]; cbn; [constructor|].
  intros H. apply NoDup_cons in H as [Hx Hl].
  destruct (f x); cbn; [|now apply IH].
  apply NoDup_cons. split; [|now apply IH].
  intros Hin. apply Hx. apply list_elem_of_In in Hin. apply list_elem_of_In.
  apply in_map_iff in Hin as (y & Hy & Hin). apply filter_In in Hin as [Hin _].
  apply in_map_iff. now exists y.
Qed.

Lemma fmap_fst_map {A B} (l : list (A * B)) : l.*1 = map fst l.
Proof. induction l as [|x l IH]; cbn; [reflexivity|now f_equal]. Qed.

(** The resolver's count is the cardinality of the ready-matching set. *)
Lemma readyMatching_cardinality reg l sel :
  IsCardinalityOfReadyMatching reg l sel (readyMatching reg l sel).
Proof.
  exists (map fst (candidates reg l sel)). split; [|split].
  - unfold candidates. apply NoDup_fst_filter. rewrite <- fmap_fst_map.
    apply NoDup_fst_map_to_list.
  - unfold readyMatching. now rewrite length_map.
  - intros key. unfold candidates. rewrite in_map_iff. split.
    + intros ([k t] & <- & Hin). cbn. apply filter_In in Hin as [Hin Hc]. cbn in Hc.
      exists t. split; [|now apply isCandidate_spec].
      apply list_elem_of_In, elem_of_map_to_list in Hin. exact Hin.
    + intros (t & Ht & Hm). exists (key, t). split; [reflexivity|].
      apply filter_In. split; [|now apply isCandidate_spec].
      apply list_elem_of_In, elem_of_map_to_list. exact Ht.
Qed.

Lemma cardinality_unique reg l sel n n' :
  IsCardinalityOfReadyMatching reg l sel n ->
  IsCardinalityOfReadyMatching reg l sel n' -> n = n'.
Proof.
  intros (keys & Hd & -> & Hk) (keys' & Hd' & -> & Hk'). f_equal.
  apply Permutation_length. apply NoDup_Permutation; [exact Hd|exact Hd'|].
  intros key. rewrite !list_elem_of_In, Hk, Hk'. reflexivity.
Qed.

(** The cardinality sees a location through its resource filter only. *)
Lemma cardinality_same_resource reg l l' sel n :
  locResource l' = locResource l ->
  IsCardinalityOfReadyMatching reg l sel n -> IsCardinalityOfReadyMatching reg l' sel n.
Proof.
  intros Hr (keys & Hd & Hn & Hk). exists keys. split; [exact Hd|]. split; [exact Hn|].
  intros key. rewrite Hk. unfold IsReadyMatching. now rewrite Hr.
Qed.

(** One more target under a key the registry did not hold. *)
Lemma cardinality_insert reg l sel n key t :
  IsCardinalityOfReadyMatching reg l sel n -> reg !! key = None ->
  (IsReadyMatching l sel t -> IsCardinalityOfReadyMatching (<[key := t]> reg) l sel (n + 1)) /\
  (~ IsReadyMatching l sel t -> IsCardinalityOfReadyMatching (<[key := t]> reg) l sel n).
Proof.
  intros (keys & Hd & -> & Hk) Hfresh.
  assert (Hnot : ~ In key keys).
  { intros Hin. apply Hk in Hin as (t' & Ht' & _). congruence. }
  split; intros Hm.
  - exists (key :: keys). split; [|split].
    + apply NoDup_cons. split; [|exact Hd]. now rewrite list_elem_of_In.
    + cbn [length]. lia.
    + intros k. cbn [In]. rewrite Hk. destruct (decide (k = key)) as [->|Hne].
      * rewrite lookup_insert_eq. split; [intros _; now exists t|now left].
      * rewrite lookup_insert_ne by congruence. split.
        -- intros [Heq|H]; [congruence|exact H].
        -- intros H. now right.
  - exists keys. split; [exact Hd|]. split; [reflexivity|].
    intros k. rewrite Hk. destruct (decide (k = key)) as [->|Hne].
    + rewrite lookup_insert_eq, Hfresh. split.
      * intros (t' & Ht' & _). discriminate.
      * intros (t' & [= <-] & Hm'). contradiction.
    + now rewrite lookup_insert_ne by congruence.
Qed.

(** The reconcile of a location the event before it left alone. *)
Lemma resolve_after pak s s' name l sel :
  locations s' = locations s ->
  locations s !! name = Some l ->
  locInstanceSelector l = MatchLabels sel ->
  exists l',
    locations (applyEvent pak ResolveLocations s') !! name = Some l' /\
    locInstanceSelector l' = MatchLabels sel /\
    locResource l' = locResource l /\
    AvailableInstances l' = Some (readyMatching (registry s') l sel).
Proof.
  intros Hsame Hl Hs. cbn. rewrite lookup_fmap, Hsame, Hl. cbn.
  eexists. split; [reflexivity|]. unfold resolveLocation. rewrite Hs. cbn.
  repeat split; auto.
Qed.

(** C6.  After the resolver's reconcile, every location (with a selector
    that can be evaluated) has [AvailableInstances] present and equal to
    the cardinality of the set of ready targets of the registry that match
    it, a number that the set determines; this holds in whatever state the
    reconcile runs, so after any registry mutation.  What the mutations do
    to the count: registering a ready, matching target under a new key
    raises it by one, registering any other target leaves it; a heartbeat
    that reports a counted target not ready, and its deregistration, lower
    it by one; a heartbeat that reports ready a target that matches but was
    not ready raises it by one; and until the reconcile runs the field
    keeps its old value.  Reconciling twice changes nothing more.  In the
    test's set-up, one ready sync target and the location [us-east1], the
    field is present and equal to 1, which is the test's check. *)
Theorem availableInstances_counts_ready_matching (PlacementAnnotationKey : string) :
  (forall reg l sel n n',
     IsCardinalityOfReadyMatching reg l sel n ->
     IsCardinalityOfReadyMatching reg l sel n' -> n = n') /\
  (forall s name l sel,
     locations (applyEvent PlacementAnnotationKey ResolveLocations s) !! name = Some l ->
     locInstanceSelector l = MatchLabels sel ->
     exists n,
       AvailableInstances l = Some n /\
       IsCardinalityOfReadyMatching
         (registry (applyEvent PlacementAnnotationKey ResolveLocations s)) l sel n) /\
  (forall s key t name l sel n,
     registry s !! key = None ->
     locations s !! name = Some l ->
     locInstanceSelector l = MatchLabels sel ->
     IsCardinalityOfReadyMatching (registry s) l sel n ->
     locations (applyEvent PlacementAnnotationKey (Register key t) s) !! name = Some l /\
     exists l',
       locations (applyEvent PlacementAnnotationKey ResolveLocations
                    (applyEvent PlacementAnnotationKey (Register key t) s)) !! name
         = Some l' /\
       (IsReadyMatching l sel t -> AvailableInstances l' = Some (n + 1)%N) /\
       (~ IsReadyMatching l sel t -> AvailableInstances l' = Some n)) /\
  (forall s key t name l sel n ev,
     registry s !! key = Some t ->
     IsReadyMatching l sel t ->
     locations s !! name = Some l ->
     locInstanceSelector l = MatchLabels sel ->
     IsCardinalityOfReadyMatching (registry s) l sel n ->
     ev = Heartbeat key false \/ ev = Deregister key ->
     locations (applyEvent PlacementAnnotationKey ev s) !! name = Some l /\
     exists l' n',
       locations (applyEvent PlacementAnnotationKey ResolveLocations
                    (applyEvent PlacementAnnotationKey ev s)) !! name = Some l' /\
       AvailableInstances l' = Some n' /\ n = (n' + 1)%N) /\
  (forall s key t name l sel n,
     registry s !! key = Some t ->
     targetReady t = false ->
     IsReadyMatching l sel (setReady true t) ->
     locations s !! name = Some l ->
     locInstanceSelector l = MatchLabels sel ->
     IsCardinalityOfReadyMatching (registry s) l sel n ->
     exists l',
       locations (applyEvent PlacementAnnotationKey ResolveLocations
                    (applyEvent PlacementAnnotationKey (Heartbeat key true) s)) !! name
         = Some l' /\
       AvailableInstances l' = Some (n + 1)%N) /\
  (forall s,
     applyEvent PlacementAnnotationKey ResolveLocations
       (applyEvent PlacementAnnotationKey ResolveLocations s)
     = applyEvent PlacementAnnotationKey ResolveLocations s) /\
  (forall key t user second,
     targetReady t = true -> user <> second ->
     exists l,
       locations (runEvents PlacementAnnotationKey
                    (TestScheduling.setUp key t user second) initial)
         !! TestScheduling.locationName = Some l /\
       AvailableInstances l = Some 1%N /\
       TestScheduling.availableInstancesCheck l = true).
Proof.
  assert (Del : forall reg l sel key t n,
            reg !! key = Some t ->
            IsCardinalityOfReadyMatching reg l sel n ->
            (IsReadyMatching l sel t -> (readyMatching (delete key reg) l sel + 1)%N = n) /\
            (~ IsReadyMatching l sel t -> readyMatching (delete key reg) l sel = n)).
  { intros reg l sel key t n Ht Hn.
    pose proof (cardinality_insert (delete key reg) l sel _ key t
                  (readyMatching_cardinality _ l sel) (lookup_delete_eq reg key)) as [H1 H2].
    rewrite insert_delete_id in H1, H2 by exact Ht.
    split; intros Hm.
    - exact (cardinality_unique _ _ _ _ _ (H1 Hm) Hn).
    - exact (cardinality_unique _ _ _ _ _ (H2 Hm) Hn). }
  split; [|split; [|split; [|split; [|split; [|split]]]]].
  - exact cardinality_unique.
  - intros s name l sel Hl Hs. eexists. split.
    + exact (resolve_locations PlacementAnnotationKey s name l sel Hl Hs).
    + apply readyMatching_cardinality.
  - intros s key t name l sel n Hfresh Hl Hs Hn. split; [exact Hl|].
    destruct (resolve_after PlacementAnnotationKey s
                (applyEvent PlacementAnnotationKey (Register key t) s) name l sel
                eq_refl Hl Hs) as (l' & Hl' & _ & _ & Ha).
    exists l'. split; [exact Hl'|]. rewrite Ha. cbn [applyEvent registry with_registry].
    destruct (cardinality_insert _ l sel n key t Hn Hfresh) as [H1 H2].
    split; intros Hm; f_equal.
    + exact (cardinality_unique _ _ _ _ _ (readyMatching_cardinality _ l sel) (H1 Hm)).
    + exact (cardinality_unique _ _ _ _ _ (readyMatching_cardinality _ l sel) (H2 Hm)).
  - intros s key t name l sel n ev Ht Hm Hl Hs Hn Hev.
    destruct (Del _ l sel key t n Ht Hn) as [Hd _]. specialize (Hd Hm).
    assert (Hloc : locations (applyEvent PlacementAnnotationKey ev s) = locations s)
      by (destruct Hev as [-> | ->]; reflexivity).
    split; [now rewrite Hloc|].
    destruct (resolve_after PlacementAnnotationKey s
                (applyEvent PlacementAnnotationKey ev s) name l sel Hloc Hl Hs)
      as (l' & Hl' & _ & _ & Ha).
    exists l', (readyMatching (delete key (registry s)) l sel).
    split; [exact Hl'|]. split; [|now symmetry].
    rewrite Ha. f_equal. destruct Hev as [-> | ->]; cbn [applyEvent registry with_registry
                                                          with_upstream].
    + assert (Hnot : ~ IsReadyMatching l sel (setReady false t))
        by (intros (Hr & _); discriminate).
      pose proof (cardinality_insert (delete key (registry s)) l sel _ key (setReady false t)
                    (readyMatching_cardinality _ l sel) (lookup_delete_eq _ key)) as [_ H2].
      rewrite insert_delete_eq in H2.
      replace (alter (setReady false) key (registry s))
        with (<[key := setReady false t]> (registry s)).
      * exact (cardinality_unique _ _ _ _ _ (readyMatching_cardinality _ l sel) (H2 Hnot)).
      * apply map_eq. intros k. destruct (decide (k = key)) as [->|Hne].
        -- now rewrite lookup_insert_eq, lookup_alter_eq, Ht.
        -- now rewrite lookup_insert_ne, lookup_alter_ne by congruence.
    + reflexivity.
  - intros s key t name l sel n Ht Hr Hm Hl Hs Hn.
    assert (Hnot : ~ IsReadyMatching l sel t) by (intros (Hr' & _); congruence).
    destruct (Del _ l sel key t n Ht Hn) as [_ Hd]. specialize (Hd Hnot).
    destruct (resolve_after PlacementAnnotationKey s
                (applyEvent PlacementAnnotationKey (Heartbeat key true) s) name l sel
                eq_refl Hl Hs) as (l' & Hl' & _ & _ & Ha).
    exists l'. split; [exact Hl'|]. rewrite Ha. f_equal.
    cbn [applyEvent registry with_registry].
    pose proof (cardinality_insert (delete key (registry s)) l sel _ key (setReady true t)
                  (readyMatching_cardinality _ l sel) (lookup_delete_eq _ key)) as [H1 _].
    rewrite insert_delete_eq, Hd in H1.
    replace (alter (setReady true) key (registry s))
      with (<[key := setReady true t]> (registry s)).
    + exact (cardinality_unique _ _ _ _ _ (readyMatching_cardinality _ l sel) (H1 Hm)).
    + apply map_eq. intros k. destruct (decide (k = key)) as [->|Hne].
      * now rewrite lookup_insert_eq, lookup_alter_eq, Ht.
      * now rewrite lookup_insert_ne, lookup_alter_ne by congruence.
  - intros s. cbn. unfold with_locations. cbn. f_equal.
    rewrite <- map_fmap_compose. apply map_fmap_ext. intros i l _.
    apply resolveLocation_idem.
  - intros key t user second Hr Hne. rewrite (setUp_state _ key t user second Hr Hne).
    cbn [locations]. eexists. split; [apply lookup_singleton_eq|]. now split.
Qed.

Lemma availableInstances_witness :
  let s := applyEvent "placement" ResolveLocations
             (runEvents "placement"
                [Register "k1" (TestScheduling.syncTarget "cluster-a");
                 CreateLocation TestScheduling.locationName TestScheduling.location]
                initial) in
  locations s !! TestScheduling.locationName = Some resolvedLocation /\
  exists n,
    AvailableInstances resolvedLocation = Some n /\
    IsCardinalityOfReadyMatching (registry s) resolvedLocation ∅ n.
Proof.
  cbv zeta.
  assert (Hl : locations
                 (applyEvent "placement" ResolveLocations
                    (runEvents "placement"
                       [Register "k1" (TestScheduling.syncTarget "cluster-a");
                        CreateLocation TestScheduling.locationName TestScheduling.location]
                       initial)) !! TestScheduling.locationName = Some resolvedLocation)
    by (vm_compute; reflexivity).
  split; [exact Hl|].
  destruct (availableInstances_counts_ready_matching "placement") as (_ & H & _).
  exact (H _ _ _ _ Hl eq_refl).
Defined.

(** C7.  In the test's run up to the first service (one ready sync target,
    the location, the workspace bound to it, the service [first] created
    and reconciled by the sync agent): the workspace's placement is bound to
    the target; the target's cluster holds exactly one mirror, named
    [first], with the label [internal.workload.kcp.dev/cluster] set to the
    target's key, and no other mirror exists anywhere; the workspace's
    [default] namespace carries the placement annotation (the test's last
    check).  A service created without the intent label, stamped by the
    placement engine's reconcile, ends in the same state when the target
    syncs services. *)
Theorem first_service_is_mirrored_once
    (PlacementAnnotationKey key : string) (t : ExecutionTarget) (user second : string) :
  targetReady t = true ->
  user <> second ->
  let s := runEvents PlacementAnnotationKey (TestScheduling.runFirst key t user second) initial in
  let m := TestScheduling.serviceMirror user "first" key in
  placements s !! user = Some (boundTo key) /\
  TestScheduling.downstreamServices s key = [m] /\
  (forall key' id m',
     mirror s key' id = Some m' ->
     key' = key /\ id = TestScheduling.serviceId user "first" /\ m' = m) /\
  mirName m = "first" /\
  mirLabels m !! "internal.workload.kcp.dev/cluster" = Some key /\
  TestScheduling.placementAnnotationCheck PlacementAnnotationKey s user = true /\
  (existsb (String.eqb "services") (supportedKinds t) = true ->
   runEvents PlacementAnnotationKey (TestScheduling.runStamped key t user second) initial = s).
Proof.
  intros Hr Hne s m. subst s m.
  split; [|split; [|split; [|split; [|split; [|split]]]]].
  - rewrite (runFirst_state _ key t user second Hr Hne). apply lookup_singleton_eq.
  - apply list_one. now rewrite (runFirst_state _ key t user second Hr Hne).
  - intros key' id m'. unfold mirror. rewrite (runFirst_state _ key t user second Hr Hne).
    cbn [downstream]. intros H. apply lookup_singleton_Some in H.
    destruct H as [[= -> ->] ->]. now repeat split.
  - reflexivity.
  - apply lookup_insert_eq.
  - unfold TestScheduling.placementAnnotationCheck.
    rewrite (runFirst_state _ key t user second Hr Hne). cbn [namespaces].
    rewrite lookup_insert_ne by congruence. rewrite lookup_singleton_eq.
    apply bool_decide_eq_true_2. rewrite lookup_singleton_eq. now eexists.
  - intros Hk. now apply runStamped_state.
Qed.

Lemma first_service_witness :
  let s := runEvents "placement"
             (TestScheduling.runFirst "k1" (TestScheduling.syncTarget "cluster-a")
                "root:org:user" "root:org:second") initial in
  TestScheduling.downstreamServices s "k1"
    = [TestScheduling.serviceMirror "root:org:user" "first" "k1"] /\
  TestScheduling.placementAnnotationCheck "placement" s "root:org:user" = true.
Proof.
  cbv zeta.
  destruct (first_service_is_mirrored_once "placement" "k1"
              (TestScheduling.syncTarget "cluster-a") "root:org:user" "root:org:second"
              eq_refl ltac:(discriminate)) as (_ & Hl & _ & _ & _ & Ha & _).
  split; assumption.
Defined.

(** C8.  In the test's whole run (both workspaces bound to the location,
    with the same single target; the services [first] and [second] created,
    one in each, and reconciled): the target's cluster lists exactly the two
    mirrors, named [first] and [second] (the test's checks pass); both carry
    the same label [internal.workload.kcp.dev/cluster=<key>]; each mirror
    names its own workspace as its source and no other mirror exists; and
    the mirror of [first] is the one of the run without the second
    service. *)
Theorem both_services_are_mirrored_apart
    (PlacementAnnotationKey key : string) (t : ExecutionTarget) (user second : string) :
  targetReady t = true ->
  user <> second ->
  let s := runEvents PlacementAnnotationKey (TestScheduling.runBoth key t user second) initial in
  let m1 := TestScheduling.serviceMirror user "first" key in
  let m2 := TestScheduling.serviceMirror second "second" key in
  TestScheduling.downstreamCheck (TestScheduling.downstreamServices s key) = true /\
  (forall m, In m (TestScheduling.downstreamServices s key) <-> m = m1 \/ m = m2) /\
  (forall key' id m,
     mirror s key' id = Some m ->
     key' = key /\
     ((id = TestScheduling.serviceId user "first" /\ m = m1) \/
      (id = TestScheduling.serviceId second "second" /\ m = m2))) /\
  (mirLabels m1 !! "internal.workload.kcp.dev/cluster" = Some key /\
   mirLabels m2 !! "internal.workload.kcp.dev/cluster" = Some key) /\
  (idWorkspace (mirSource m1) = user /\ idWorkspace (mirSource m2) = second /\
   mirName m1 = "first" /\ mirName m2 = "second") /\
  mirror s key (TestScheduling.serviceId user "first")
    = mirror (runEvents PlacementAnnotationKey (TestScheduling.runFirst key t user second) initial)
        key (TestScheduling.serviceId user "first") /\
  (placements s !! user = Some (boundTo key) /\ placements s !! second = Some (boundTo key)).
Proof.
  intros Hr Hne s m1 m2. subst s m1 m2.
  pose proof (runBoth_state PlacementAnnotationKey key t user second Hr Hne) as Hs.
  assert (Hd := f_equal downstream Hs). cbn [downstream] in Hd.
  split; [|split; [|split; [|split; [|split; [|split]]]]].
  - destruct (list_two _ key user second Hd) as [-> | ->]; reflexivity.
  - intros m. destruct (list_two _ key user second Hd) as [-> | ->]; cbn [In]; intuition.
  - intros key' id m. unfold mirror. rewrite Hd. intros H.
    apply lookup_insert_Some in H. destruct H as [[[= -> ->] <-]|[_ H]].
    + split; [reflexivity|]. right. now split.
    + apply lookup_singleton_Some in H. destruct H as [[= -> ->] <-].
      split; [reflexivity|]. left. now split.
  - split; apply lookup_insert_eq.
  - now repeat split.
  - unfold mirror. rewrite Hd, (runFirst_state _ key t user second Hr Hne). cbn [downstream].
    rewrite lookup_insert_ne, !lookup_singleton_eq; [reflexivity|].
    intros [= H].
  - rewrite Hs. cbn [placements]. split.
    + rewrite lookup_insert_ne by congruence. apply lookup_singleton_eq.
    + apply lookup_insert_eq.
Qed.

Lemma both_services_witness :
  let s := runEvents "placement"
             (TestScheduling.runBoth "k1" (TestScheduling.syncTarget "cluster-a")
                "root:org:user" "root:org:second") initial in
  TestScheduling.downstreamCheck (TestScheduling.downstreamServices s "k1") = true /\
  (forall m, In m (TestScheduling.downstreamServices s "k1") <->
             m = TestScheduling.serviceMirror "root:org:user" "first" "k1" \/
             m = TestScheduling.serviceMirror "root:org:second" "second" "k1").
Proof.
  cbv zeta.
  destruct (both_services_are_mirrored_apart "placement" "k1"
              (TestScheduling.syncTarget "cluster-a") "root:org:user" "root:org:second"
              eq_refl ltac:(discriminate)) as (Hc & Hi & _).
  split; assumption.
Defined.
